(** * Ouhud QR: the design resolver and the rendering pipeline

    A shallow embedding of [utils/qr_design.py] and of the parts of
    [utils/qr_generator.py] that decide the resolver's and the renderers'
    contracts, followed by the theorems about them.

    Conventions of the embedding:
    - a Python [str] is a [string] whose characters are read as the code
      points 0..255; code points above 255 are outside the model;
    - a Python [int] is a [Z];
    - a Python [float] is a real number of the standard library: rounding of
      binary64 arithmetic is not modelled, [x ** y] on a positive base is
      [Rpower x y]; the thresholds the theorems rely on are met with a wide
      margin (see [safe_pair_contrast_margin]);
    - a raised exception is the [Raise] case of [result];
    - a [dict] with string keys is a [gmap string _], a [set] of strings a
      [gset string];
    - [utils/qr_config.py], qrcode and Pillow are not among the sources: what
      the code takes from them is a [Variable] of the section that embeds
      it. *)

From Stdlib Require Import ZArith String Ascii List Reals Lra Lia DecimalString.
From stdpp Require Import base option gmap strings.

Local Open Scope string_scope.
Local Open Scope Z_scope.

(** ** The fragment of Python the two modules rely on *)
Module Py.

(** Values a caller can pass for a raw form field. *)
Inductive pyval : Type :=
| VNone
| VBool (b : bool)
| VInt (z : Z)
| VStr (s : string).

(** Exceptions that the modelled code can raise. *)
Inductive exn : Type :=
| KeyError (key : string)
| ValueError
| TypeError
| OSError (path : string)
  (* FileExistsError, NotADirectoryError, IsADirectoryError, FileNotFoundError *)
| LibraryError (name : string)
  (* an exception of qrcode or Pillow *).

Inductive result (A : Type) : Type :=
| Ok (a : A)
| Raise (e : exn).
Arguments Ok {A} a.
Arguments Raise {A} e.

#[global] Instance result_ret : MRet result := fun A a => Ok a.
#[global] Instance result_bind : MBind result := fun A B f c =>
  match c with
  | Ok a => f a
  | Raise e => Raise e
  end.

#[global] Instance result_fmap : FMap result := fun A B f c =>
  match c with
  | Ok a => Ok (f a)
  | Raise e => Raise e
  end.

Definition raises {A} (c : result A) : bool :=
  match c with Ok _ => false | Raise _ => true end.

(** [try: c except (TypeError, ValueError): h] *)
Definition try_except_type_value {A} (c : result A) (h : result A) : result A :=
  match c with
  | Raise TypeError | Raise ValueError => h
  | other => other
  end.

(** [bool(v)] *)
Definition truthy (v : pyval) : bool :=
  match v with
  | VNone => false
  | VBool b => b
  | VInt z => negb (Z.eqb z 0)
  | VStr s => negb (String.eqb s "")
  end.

(** [a or b] on values whose evaluation cannot fail. *)
Definition py_or (a b : pyval) : pyval := if truthy a then a else b.

(** [str(v)] *)
Definition str (v : pyval) : string :=
  match v with
  | VNone => "None"
  | VBool true => "True"
  | VBool false => "False"
  | VInt z => NilZero.string_of_int (Z.to_int z)
  | VStr s => s
  end.

Definition code (c : ascii) : N := N_of_ascii c.

(** [c.isspace()] for a code point below 256. *)
Definition isspace (c : ascii) : bool :=
  let n := code c in
  ((9 <=? n) && (n <=? 13) || (28 <=? n) && (n <=? 32)
   || (n =? 133) || (n =? 160))%N.

Fixpoint lstrip_with (p : ascii -> bool) (s : string) : string :=
  match s with
  | EmptyString => EmptyString
  | String c r => if p c then lstrip_with p r else s
  end.

Fixpoint rstrip_with (p : ascii -> bool) (s : string) : string :=
  match s with
  | EmptyString => EmptyString
  | String c r =>
      match rstrip_with p r with
      | EmptyString => if p c then EmptyString else String c EmptyString
      | r' => String c r'
      end
  end.

(** [s.strip()] *)
Definition strip (s : string) : string :=
  rstrip_with isspace (lstrip_with isspace s).

(** [s.lstrip(chars)] for a one-character [chars]. *)
Definition lstrip_char (ch : ascii) (s : string) : string :=
  lstrip_with (Ascii.eqb ch) s.

Definition lower_char (c : ascii) : ascii :=
  let n := code c in
  if ((65 <=? n) && (n <=? 90)
      || (192 <=? n) && (n <=? 222) && negb (n =? 215))%N
  then ascii_of_N (n + 32) else c.

(** [s.lower()] *)
Fixpoint lower (s : string) : string :=
  match s with
  | EmptyString => EmptyString
  | String c r => String (lower_char c) (lower r)
  end.

(** ["".join(ch * 2 for ch in s)] *)
Fixpoint double_chars (s : string) : string :=
  match s with
  | EmptyString => EmptyString
  | String c r => String c (String c (double_chars r))
  end.

Definition len (s : string) : Z := Z.of_nat (String.length s).

(** [s[i:j]] for [0 <= i <= j]. *)
Definition slice (i j : nat) (s : string) : string := substring i (j - i) s.

(** *** [int(s, base)] on a string, for base 10 and base 16

    Surrounding white space is dropped, one sign is allowed, base 16 admits
    a [0x] prefix, and single underscores may separate digits.  [None] is
    Python's [ValueError]. *)
Definition digit_value (c : ascii) : option Z :=
  let n := code c in
  if ((48 <=? n) && (n <=? 57))%N then Some (Z.of_N n - 48)
  else if ((97 <=? n) && (n <=? 122))%N then Some (Z.of_N n - 87)
  else if ((65 <=? n) && (n <=? 90))%N then Some (Z.of_N n - 55)
  else None.

Definition digit_in (base : Z) (c : ascii) : option Z :=
  match digit_value c with
  | Some d => if d <? base then Some d else None
  | None => None
  end.

Inductive scan_state : Type := AtStart | AfterDigit | AfterUnderscore.

(** The white space [int] skips around the digits: the blanks of C, and the
    two code points above 127 that count as white space. *)
Definition isspace_int (c : ascii) : bool :=
  let n := code c in
  ((9 <=? n) && (n <=? 13) || (n =? 32) || (n =? 133) || (n =? 160))%N.

Definition all_space (s : string) : bool :=
  String.eqb (lstrip_with isspace_int s) "".

(** The digit loop: [acc] is the value read so far, [st] what the previous
    character was. *)
Fixpoint scan_digits (base : Z) (st : scan_state) (acc : Z) (s : string)
  : option Z :=
  let finish rest :=
    match st with
    | AfterDigit => if all_space rest then Some acc else None
    | _ => None
    end in
  match s with
  | EmptyString => finish EmptyString
  | String c r =>
      match digit_in base c with
      | Some d => scan_digits base AfterDigit (acc * base + d) r
      | None =>
          if Ascii.eqb c "_" then
            match st with
            | AfterDigit => scan_digits base AfterUnderscore acc r
            | _ => None
            end
          else finish s
      end
  end.

Definition skip_prefix (base : Z) (s : string) : string :=
  if base =? 16 then
    match s with
    | String "0" (String x r) =>
        if Ascii.eqb x "x" || Ascii.eqb x "X" then
          match r with
          | String "_" r' => r'
          | _ => r
          end
        else s
    | _ => s
    end
  else s.

Definition parse_int (base : Z) (s : string) : option Z :=
  let s := lstrip_with isspace_int s in
  let '(neg, s) :=
    match s with
    | String "+" r => (false, r)
    | String "-" r => (true, r)
    | _ => (false, s)
    end in
  match scan_digits base AtStart 0 (skip_prefix base s) with
  | Some z => Some (if neg : bool then - z else z)
  | None => None
  end.

(** [int(v)] *)
Definition int (v : pyval) : result Z :=
  match v with
  | VNone => Raise TypeError
  | VBool b => Ok (if b then 1 else 0)
  | VInt z => Ok z
  | VStr s =>
      match parse_int 10 s with
      | Some z => Ok z
      | None => Raise ValueError
      end
  end.

(** [d[key]] *)
Definition subscript {V} (d : gmap string V) (key : string) : result V :=
  match d !! key with
  | Some v => Ok v
  | None => Raise (KeyError key)
  end.

(** [d.get(key)] on a dict of values. *)
Definition get (d : gmap string pyval) (key : string) : pyval :=
  default VNone (d !! key).

(** [key in d] and [x in {...}] *)
Definition has_key {V} (d : gmap string V) (key : string) : bool :=
  bool_decide (is_Some (d !! key)).

Definition in_set (x : string) (s : gset string) : bool := bool_decide (x ∈ s).

(** An [int] inside an f-string. *)
Definition fmt (z : Z) : string := str (VInt z).

(** [s.replace(ch, by)] for a one-character [ch]. *)
Fixpoint replace_char (ch : ascii) (by_ : string) (s : string) : string :=
  match s with
  | EmptyString => EmptyString
  | String c r =>
      if Ascii.eqb c ch then by_ +:+ replace_char ch by_ r
      else String c (replace_char ch by_ r)
  end.

(** [s.startswith(ch)] for a one-character [ch]. *)
Definition startswith_char (ch : ascii) (s : string) : bool :=
  match s with
  | String c _ => Ascii.eqb c ch
  | EmptyString => false
  end.

(** [enumerate(l)] *)
Fixpoint enumerate_from {A} (i : Z) (l : list A) : list (Z * A) :=
  match l with
  | [] => []
  | x :: r => (i, x) :: enumerate_from (i + 1) r
  end.

Definition enumerate {A} (l : list A) : list (Z * A) := enumerate_from 0 l.

(** [s.encode("utf-8")] for code points below 256. *)
Fixpoint encode_utf8 (s : string) : list N :=
  match s with
  | EmptyString => []
  | String c r =>
      let n := code c in
      if (n <? 128)%N then n :: encode_utf8 r
      else (192 + n / 64)%N :: (128 + n mod 64)%N :: encode_utf8 r
  end.

End Py.
Import Py.


(** ** [utils/qr_design.py] *)
Module qr_design.

(** One entry of [PRESET_EXPORT_CONFIG]: the dict with the keys ["size"],
    ["dpi"] and ["quiet_zone"]. *)
Record export_preset : Type := {
  preset_size : Z;
  preset_dpi : Z;
  preset_quiet_zone : Z;
}.

Definition PRESET_EXPORT_CONFIG : gmap string export_preset :=
  {[ "web" := {| preset_size := 600; preset_dpi := 144; preset_quiet_zone := 4 |};
     "print" := {| preset_size := 1200; preset_dpi := 300; preset_quiet_zone := 6 |};
     "sticker" := {| preset_size := 900; preset_dpi := 300; preset_quiet_zone := 6 |};
     "poster" := {| preset_size := 1800; preset_dpi := 300; preset_quiet_zone := 8 |} ]}.

(** The entries of [QRDesign.warnings]; each constructor stands for the
    message the source appends. *)
Inductive warning : Type :=
| LowContrast (ratio : R)
  (* "Low contrast ({ratio:.2f}:1). Recommended >= 4.5:1." *)
| ThinLineSmall
  (* "Thin-line modules at small size can reduce scan reliability." *)
| QuietZoneSmall
  (* "Quiet zone below 4 modules can break scanner detection." *)
| FloatingFrame
  (* "Floating CTA frame is decorative; test on low-end cameras." *)
| SafeModeCorrected
  (* "Safe mode auto-corrected risky settings for better scan reliability." *).

Record QRDesign : Type := {
  style : string;
  fg : string;
  bg : string;
  module_style : string;
  eye_style : string;
  qr_size : Z;
  output_preset : string;
  export_format : string;
  frame_style : string;
  logo_scale : Z;
  logo_bg_mode : string;
  quiet_zone : Z;
  dpi : Z;
  contrast_ratio : R;
  warnings : list warning;
  safe_mode : bool;
  safe_mode_applied : bool;
}.

Definition _normalize_size (raw_size output_preset : pyval) : result Z :=
  web ← subscript PRESET_EXPORT_CONFIG "web";
  let fallback :=
    preset_size
      (default web
         (PRESET_EXPORT_CONFIG !! lower (strip (str (py_or output_preset (VStr "")))))) in
  size ← try_except_type_value (int (py_or raw_size (VInt fallback))) (Ok fallback);
  mret (Z.max 200 (Z.min size 2000)).

(** [int(raw[i:j], 16)] answers [None] where Python raises [ValueError]. *)
Definition _hex_to_rgb (value : pyval) : Z * Z * Z :=
  let raw := lstrip_char "#" (strip (str (py_or value (VStr "")))) in
  let raw := if len raw =? 3 then double_chars raw else raw in
  if negb (len raw =? 6) then (13, 42, 120)
  else
    match parse_int 16 (slice 0 2 raw),
          parse_int 16 (slice 2 4 raw),
          parse_int 16 (slice 4 6 raw) with
    | Some r, Some g, Some b => (r, g, b)
    | _, _, _ => (13, 42, 120)
    end.

Definition comp (v : Z) : R :=
  let x := (IZR v / 255)%R in
  if Rle_dec x 0.03928 then (x / 12.92)%R
  else Rpower ((x + 0.055) / 1.055) 2.4.

Definition _relative_luminance (rgb : Z * Z * Z) : R :=
  let '(r, g, b) := rgb in
  (0.2126 * comp r + 0.7152 * comp g + 0.0722 * comp b)%R.

Definition _contrast_ratio (fg bg : pyval) : R :=
  let l1 := _relative_luminance (_hex_to_rgb fg) in
  let l2 := _relative_luminance (_hex_to_rgb bg) in
  let light := Rmax l1 l2 in
  let dark := Rmin l1 l2 in
  ((light + 0.05) / (dark + 0.05))%R.

Section resolver.

(** [utils/qr_config.py] is not part of the sources at hand: the theme table
    and the accessor it exports are parameters of the resolver.  A theme is
    the dict [get_qr_style] returns; the accessor is taken to return one for
    every key, and [QR_THEMES] is read through [in] only. *)
Variable QR_THEMES : gmap string (gmap string pyval).
Variable get_qr_style : string → gmap string pyval.

Definition resolve_design
    (style fg_color bg_color module_style eye_style qr_size output_preset
     export_format frame_style logo_scale logo_bg_mode safe_mode : pyval)
  : result QRDesign :=
  let style_key :=
    str (py_or (VStr (lower (strip (str (py_or style (VStr "modern"))))))
               (VStr "modern")) in
  let style_key :=
    if negb (String.eqb style_key "custom") && negb (has_key QR_THEMES style_key)
    then "classic" else style_key in
  let conf := get_qr_style style_key in
  let output := lower (strip (str (py_or output_preset (VStr "web")))) in
  let output := if has_key PRESET_EXPORT_CONFIG output then output else "web" in
  let export := lower (strip (str (py_or export_format (VStr "png")))) in
  preset_cfg ← subscript PRESET_EXPORT_CONFIG output;
  '(fg, bg, module, eye) ←
    (if String.eqb style_key "custom" then
       fg ← (if truthy fg_color then Ok fg_color else subscript conf "fg");
       bg ← (if truthy bg_color then Ok bg_color else subscript conf "bg");
       mret (str fg, str bg,
             str (py_or (py_or module_style (get conf "module_style")) (VStr "square")),
             str (py_or (py_or eye_style (get conf "eye_style")) (VStr "square")))
     else
       fg ← subscript conf "fg";
       bg ← subscript conf "bg";
       mret (str fg, str bg,
             str (py_or (get conf "module_style") (VStr "square")),
             str (py_or (get conf "eye_style") (VStr "square"))));
  qr_px ← _normalize_size qr_size (VStr output);
  let quiet_zone := Z.max 2 (Z.min (preset_quiet_zone preset_cfg) 12) in
  let dpi := Z.max 72 (Z.min (preset_dpi preset_cfg) 600) in
  let safe_raw :=
    match safe_mode with VNone => "" | _ => lower (strip (str safe_mode)) end in
  let safe_enabled :=
    match safe_mode with
    | VNone => false
    | _ => in_set safe_raw {[ "1"; "true"; "yes"; "on" ]}
    end in
  let safe_applied := false in
  let contrast := _contrast_ratio (VStr fg) (VStr bg) in
  let '(fg, bg, module, quiet_zone, contrast, safe_applied) :=
    if safe_enabled then
      let '(fg, contrast, safe_applied) :=
        if Rlt_dec contrast 4.5 then
          let bg_l := _relative_luminance (_hex_to_rgb (VStr bg)) in
          let fg := if Rgt_dec bg_l 0.5 then "#111111" else "#FFFFFF" in
          (fg, _contrast_ratio (VStr fg) (VStr bg), true)
        else (fg, contrast, safe_applied) in
      let '(fg, bg, contrast, safe_applied) :=
        if Rlt_dec contrast 4.5 then
          ("#0D2A78", "#FFFFFF",
           _contrast_ratio (VStr "#0D2A78") (VStr "#FFFFFF"), true)
        else (fg, bg, contrast, safe_applied) in
      let '(module, safe_applied) :=
        if String.eqb module "thin-line" && (qr_px <? 700) then ("square", true)
        else (module, safe_applied) in
      let '(quiet_zone, safe_applied) :=
        if quiet_zone <? 4 then (4, true) else (quiet_zone, safe_applied) in
      (fg, bg, module, quiet_zone, contrast, safe_applied)
    else (fg, bg, module, quiet_zone, contrast, safe_applied) in
  let frame := lower (strip (str (py_or frame_style (VStr "none")))) in
  let warnings :=
    ((if Rlt_dec contrast 4.5 then [LowContrast contrast] else [])
     ++ (if String.eqb module "thin-line" && (qr_px <? 700) then [ThinLineSmall] else [])
     ++ (if quiet_zone <? 4 then [QuietZoneSmall] else [])
     ++ (if String.eqb frame "floating" then [FloatingFrame] else [])
     ++ (if safe_enabled && safe_applied then [SafeModeCorrected] else []))%list in
  logo ← int (py_or logo_scale (VInt 20));
  mret {|
    style := style_key;
    fg := fg;
    bg := bg;
    module_style := module;
    eye_style := eye;
    qr_size := qr_px;
    output_preset := output;
    export_format :=
      if in_set export {[ "png"; "svg"; "pdf"; "zip" ]} then export else "png";
    frame_style := frame;
    logo_scale := Z.max 8 (Z.min logo 20);
    logo_bg_mode := lower (strip (str (py_or logo_bg_mode (VStr "auto-white"))));
    quiet_zone := quiet_zone;
    dpi := dpi;
    contrast_ratio := contrast;
    warnings := warnings;
    safe_mode := safe_enabled;
    safe_mode_applied := safe_applied;
  |}.

End resolver.

End qr_design.

(** ** [utils/qr_generator.py] *)
Module qr_generator.

Definition DEFAULT_FG : string := "#0D2A78".
Definition DEFAULT_BG : string := "#FFFFFF".

Definition _normalize_hex (value : pyval) (fallback : string) : string :=
  let raw := strip (str (py_or value (VStr ""))) in
  if startswith_char "#" raw && ((len raw =? 4) || (len raw =? 7))
  then raw else fallback.

(** *** The matrix builder *)

(** What the code reads of a [qrcode.QRCode] once [make] has run. *)
Record QRCode : Type := {
  border : Z;
  modules : list (list bool);
}.

(** [qr.get_matrix()] of the qrcode library: the modules, framed by [border]
    light cells on every side. *)
Definition get_matrix (qr : QRCode) : list (list bool) :=
  if border qr =? 0 then modules qr
  else
    let b := Z.to_nat (border qr) in
    let width := (length (modules qr) + b * 2)%nat in
    (repeat (repeat false width) b
     ++ map (fun row => repeat false b ++ row ++ repeat false b) (modules qr)
     ++ repeat (repeat false width) b)%list.

Section matrix_builder.

(** [qr.add_data(payload); qr.make(fit=True)] at error correction level H:
    the module grid, or the library's overflow error for a payload that fits
    no version. *)
Variable qr_make : string → result (list (list bool)).

Definition _build_qr (payload : string) (quiet_zone : pyval) : result QRCode :=
  q ← int (py_or quiet_zone (VInt 4));
  let border := Z.max 2 (Z.min q 12) in
  grid ← qr_make payload;
  mret {| border := border; modules := grid |}.

End matrix_builder.

(** *** Drawing on the raster image

    A call on an [ImageDraw] object is recorded as a command; a function
    that draws on an image answers the commands it issues, in order. *)
Inductive paint : Type :=
| Color (c : string)
| RGBA (r g b a : Z).

Definition box : Type := (Z * Z * Z * Z)%type.

Inductive draw_cmd : Type :=
| rounded_rectangle (xy : box) (radius : Z) (fill outline : option paint) (width : Z)
| ellipse (xy : box) (fill outline : option paint) (width : Z)
| text (xy : Z * Z) (s : string) (fill : paint).

Inductive module_drawer : Type :=
| SquareModuleDrawer
| RoundedModuleDrawer
| CircleModuleDrawer
| GappedSquareModuleDrawer
| VerticalBarsDrawer.

Definition _module_drawer (module_style : pyval) : module_drawer :=
  let style := lower (strip (str (py_or module_style (VStr "square")))) in
  default SquareModuleDrawer
    (({[ "square" := SquareModuleDrawer;
         "rounded" := RoundedModuleDrawer;
         "dots" := CircleModuleDrawer;
         "soft" := GappedSquareModuleDrawer;
         "squircle" := RoundedModuleDrawer;
         "thin-line" := VerticalBarsDrawer ]} : gmap string module_drawer) !! style).

(** [img] enters through its width only. *)
Definition _draw_eye_overlays
    (img_width : Z) (qr : QRCode) (fg bg : string) (eye_style : pyval)
  : list draw_cmd :=
  let style := lower (strip (str (py_or eye_style (VStr "square")))) in
  if in_set style {[ ""; "square" ]} then []
  else
    let matrix_size := Z.of_nat (length (get_matrix qr)) in
    if matrix_size <=? 0 then []
    else
      let module_px := Z.max 1 (img_width / matrix_size) in
      let border := border qr in
      let eye_modules := 7 in
      let eye_px := eye_modules * module_px in
      let origins :=
        [ (border * module_px, border * module_px);
          ((matrix_size - border - eye_modules) * module_px, border * module_px);
          (border * module_px, (matrix_size - border - eye_modules) * module_px) ] in
      let inset_outer := Z.max 1 module_px in
      let inset_inner := Z.max 2 (2 * module_px) in
      let fgc := Some (Color fg) in
      let bgc := Some (Color bg) in
      flat_map (fun '(ox, oy) =>
        let outer := (ox, oy, ox + eye_px, oy + eye_px) in
        let middle := (ox + inset_outer, oy + inset_outer,
                       ox + eye_px - inset_outer, oy + eye_px - inset_outer) in
        let inner := (ox + inset_inner, oy + inset_inner,
                      ox + eye_px - inset_inner, oy + eye_px - inset_inner) in
        if String.eqb style "rounded" then
          let radius := Z.max 6 (module_px * 2) in
          [ rounded_rectangle outer radius None fgc (Z.max 2 module_px);
            rounded_rectangle middle (Z.max 4 (radius - module_px)) bgc None 1;
            rounded_rectangle inner (Z.max 3 (radius - 2 * module_px)) fgc None 1 ]
        else if String.eqb style "ring" then
          [ ellipse outer None fgc (Z.max 2 module_px);
            ellipse middle bgc None 1;
            ellipse inner fgc None 1 ]
        else if String.eqb style "target" then
          [ rounded_rectangle outer (Z.max 4 module_px) None fgc (Z.max 2 module_px);
            rounded_rectangle middle (Z.max 3 module_px) bgc None 1;
            ellipse inner fgc None 1 ]
        else if String.eqb style "dots" then
          let cx := (ox + inset_inner + (ox + eye_px - inset_inner)) / 2 in
          let cy := (oy + inset_inner + (oy + eye_px - inset_inner)) / 2 in
          let r := Z.max 2 module_px in
          [ rounded_rectangle outer (Z.max 4 module_px) None fgc (Z.max 2 module_px);
            rounded_rectangle middle (Z.max 3 module_px) bgc None 1;
            ellipse (cx - r, cy - r, cx + r, cy + r) fgc None 1 ]
        else []) origins.

(** *** The renderer's own contrast computation *)

Definition _hex_to_rgb (hex_color : pyval) : Z * Z * Z :=
  let raw := lstrip_char "#" (strip (str (py_or hex_color (VStr "")))) in
  let raw := if len raw =? 3 then double_chars raw else raw in
  if negb (len raw =? 6) then (13, 42, 120)
  else
    match parse_int 16 (slice 0 2 raw),
          parse_int 16 (slice 2 4 raw),
          parse_int 16 (slice 4 6 raw) with
    | Some r, Some g, Some b => (r, g, b)
    | _, _, _ => (13, 42, 120)
    end.

Definition conv (v : Z) : R :=
  let x := (IZR v / 255)%R in
  if Rle_dec x 0.03928 then (x / 12.92)%R
  else Rpower ((x + 0.055) / 1.055) 2.4.

Definition _relative_luminance (rgb : Z * Z * Z) : R :=
  let '(r, g, b) := rgb in
  (0.2126 * conv r + 0.7152 * conv g + 0.0722 * conv b)%R.

Definition _contrast_ratio (fg bg : pyval) : R :=
  let l1 := _relative_luminance (_hex_to_rgb fg) in
  let l2 := _relative_luminance (_hex_to_rgb bg) in
  let light := Rmax l1 l2 in
  let dark := Rmin l1 l2 in
  ((light + 0.05) / (dark + 0.05))%R.


(** *** The vector compositor *)

(** The double-quote character, and a text between double quotes. *)
Definition dq : string := String (ascii_of_N 34) EmptyString.
Definition q (s : string) : string := dq +:+ s +:+ dq.

Definition _svg_eye_overlay (style : string) (x y s : Z) (fg bg : string) : string :=
  if String.eqb style "rounded" then
    let r := Z.max 3 (s / 6) in
    ("<rect x=" +:+ q (fmt x) +:+ " y=" +:+ q (fmt y) +:+ " width=" +:+ q (fmt s)
      +:+ " height=" +:+ q (fmt s) +:+ " rx=" +:+ q (fmt r) +:+ " ry=" +:+ q (fmt r)
      +:+ " fill=" +:+ q "none" +:+ " stroke=" +:+ q fg +:+ " stroke-width=" +:+ q "2"
      +:+ " />")
    +:+ ("<rect x=" +:+ q (fmt (x + s / 6)) +:+ " y=" +:+ q (fmt (y + s / 6)) +:+ " width="
      +:+ q (fmt ((s * 2) / 3)) +:+ " height=" +:+ q (fmt ((s * 2) / 3)) +:+ " rx="
      +:+ q (fmt (Z.max 2 (r / 2))) +:+ " ry=" +:+ q (fmt (Z.max 2 (r / 2))) +:+ " fill="
      +:+ q bg +:+ " />")
    +:+ ("<rect x=" +:+ q (fmt (x + s / 3)) +:+ " y=" +:+ q (fmt (y + s / 3)) +:+ " width="
      +:+ q (fmt (s / 3)) +:+ " height=" +:+ q (fmt (s / 3)) +:+ " rx="
      +:+ q (fmt (Z.max 2 (r / 3))) +:+ " ry=" +:+ q (fmt (Z.max 2 (r / 3))) +:+ " fill="
      +:+ q fg +:+ " />")
  else if String.eqb style "ring" then
    let c := x + s / 2 in
    let r := s / 2 in
    ("<circle cx=" +:+ q (fmt c) +:+ " cy=" +:+ q (fmt (y + r)) +:+ " r=" +:+ q (fmt r)
      +:+ " fill=" +:+ q "none" +:+ " stroke=" +:+ q fg +:+ " stroke-width=" +:+ q "2"
      +:+ " />")
    +:+ ("<circle cx=" +:+ q (fmt c) +:+ " cy=" +:+ q (fmt (y + r)) +:+ " r="
      +:+ q (fmt ((r * 2) / 3)) +:+ " fill=" +:+ q bg +:+ " />")
    +:+ ("<circle cx=" +:+ q (fmt c) +:+ " cy=" +:+ q (fmt (y + r)) +:+ " r="
      +:+ q (fmt (Z.max 2 (r / 3))) +:+ " fill=" +:+ q fg +:+ " />")
  else if String.eqb style "target" then
    let c := x + s / 2 in
    let r := s / 2 in
    ("<rect x=" +:+ q (fmt x) +:+ " y=" +:+ q (fmt y) +:+ " width=" +:+ q (fmt s)
      +:+ " height=" +:+ q (fmt s) +:+ " rx=" +:+ q "6" +:+ " ry=" +:+ q "6" +:+ " fill="
      +:+ q "none" +:+ " stroke=" +:+ q fg +:+ " stroke-width=" +:+ q "2" +:+ " />")
    +:+ ("<circle cx=" +:+ q (fmt c) +:+ " cy=" +:+ q (fmt (y + r)) +:+ " r="
      +:+ q (fmt ((r * 2) / 3)) +:+ " fill=" +:+ q bg +:+ " />")
    +:+ ("<circle cx=" +:+ q (fmt c) +:+ " cy=" +:+ q (fmt (y + r)) +:+ " r="
      +:+ q (fmt (Z.max 2 (r / 3))) +:+ " fill=" +:+ q fg +:+ " />")
  else if String.eqb style "dots" then
    let c := x + s / 2 in
    let r := s / 2 in
    ("<rect x=" +:+ q (fmt x) +:+ " y=" +:+ q (fmt y) +:+ " width=" +:+ q (fmt s)
      +:+ " height=" +:+ q (fmt s) +:+ " rx=" +:+ q "6" +:+ " ry=" +:+ q "6" +:+ " fill="
      +:+ q "none" +:+ " stroke=" +:+ q fg +:+ " stroke-width=" +:+ q "2" +:+ " />")
    +:+ ("<rect x=" +:+ q (fmt (x + s / 6)) +:+ " y=" +:+ q (fmt (y + s / 6)) +:+ " width="
      +:+ q (fmt ((s * 2) / 3)) +:+ " height=" +:+ q (fmt ((s * 2) / 3)) +:+ " rx="
      +:+ q "4" +:+ " ry=" +:+ q "4" +:+ " fill=" +:+ q bg +:+ " />")
    +:+ ("<circle cx=" +:+ q (fmt c) +:+ " cy=" +:+ q (fmt (y + r)) +:+ " r="
      +:+ q (fmt (Z.max 2 (r / 3))) +:+ " fill=" +:+ q fg +:+ " />")
  else "".

(** The markup of one dark module at column [x], row [y]. *)
Definition svg_module (mod_style fg : string) (pad cell x y : Z) : string :=
  let px := pad + x * cell in
  let py := pad + y * cell in
  if String.eqb mod_style "dots" then
    let r := Z.max 1 (cell / 2) in
    ("<circle cx=" +:+ q (fmt (px + r)) +:+ " cy=" +:+ q (fmt (py + r)) +:+ " r="
      +:+ q (fmt r) +:+ " fill=" +:+ q fg +:+ " />")
  else if in_set mod_style {[ "rounded"; "squircle"; "soft" ]} then
    let rx := Z.max 1 (cell / (if String.eqb mod_style "rounded" then 4 else 3)) in
    ("<rect x=" +:+ q (fmt px) +:+ " y=" +:+ q (fmt py) +:+ " width=" +:+ q (fmt cell)
      +:+ " height=" +:+ q (fmt cell) +:+ " rx=" +:+ q (fmt rx) +:+ " ry=" +:+ q (fmt rx)
      +:+ " fill=" +:+ q fg +:+ " />")
  else if String.eqb mod_style "thin-line" then
    let line := Z.max 1 (cell / 3) in
    let inset := (cell - line) / 2 in
    ("<rect x=" +:+ q (fmt (px + inset)) +:+ " y=" +:+ q (fmt (py + inset)) +:+ " width="
      +:+ q (fmt line) +:+ " height=" +:+ q (fmt line) +:+ " fill=" +:+ q fg +:+ " />")
  else
    ("<rect x=" +:+ q (fmt px) +:+ " y=" +:+ q (fmt py) +:+ " width=" +:+ q (fmt cell)
      +:+ " height=" +:+ q (fmt cell) +:+ " fill=" +:+ q fg +:+ " />").

(** [text.replace("&", "&amp;").replace("<", "&lt;").replace(">", "&gt;")] *)
Definition svg_escape (text : string) : string :=
  replace_char ">" "&gt;" (replace_char "<" "&lt;" (replace_char "&" "&amp;" text)).

(** [frame_text or "Scan me"] *)
Definition text_or_default (frame_text : option string) : string :=
  match frame_text with
  | Some t => if String.eqb t "" then "Scan me" else t
  | None => "Scan me"
  end.

(** The list [parts] of [_generate_svg_bytes], for a matrix already built. *)
Definition svg_parts
    (qr : QRCode) (size : Z) (fg bg : string) (module_style eye_style : pyval)
    (frame_style : string) (frame_text : option string)
  : list string :=
  let matrix := get_matrix qr in
  let n := Z.of_nat (length matrix) in
  let pad := 12 in
  let cell := Z.max 2 (size / Z.max 1 n) in
  let qr_w := n * cell in
  let frame_extra :=
    if in_set frame_style {[ "pill"; "floating" ]} then 86
    else if String.eqb frame_style "corner" then 34 else 0 in
  let width := qr_w + pad * 2 in
  let height := qr_w + pad * 2 + frame_extra in
  let head :=
    [ ("<?xml version=" +:+ q "1.0" +:+ " encoding=" +:+ q "UTF-8" +:+ "?>");
      ("<svg xmlns=" +:+ q "http://www.w3.org/2000/svg" +:+ " width=" +:+ q (fmt width)
        +:+ " height=" +:+ q (fmt height) +:+ " viewBox="
        +:+ q ("0 0 " +:+ fmt width +:+ " " +:+ fmt height) +:+ ">");
      ("<rect x=" +:+ q "0" +:+ " y=" +:+ q "0" +:+ " width=" +:+ q (fmt width)
        +:+ " height=" +:+ q (fmt height) +:+ " fill=" +:+ q bg +:+ " />");
      ("<rect x=" +:+ q (fmt pad) +:+ " y=" +:+ q (fmt pad) +:+ " width="
        +:+ q (fmt qr_w) +:+ " height=" +:+ q (fmt qr_w) +:+ " fill=" +:+ q bg +:+ " />") ] in
  let mod_style := lower (str (py_or module_style (VStr "square"))) in
  let cells :=
    flat_map (fun '(y, row) =>
      flat_map (fun '(x, on) =>
        if negb on then [] else [svg_module mod_style fg pad cell x y])
        (enumerate row))
      (enumerate matrix) in
  let eye := lower (strip (str (py_or eye_style (VStr "square")))) in
  let eyes :=
    if in_set eye {[ "rounded"; "ring"; "target" ]} then
      let eye_px := cell * 7 in
      let origins :=
        [ (pad + border qr * cell, pad + border qr * cell);
          (pad + (n - border qr - 7) * cell, pad + border qr * cell);
          (pad + border qr * cell, pad + (n - border qr - 7) * cell) ] in
      map (fun '(ox, oy) => _svg_eye_overlay eye ox oy eye_px fg bg) origins
    else [] in
  let frame :=
    if String.eqb frame_style "corner" then
      let text := svg_escape (text_or_default frame_text) in
      [ ("<rect x=" +:+ q "10" +:+ " y=" +:+ q "10" +:+ " width=" +:+ q "88"
          +:+ " height=" +:+ q "26" +:+ " rx=" +:+ q "8" +:+ " ry=" +:+ q "8" +:+ " fill="
          +:+ q fg +:+ " />");
        ("<text x=" +:+ q "18" +:+ " y=" +:+ q "27" +:+ " fill=" +:+ q bg
          +:+ " font-size=" +:+ q "12" +:+ " font-family=" +:+ q "Arial, sans-serif"
          +:+ ">" +:+ text +:+ "</text>") ]
    else if String.eqb frame_style "floating" then
      let cy := height - 42 in
      let cx := width - 42 in
      [ ("<circle cx=" +:+ q (fmt cx) +:+ " cy=" +:+ q (fmt cy) +:+ " r=" +:+ q "28"
          +:+ " fill=" +:+ q fg +:+ " />");
        ("<text x=" +:+ q (fmt (cx - 16)) +:+ " y=" +:+ q (fmt (cy + 4)) +:+ " fill="
          +:+ q bg +:+ " font-size=" +:+ q "10" +:+ " font-family="
          +:+ q "Arial, sans-serif" +:+ ">SCAN</text>") ]
    else if String.eqb frame_style "pill" then
      let text := svg_escape (text_or_default frame_text) in
      let y := height - 52 in
      [ ("<rect x=" +:+ q (fmt (width / 2 - 62)) +:+ " y=" +:+ q (fmt y) +:+ " width="
          +:+ q "124" +:+ " height=" +:+ q "34" +:+ " rx=" +:+ q "17" +:+ " ry="
          +:+ q "17" +:+ " fill=" +:+ q fg +:+ " />");
        ("<text x=" +:+ q (fmt (width / 2 - 28)) +:+ " y=" +:+ q (fmt (y + 21))
          +:+ " fill=" +:+ q bg +:+ " font-size=" +:+ q "13" +:+ " font-family="
          +:+ q "Arial, sans-serif" +:+ ">" +:+ text +:+ "</text>") ]
    else [] in
  (head ++ cells ++ eyes ++ frame ++ ["</svg>"])%list.

Section vector_compositor.

Variable qr_make : string → result (list (list bool)).

Definition _generate_svg_bytes
    (payload : string) (size : Z) (fg bg : string) (module_style eye_style : pyval)
    (frame_style : string) (frame_text : option string) (quiet_zone : pyval)
  : result (list N) :=
  qr ← _build_qr qr_make payload quiet_zone;
  mret (encode_utf8
          (String.concat ""
             (svg_parts qr size fg bg module_style eye_style frame_style frame_text))).

End vector_compositor.

(** *** Paths, the file system and the clock

    A file or a directory is the list of names that leads to it from the
    root; a path is a text that the walk below turns into such a list.
    [cwd] is the working directory, [dirs] lists directories, [files] maps
    each file to its content, and a file is expected to lie in a directory.
    Symbolic links, permissions and the limits on the length of a name are
    not modelled.  [clock] is [int(time.time())]. *)
Definition fs_path : Type := list string.

Record world : Type := {
  cwd : fs_path;
  dirs : gset fs_path;
  files : gmap fs_path (list N);
  clock : Z;
}.

(** The directories of a world: the working directory, those [dirs] lists,
    and everything above them, up to the root. *)
Definition is_dir (w : world) (p : fs_path) : bool :=
  bool_decide (p `prefix_of` cwd w)
  || bool_decide (set_Exists (fun d => p `prefix_of` d) (dirs w)).

Definition is_file (w : world) (p : fs_path) : bool :=
  bool_decide (is_Some (files w !! p)).

(** [s.split("/")] *)
Fixpoint split_from (seen rest : string) : list string :=
  match rest with
  | EmptyString => [seen]
  | String c r =>
      if Ascii.eqb c "/" then seen :: split_from "" r
      else split_from (seen +:+ String c EmptyString) r
  end.

Definition split_slash (s : string) : list string := split_from "" s.

(** One name of a path, looked up in [cur]: [cur] has to be a directory;
    an empty name and a dot stay there, two dots go to its parent. *)
Definition step (w : world) (cur : fs_path) (name : string) : option fs_path :=
  if negb (is_dir w cur) then None
  else if String.eqb name "" || String.eqb name "." then Some cur
  else if String.eqb name ".." then
    if is_dir w (removelast cur) then Some (removelast cur) else None
  else Some (cur ++ [name])%list.

Fixpoint walk (w : world) (cur : fs_path) (names : list string) : option fs_path :=
  match names with
  | [] => Some cur
  | name :: rest =>
      match step w cur name with
      | Some next => walk w next rest
      | None => None
      end
  end.

(** What the operating system takes a path for: the file or directory it
    names, which need not exist; [None] when the path is empty or when a name
    before its last is no directory. *)
Definition resolve (w : world) (p : string) : option fs_path :=
  if String.eqb p "" then None
  else walk w (if startswith_char "/" p then [] else cwd w) (split_slash p).

(** A path with a NUL character is refused before any look-up. *)
Fixpoint has_nul (s : string) : bool :=
  match s with
  | EmptyString => false
  | String c r => (code c =? 0)%N || has_nul r
  end.

(** [os.path.exists(p)] *)
Definition path_exists (w : world) (p : string) : bool :=
  if has_nul p then false
  else
    match resolve w p with
    | Some f => is_dir w f || is_file w f
    | None => false
    end.

(** The content [open(p, "rb")] gives access to. *)
Definition read_file (w : world) (p : string) : result (list N) :=
  if has_nul p then Raise ValueError
  else
    match resolve w p with
    | Some f =>
        match files w !! f with
        | Some data => Ok data
        | None => Raise (OSError p)
        end
    | None => Raise (OSError p)
    end.

(** [os.path.splitroot(p)] on POSIX: the root, which is empty, one slash or
    two slashes, and the rest. *)
Definition splitroot (p : string) : string * string :=
  match p with
  | String "/" (String "/" (String "/" r)) => ("/", String "/" (String "/" r))
  | String "/" (String "/" r) => ("//", r)
  | String "/" r => ("/", r)
  | _ => ("", p)
  end.

(** A [PurePosixPath]: its root and its parts; empty parts and dots are
    dropped, two dots are kept. *)
Definition pure_path (p : string) : string * list string :=
  let '(root, rel) := splitroot p in
  (root,
   List.filter (fun part => negb (String.eqb part "") && negb (String.eqb part "."))
     (split_slash rel)).

(** [str(path)] *)
Definition path_str (path : string * list string) : string :=
  let s := path.1 +:+ String.concat "/" path.2 in
  if String.eqb s "" then "." else s.

Fixpoint ends_with_slash (s : string) : bool :=
  match s with
  | EmptyString => false
  | String c EmptyString => Ascii.eqb c "/"
  | String _ r => ends_with_slash r
  end.

(** [posixpath.join(a, b)] *)
Definition posix_join (a b : string) : string :=
  if startswith_char "/" b then b
  else if String.eqb a "" || ends_with_slash a then a +:+ b
  else a +:+ "/" +:+ b.

(** [str(Path(d) / f)] *)
Definition path_join (d f : string) : string :=
  path_str (pure_path (posix_join d f)).

(** [Path(p).mkdir(parents=True, exist_ok=True)] for a path with no two-dots
    part, as the one the code passes: every missing directory on the way is
    created; a file in the way is an error, and what was created before it
    stays. *)
Fixpoint mkdir_each (w : world) (p : string) (cur : fs_path) (names : list string)
  : result unit * world :=
  match names with
  | [] => (Ok (), w)
  | name :: rest =>
      let next := (cur ++ [name])%list in
      if is_file w next then (Raise (OSError p), w)
      else
        mkdir_each
          {| cwd := cwd w; dirs := {[ next ]} ∪ dirs w; files := files w;
             clock := clock w |} p next rest
  end.

Definition mkdir_parents_exist_ok (w : world) (p : string) : result unit * world :=
  let '(root, parts) := pure_path p in
  mkdir_each w p (if String.eqb root "" then cwd w else []) parts.

(** [img.save(p, format="PNG")] once the image is encoded as [data]: the file
    the path names is created or replaced; a path that names a directory, or
    that goes through something that is no directory, is an error. *)
Definition save_file (w : world) (p : string) (data : list N) : result unit * world :=
  if has_nul p then (Raise ValueError, w)
  else
    match resolve w p with
    | None => (Raise (OSError p), w)
    | Some f =>
        if is_dir w f then (Raise (OSError p), w)
        else
          (Ok (),
           {| cwd := cwd w; dirs := dirs w; files := <[ f := data ]> (files w);
              clock := clock w |})
    end.

(** *** The raster pipeline

    Pillow's pixel work is not modelled: an image is a value of the abstract
    type [Image] and the calls that compute in memory are parameters.  What
    reaches the file system or the clock is written out. *)
Inductive color_mask : Type :=
| RadialGradiantColorMask (center_color edge_color : Z * Z * Z)
| SolidFillColorMask (front_color back_color : Z * Z * Z).

Inductive quality_warning : Type :=
| LowContrast (ratio : R)
  (* "Low contrast ({ratio:.2f}:1). Recommended >= 4.5:1." *)
| QuietZoneSmall
  (* "Quiet zone below 4 modules can reduce scan reliability." *)
| ThinLineSmall
  (* "Thin-line modules with small size can be hard to scan." *)
| LogoClamped
  (* "Logo size above 20% is unsafe and has been clamped." *).

(** The dict [generate_qr_png] returns. *)
Record rendered : Type := {
  path : string;
  bytes : list N;
  svg_bytes : list N;
  pdf_bytes : list N;
  contrast_ratio : R;
  quality_warnings : list quality_warning;
}.

Section raster_compositor.

Variable qr_make : string → result (list (list bool)).
Variable Image : Type.
(** [ImageColor.getrgb] *)
Variable getrgb : string → result (Z * Z * Z).
(** [qr.make_image(image_factory=StyledPilImage, ...).convert("RGBA")] *)
Variable make_image : QRCode → module_drawer → color_mask → Image.
Variable image_width : Image → Z.
(** The commands of an [ImageDraw], applied to the image. *)
Variable draw : Image → list draw_cmd → Image.
(** [img.resize((size, size), NEAREST)] *)
Variable resize : Image → Z → result Image.
(** [ImageOps.expand(img, border, fill)] *)
Variable expand : Image → Z → string → Image.
(** [Image.open(path).convert("RGBA")] on the content of the file. *)
Variable image_open : list N → result Image.
(** Lines 159-199 of [_apply_logo]: the logo composited onto the image. *)
Variable composite_logo : Image → Image → Z → pyval → pyval → string → result Image.
(** [_apply_frame] for a style other than none: a caption drawn in memory. *)
Variable _apply_frame : Image → string → option string → string → string → Image.
(** [img.save(buffer, format="PNG"); buffer.getvalue()] *)
Variable png_encode : Image → list N.
(** [Image.open(BytesIO(png)).convert("RGB")] saved as PDF at a resolution. *)
Variable pdf_encode : list N → Z → list N.

Definition _apply_logo
    (w : world) (img : Image) (logo_path : option string) (size : Z)
    (logo_scale logo_bg_mode : pyval) (logo_position : string)
  : result Image :=
  match logo_path with
  | None => Ok img
  | Some p =>
      if String.eqb p "" || negb (path_exists w p) then Ok img
      else
        match (data ← read_file w p; image_open data) with
        | Raise _ => Ok img
        | Ok logo => composite_logo img logo size logo_scale logo_bg_mode logo_position
        end
  end.

Definition _to_pdf_bytes (png_bytes : list N) (dpi : pyval) : result (list N) :=
  d ← int (py_or dpi (VInt 300));
  mret (pdf_encode png_bytes (Z.max 72 (Z.min d 600))).

(** The value, or the exception, together with the world the call leaves.
    The two calls of the logger are left out. *)
Definition generate_qr_png
    (w : world) (payload : string) (size : Z) (fg bg : pyval)
    (logo_path : option string) (module_style eye_style : pyval)
    (frame_text : option string) (frame_color : pyval)
    (gradient : option (list string)) (logo_position : string)
    (filename : option string) (frame_style : string)
    (logo_scale logo_bg_mode quiet_zone dpi : pyval)
  : result rendered * world :=
  let safe_fg := _normalize_hex fg DEFAULT_FG in
  let safe_bg := _normalize_hex bg DEFAULT_BG in
  let in_memory : result (Image * string) :=
    qr ← _build_qr qr_make payload quiet_zone;
    color_mask ←
      match gradient with
      | Some [g0; g1] =>
          start_rgb ← getrgb g0;
          end_rgb ← getrgb g1;
          mret (RadialGradiantColorMask start_rgb end_rgb)
      | _ =>
          front ← getrgb safe_fg;
          back ← getrgb safe_bg;
          mret (SolidFillColorMask front back)
      end;
    let img := make_image qr (_module_drawer module_style) color_mask in
    let img := draw img (_draw_eye_overlays (image_width img) qr safe_fg safe_bg eye_style) in
    img ← resize img size;
    let img := expand img 8 safe_bg in
    img ← _apply_logo w img logo_path size logo_scale logo_bg_mode logo_position;
    let frame_style :=
      if negb (String.eqb (default "" frame_text) "") && in_set frame_style {[ "none"; "" ]}
      then "pill" else frame_style in
    let img :=
      if negb (in_set frame_style {[ ""; "none" ]})
      then _apply_frame img frame_style frame_text (_normalize_hex frame_color safe_fg) safe_bg
      else img in
    mret (img, frame_style) in
  match in_memory with
  | Raise e => (Raise e, w)
  | Ok (img, frame_style) =>
      let output_dir := "static/generated_qr" in
      match mkdir_parents_exist_ok w output_dir with
      | (Raise e, w1) => (Raise e, w1)
      | (Ok _, w1) =>
          let filename :=
            match filename with
            | Some f => if String.eqb f "" then "qr_" +:+ fmt (clock w1) +:+ ".png" else f
            | None => "qr_" +:+ fmt (clock w1) +:+ ".png"
            end in
          let file_path := path_join output_dir filename in
          let png_bytes := png_encode img in
          match save_file w1 file_path png_bytes with
          | (Raise e, w2) => (Raise e, w2)
          | (Ok _, w2) =>
              let after : result rendered :=
                svg_bytes ← _generate_svg_bytes qr_make payload size safe_fg safe_bg
                              module_style eye_style frame_style frame_text quiet_zone;
                pdf_bytes ← _to_pdf_bytes png_bytes dpi;
                let contrast := _contrast_ratio (VStr safe_fg) (VStr safe_bg) in
                quiet ← int (py_or quiet_zone (VInt 4));
                logo ← int (py_or logo_scale (VInt 20));
                let quality_warnings :=
                  ((if Rlt_dec contrast 4.5 then [LowContrast contrast] else [])
                   ++ (if quiet <? 4 then [QuietZoneSmall] else [])
                   ++ (if String.eqb (lower (strip (str (py_or module_style (VStr "")))))
                                     "thin-line" && (size <? 700)
                       then [ThinLineSmall] else [])
                   ++ (if logo >? 20 then [LogoClamped] else []))%list in
                mret {|
                  path := file_path;
                  bytes := png_bytes;
                  svg_bytes := svg_bytes;
                  pdf_bytes := pdf_bytes;
                  contrast_ratio := contrast;
                  quality_warnings := quality_warnings;
                |} in
              (after, w2)
          end
      end
  end.

End raster_compositor.

End qr_generator.

(** ** The resolver, block by block *)
Module resolver_view.
Import qr_design.

(** Line 90: the style the caller names, normalised. *)
Definition named_style (style : pyval) : string :=
  str (py_or (VStr (lower (strip (str (py_or style (VStr "modern"))))))
             (VStr "modern")).

(** Lines 90-92: the style key the resolver settles on. *)
Definition style_key (QR_THEMES : gmap string (gmap string pyval)) (style : pyval) : string :=
  if negb (String.eqb (named_style style) "custom")
     && negb (has_key QR_THEMES (named_style style))
  then "classic" else named_style style.

(** Lines 95, 97, 159 and 161: a string field, normalised, with its default
    for a missing or empty value. *)
Definition named (field : pyval) (missing : string) : string :=
  lower (strip (str (py_or field (VStr missing)))).

(** Lines 95-96: the output preset the resolver settles on. *)
Definition output_key (output_preset : pyval) : string :=
  if has_key PRESET_EXPORT_CONFIG (named output_preset "web")
  then named output_preset "web" else "web".

(** Lines 114-115: whether safe mode is requested. *)
Definition safe_mode_on (safe_mode : pyval) : bool :=
  match safe_mode with
  | VNone => false
  | _ => in_set (lower (strip (str safe_mode))) {[ "1"; "true"; "yes"; "on" ]}
  end.

(** What the safe-mode pass reads and writes. *)
Record styling : Type := {
  st_fg : string;
  st_bg : string;
  st_module : string;
  st_quiet_zone : Z;
  st_contrast : R;
  st_applied : bool;
}.

Definition styling_of (d : QRDesign) : styling :=
  {| st_fg := fg d; st_bg := bg d; st_module := module_style d;
     st_quiet_zone := quiet_zone d; st_contrast := contrast_ratio d;
     st_applied := safe_mode_applied d |}.

(** The safe-mode correction policy in the words of the spec: four
    corrections, applied in this order, each only if its risk persists, each
    marking the pass as applied.  [safe_block_is_policy] below compares it
    with lines 120-136 of the source. *)
Definition flip_foreground (s : styling) : styling :=
  if Rlt_dec (st_contrast s) 4.5 then
    let fg :=
      if Rgt_dec (_relative_luminance (_hex_to_rgb (VStr (st_bg s)))) 0.5
      then "#111111" else "#FFFFFF" in
    {| st_fg := fg; st_bg := st_bg s; st_module := st_module s;
       st_quiet_zone := st_quiet_zone s;
       st_contrast := _contrast_ratio (VStr fg) (VStr (st_bg s));
       st_applied := true |}
  else s.

Definition force_safe_pair (s : styling) : styling :=
  if Rlt_dec (st_contrast s) 4.5 then
    {| st_fg := "#0D2A78"; st_bg := "#FFFFFF"; st_module := st_module s;
       st_quiet_zone := st_quiet_zone s;
       st_contrast := _contrast_ratio (VStr "#0D2A78") (VStr "#FFFFFF");
       st_applied := true |}
  else s.

Definition square_thin_lines (size_px : Z) (s : styling) : styling :=
  if String.eqb (st_module s) "thin-line" && (size_px <? 700) then
    {| st_fg := st_fg s; st_bg := st_bg s; st_module := "square";
       st_quiet_zone := st_quiet_zone s; st_contrast := st_contrast s;
       st_applied := true |}
  else s.

Definition raise_quiet_zone (s : styling) : styling :=
  if st_quiet_zone s <? 4 then
    {| st_fg := st_fg s; st_bg := st_bg s; st_module := st_module s;
       st_quiet_zone := 4; st_contrast := st_contrast s;
       st_applied := true |}
  else s.

Definition safe_mode_policy (size_px : Z) (s : styling) : styling :=
  raise_quiet_zone (square_thin_lines size_px (force_safe_pair (flip_foreground s))).

(** Lines 101-110: the colours and styles before safe mode. *)
Definition base_style
    (conf : gmap string pyval) (key : string)
    (fg_color bg_color module_style eye_style : pyval)
  : result (string * string * string * string) :=
  if String.eqb key "custom" then
    fg ← (if truthy fg_color then Ok fg_color else subscript conf "fg");
    bg ← (if truthy bg_color then Ok bg_color else subscript conf "bg");
    mret (str fg, str bg,
          str (py_or (py_or module_style (get conf "module_style")) (VStr "square")),
          str (py_or (py_or eye_style (get conf "eye_style")) (VStr "square")))
  else
    fg ← subscript conf "fg";
    bg ← subscript conf "bg";
    mret (str fg, str bg,
          str (py_or (get conf "module_style") (VStr "square")),
          str (py_or (get conf "eye_style") (VStr "square"))).

(** What a preset fixes: its two colours, and its module and eye styles
    with ["square"] for a missing or empty entry. *)
Definition preset_look (conf : gmap string pyval)
  : result (string * string * string * string) :=
  fg ← subscript conf "fg";
  bg ← subscript conf "bg";
  mret (str fg, str bg,
        str (py_or (get conf "module_style") (VStr "square")),
        str (py_or (get conf "eye_style") (VStr "square"))).

Definition initial_styling
    (base : string * string * string * string) (preset : export_preset) : styling :=
  {| st_fg := base.1.1.1; st_bg := base.1.1.2; st_module := base.1.2;
     st_quiet_zone := Z.max 2 (Z.min (preset_quiet_zone preset) 12);
     st_contrast := _contrast_ratio (VStr base.1.1.1) (VStr base.1.1.2);
     st_applied := false |}.

(** Lines 138-148. *)
Definition warnings_of (s : styling) (qr_px : Z) (frame : string) (enabled : bool)
  : list warning :=
  (if Rlt_dec (st_contrast s) 4.5 then [LowContrast (st_contrast s)] else [])
  ++ (if String.eqb (st_module s) "thin-line" && (qr_px <? 700) then [ThinLineSmall] else [])
  ++ (if st_quiet_zone s <? 4 then [QuietZoneSmall] else [])
  ++ (if String.eqb frame "floating" then [FloatingFrame] else [])
  ++ (if enabled && st_applied s then [SafeModeCorrected] else []).

(** The record of lines 150-168, from what the earlier lines computed. *)
Definition assemble
    (key output : string) (preset : export_preset)
    (base : string * string * string * string) (qr_px logo : Z)
    (export_format frame_style logo_bg_mode safe_mode : pyval) : QRDesign :=
  let enabled := safe_mode_on safe_mode in
  let s0 := initial_styling base preset in
  let s := if enabled then safe_mode_policy qr_px s0 else s0 in
  let export := named export_format "png" in
  let frame := named frame_style "none" in
  {| style := key;
     fg := st_fg s;
     bg := st_bg s;
     module_style := st_module s;
     eye_style := base.2;
     qr_size := qr_px;
     output_preset := output;
     export_format :=
       if in_set export {[ "png"; "svg"; "pdf"; "zip" ]} then export else "png";
     frame_style := frame;
     logo_scale := Z.max 8 (Z.min logo 20);
     logo_bg_mode := named logo_bg_mode "auto-white";
     quiet_zone := st_quiet_zone s;
     dpi := Z.max 72 (Z.min (preset_dpi preset) 600);
     contrast_ratio := st_contrast s;
     warnings := warnings_of s qr_px frame enabled;
     safe_mode := enabled;
     safe_mode_applied := st_applied s |}.

End resolver_view.

(** ** The tables and formulas the claims are worded with *)
Module claims.

(** Quiet zone and dpi per output preset. *)
Definition quiet_zone_dpi (output : string) : option (Z * Z) :=
  if String.eqb output "web" then Some (4, 144)
  else if String.eqb output "print" then Some (6, 300)
  else if String.eqb output "sticker" then Some (6, 300)
  else if String.eqb output "poster" then Some (8, 300)
  else None.

(** The values each enum of the design record may take. *)
Definition module_styles : gset string :=
  {[ "square"; "rounded"; "dots"; "soft"; "squircle"; "thin-line" ]}.
Definition eye_styles : gset string :=
  {[ "square"; "rounded"; "ring"; "target"; "dots" ]}.
Definition frame_styles : gset string :=
  {[ "none"; "corner"; "floating"; "pill" ]}.
Definition export_formats : gset string :=
  {[ "png"; "svg"; "pdf"; "zip" ]}.

(** The contrast computation in the words of the spec: gamma correction of
    a channel [c] in [0, 1], luminance of three linear channels, ratio of two
    luminances, and the colour a string that is no hex colour stands for. *)
Definition linear (c : R) : R :=
  if Rle_dec c 0.03928 then (c / 12.92)%R
  else Rpower ((c + 0.055) / 1.055) 2.4.

Definition luminance (rgb : Z * Z * Z) : R :=
  (0.2126 * linear (IZR rgb.1.1 / 255) + 0.7152 * linear (IZR rgb.1.2 / 255)
   + 0.0722 * linear (IZR rgb.2 / 255))%R.

Definition contrast (l1 l2 : R) : R :=
  ((Rmax l1 l2 + 0.05) / (Rmin l1 l2 + 0.05))%R.

Definition fallback_rgb : Z * Z * Z := (13, 42, 120).


(** The three finder patterns of a matrix of [n] cells a side, [border] of
    them quiet zone: the top-left cell of each, as (column, row). *)
Definition finder_corners (n border : Z) : list (Z * Z) :=
  [ (border, border); (n - border - 7, border); (border, n - border - 7) ].

(** The box of a raster command that strokes an outline. *)
Definition outlined_box (cmd : qr_generator.draw_cmd) : option qr_generator.box :=
  match cmd with
  | qr_generator.rounded_rectangle xy _ _ (Some _) _ => Some xy
  | qr_generator.ellipse xy _ (Some _) _ => Some xy
  | _ => None
  end.

End claims.

(** ** A theme table and a rendering library to run the code on

    [utils/qr_config.py], qrcode and Pillow are parameters of the code above;
    the instances below stand in for them wherever a statement is checked on
    concrete inputs. *)
Module demo.

Definition classic : gmap string pyval :=
  {[ "fg" := VStr "#000000"; "bg" := VStr "#FFFFFF";
     "module_style" := VStr "square"; "eye_style" := VStr "square" ]}.

Definition modern : gmap string pyval :=
  {[ "fg" := VStr "#0D2A78"; "bg" := VStr "#FFFFFF";
     "module_style" := VStr "rounded"; "eye_style" := VStr "rounded" ]}.

Definition QR_THEMES : gmap string (gmap string pyval) :=
  {[ "classic" := classic; "modern" := modern ]}.

Definition get_qr_style (key : string) : gmap string pyval :=
  default classic (QR_THEMES !! key).

(** A version-1 sized grid for every payload of at most seven characters. *)
Definition qr_make (payload : string) : result (list (list bool)) :=
  if (String.length payload <=? 7)%nat then Ok (repeat (repeat true 21) 21)
  else Raise (LibraryError "DataOverflowError").

(** An image is kept as its width in pixels. *)
Definition Image : Type := Z.

Definition getrgb (c : string) : result (Z * Z * Z) :=
  if startswith_char "#" c then Ok (qr_generator._hex_to_rgb (VStr c))
  else Raise ValueError.

Definition make_image
    (qr : qr_generator.QRCode) (_ : qr_generator.module_drawer)
    (_ : qr_generator.color_mask) : Image :=
  Z.of_nat (length (qr_generator.get_matrix qr)) * 10.

Definition image_width (img : Image) : Z := img.

Definition draw (img : Image) (_ : list qr_generator.draw_cmd) : Image := img.

Definition resize (_ : Image) (size : Z) : result Image :=
  if 0 <? size then Ok size else Raise ValueError.

Definition expand (img : Image) (border : Z) (_ : string) : Image := img + 2 * border.

Definition image_open (data : list N) : result Image :=
  match data with
  | [] => Raise (LibraryError "UnidentifiedImageError")
  | _ => Ok 64
  end.

Definition composite_logo
    (img _ : Image) (_ : Z) (logo_scale _ : pyval) (_ : string) : result Image :=
  _ ← int (py_or logo_scale (VInt 20));
  mret img.

Definition _apply_frame
    (img : Image) (_ : string) (_ : option string) (_ _ : string) : Image := img.

Definition png_encode (img : Image) : list N := [137; 80; 78; 71; Z.to_N img]%N.

Definition pdf_encode (png : list N) (_ : Z) : list N := ([37; 80; 68; 70] ++ png)%N%list.

(** An application directory with nothing in it. *)
Definition empty_world : qr_generator.world :=
  {| qr_generator.cwd := ["srv"; "app"];
     qr_generator.dirs := {[ ["srv"]; ["srv"; "app"] ]};
     qr_generator.files := ∅;
     qr_generator.clock := 1700000000 |}.

(** A render call with the defaults of [generate_qr_png], no logo and no frame. *)
Definition render (w : qr_generator.world)
  : result qr_generator.rendered * qr_generator.world :=
  qr_generator.generate_qr_png qr_make Image getrgb make_image image_width draw
    resize expand image_open composite_logo _apply_frame png_encode pdf_encode
    w "hello" 600 (VStr "#000000") (VStr "#FFFFFF") None (VStr "square")
    (VStr "square") None (VStr "#4F46E5") None "center" None "none"
    (VInt 20) (VStr "auto-white") (VInt 4) (VInt 300).

(** The same call with a file name of the caller's. *)
Definition render_as (filename : string) (w : qr_generator.world)
  : result qr_generator.rendered * qr_generator.world :=
  qr_generator.generate_qr_png qr_make Image getrgb make_image image_width draw
    resize expand image_open composite_logo _apply_frame png_encode pdf_encode
    w "hello" 600 (VStr "#000000") (VStr "#FFFFFF") None (VStr "square")
    (VStr "square") None (VStr "#4F46E5") None "center" (Some filename) "none"
    (VInt 20) (VStr "auto-white") (VInt 4) (VInt 300).

Definition web_preset : qr_design.export_preset :=
  {| qr_design.preset_size := 600; qr_design.preset_dpi := 144;
     qr_design.preset_quiet_zone := 4 |}.

End demo.

(** ** [utils/app_url.py] and the links the routes put into a code *)
Module app_url.

(** [s.rstrip(chars)] for a one-character [chars]. *)
Definition rstrip_char (ch : ascii) (s : string) : string :=
  rstrip_with (Ascii.eqb ch) s.

(** [needle in hay] *)
Fixpoint contains (needle hay : string) : bool :=
  String.prefix needle hay
  || match hay with
     | EmptyString => false
     | String _ r => contains needle r
     end.

(** [os.getenv(name, "")] on the environment of the process. *)
Definition getenv (environ : gmap string string) (name : string) : string :=
  default "" (environ !! name).

(** [request] enters as [str(request.base_url)], [None] when there is no
    request. *)
Definition resolve_app_base_url
    (environ : gmap string string) (request : option string) (env_var : string)
  : string :=
  let request_base :=
    match request with
    | Some base_url => rstrip_char "/" base_url
    | None => ""
    end in
  let env_base := rstrip_char "/" (strip (getenv environ env_var)) in
  if negb (String.eqb request_base "")
     && (contains "localhost" request_base || contains "127.0.0.1" request_base)
  then request_base
  else if negb (String.eqb env_base "") then env_base
  else if negb (String.eqb request_base "") then request_base
  else "http://127.0.0.1:8000".

(** [routes/qr/dynamic_url.py] *)
Definition build_dynamic_url
    (environ : gmap string string) (base_url slug : string) : string :=
  resolve_app_base_url environ (Some base_url) "APP_DOMAIN" +:+ "/d/" +:+ slug.

(** The function of the same purpose that [routes/qr/coupon.py], [event.py],
    [feedback.py], [pdf.py] and [tel.py] each define for themselves. *)
Definition _build_dynamic_url
    (environ : gmap string string) (base_url slug : string) : string :=
  let base_url := rstrip_char "/" base_url in
  if contains "127.0.0.1" base_url || contains "localhost" base_url
  then base_url +:+ "/d/" +:+ slug
  else
    let app_domain := rstrip_char "/" (getenv environ "APP_DOMAIN") in
    (if negb (String.eqb app_domain "") then app_domain else base_url)
    +:+ "/d/" +:+ slug.

End app_url.

(** ** [_apply_frame] of [utils/qr_generator.py] *)
Module frame_compositor.
Import qr_generator.

Section frames.

Variable Image : Type.
(** [(img.width, img.height)] *)
Variable image_size : Image → Z * Z.
(** [ImageOps.expand(img, border, fill)] *)
Variable expand : Image → Z → string → Image.
(** [Image.new("RGBA", (width, height), color)] *)
Variable new_image : Z → Z → string → Image.
(** [canvas.paste(img, xy)] *)
Variable paste : Image → Image → Z * Z → Image.
(** The commands of an [ImageDraw] with the default font, applied to the image. *)
Variable draw : Image → list draw_cmd → Image.
(** [draw.textbbox((0, 0), text, font=font)[2:4]] for the default font. *)
Variable textbbox : string → Z * Z.

Definition _apply_frame
    (img : Image) (frame_style : string) (frame_text : option string)
    (fg bg : string) : Image :=
  let style := lower (strip (str (py_or (VStr frame_style) (VStr "none")))) in
  if in_set style {[ ""; "none" ]} then img
  else
    let caption :=
      let stripped := strip (text_or_default frame_text) in
      if String.eqb stripped "" then "Scan me" else stripped in
    if String.eqb style "corner" then
      let canvas := expand img 18 bg in
      let '(label_w, label_h) := textbbox caption in
      let tag_w := label_w + 22 in
      let tag_h := label_h + 14 in
      draw canvas
        [ rounded_rectangle (8, 8, 8 + tag_w, 8 + tag_h) 10 (Some (Color fg)) None 1;
          text (19, 14) caption (Color bg) ]
    else if String.eqb style "floating" then
      let pad := 28 in
      let canvas := expand img pad bg in
      let bubble := 66 in
      let bx := (image_size canvas).1 - bubble - 10 in
      let by_ := (image_size canvas).2 - bubble - 10 in
      draw canvas
        [ ellipse (bx, by_, bx + bubble, by_ + bubble) (Some (Color fg)) None 1;
          text (bx + 13, by_ + 26) "SCAN" (Color bg) ]
    else
      let bottom_pad := 78 in
      let '(img_w, img_h) := image_size img in
      let canvas := paste (new_image img_w (img_h + bottom_pad) bg) img (0, 0) in
      let '(label_w, label_h) := textbbox caption in
      let pill_w := label_w + 40 in
      let pill_h := label_h + 18 in
      let x1 := ((image_size canvas).1 - pill_w) / 2 in
      let y1 := img_h + 16 in
      draw canvas
        [ rounded_rectangle (x1, y1, x1 + pill_w, y1 + pill_h) (pill_h / 2)
            (Some (Color fg)) None 1;
          text (x1 + 20, y1 + 9) caption (Color bg) ].

End frames.

End frame_compositor.

(** ** The routes: from the form to the files

    Lines 73-108 of [create_url_qr] in [routes/qr/url.py]: the design is
    resolved, the code is rendered from it, and the route writes the PNG once
    more under a name of its own.  [routes/qr/coupon.py], [event.py],
    [feedback.py], [payment.py], [pdf.py], [product.py] and [tel.py] have the
    same lines with their own [kind].  The session, the upload of the logo,
    the database row and the template around these lines are left out. *)
Module routes_qr.
Import qr_design qr_generator.

Section route.

Variable QR_THEMES : gmap string (gmap string pyval).
Variable get_qr_style : string → gmap string pyval.
Variable qr_make : string → result (list (list bool)).
Variable Image : Type.
Variable getrgb : string → result (Z * Z * Z).
Variable make_image : QRCode → module_drawer → color_mask → Image.
Variable image_width : Image → Z.
Variable draw : Image → list draw_cmd → Image.
Variable resize : Image → Z → result Image.
Variable expand : Image → Z → string → Image.
Variable image_open : list N → result Image.
Variable composite_logo : Image → Image → Z → pyval → pyval → string → result Image.
Variable _apply_frame : Image → string → option string → string → string → Image.
Variable png_encode : Image → list N.
Variable pdf_encode : list N → Z → list N.

(** The call of [generate_qr_png] the routes make: every argument they do not
    pass has its default. *)
Definition render_design
    (w : world) (payload : string) (logo_fs_path : option string) (design : QRDesign)
  : result rendered * world :=
  generate_qr_png qr_make Image getrgb make_image image_width draw resize expand
    image_open composite_logo _apply_frame png_encode pdf_encode
    w payload (qr_design.qr_size design) (VStr (fg design)) (VStr (bg design))
    logo_fs_path (VStr (qr_design.module_style design))
    (VStr (qr_design.eye_style design)) None (VStr "#4F46E5") None "center" None
    (qr_design.frame_style design) (VInt (qr_design.logo_scale design))
    (VStr (qr_design.logo_bg_mode design)) (VInt (qr_design.quiet_zone design))
    (VInt (qr_design.dpi design)).

Definition create_qr
    (kind : string) (w : world) (payload slug : string)
    (logo_fs_path : option string)
    (style fg_color bg_color module_style eye_style qr_size output_preset
     export_format frame_style logo_scale logo_bg_mode safe_mode : pyval)
  : result (QRDesign * rendered) * world :=
  match resolve_design QR_THEMES get_qr_style style fg_color bg_color module_style
          eye_style qr_size output_preset export_format frame_style logo_scale
          logo_bg_mode safe_mode with
  | Raise e => (Raise e, w)
  | Ok design =>
      match render_design w payload logo_fs_path design with
      | (Raise e, w1) => (Raise e, w1)
      | (Ok result, w1) =>
          let qr_bytes := bytes result in
          let qr_file :=
            path_join "static/generated_qr" (kind +:+ "_" +:+ slug +:+ ".png") in
          match save_file w1 qr_file qr_bytes with
          | (Raise e, w2) => (Raise e, w2)
          | (Ok _, w2) => (Ok (design, result), w2)
          end
      end
  end.

End route.

End routes_qr.

(** ** What the statements below read off a drawing and a colour *)
Module render_view.
Import qr_generator.

(** The box a raster command fills or strokes. *)
Definition shape_box (cmd : draw_cmd) : option box :=
  match cmd with
  | rounded_rectangle xy _ _ _ _ => Some xy
  | ellipse xy _ _ _ => Some xy
  | text _ _ _ => None
  end.

(** A hash sign and three or six more characters: what [_normalize_hex]
    lets through. *)
Definition hex_shaped (s : string) : bool :=
  startswith_char "#" s && ((len s =? 4) || (len s =? 7)).

(** The number of dark cells of a matrix. *)
Definition dark_cells (matrix : list (list bool)) : nat :=
  length (List.filter (fun on : bool => on) (concat matrix)).

(** The characters of a string. *)
Definition chars (s : string) : list ascii := list_ascii_of_string s.

(** ["/" in s] *)
Fixpoint has_slash (s : string) : bool :=
  match s with
  | EmptyString => false
  | String c r => Ascii.eqb c "/" || has_slash r
  end.

End render_view.

(** ** More of the stand-ins: an image with a size, for the frames *)
Module demo_frames.
Import qr_generator.

(** An image is kept as its size and the commands drawn on it. *)
Record Image : Type := {
  width : Z;
  height : Z;
  drawn : list draw_cmd;
}.

Definition image_size (img : Image) : Z * Z := (width img, height img).

Definition expand (img : Image) (border : Z) (_ : string) : Image :=
  {| width := width img + 2 * border; height := height img + 2 * border;
     drawn := drawn img |}.

Definition new_image (w h : Z) (_ : string) : Image :=
  {| width := w; height := h; drawn := [] |}.

Definition paste (canvas img : Image) (_ : Z * Z) : Image :=
  {| width := width canvas; height := height canvas; drawn := drawn img |}.

Definition draw (img : Image) (cmds : list draw_cmd) : Image :=
  {| width := width img; height := height img; drawn := (drawn img ++ cmds)%list |}.

(** Six pixels a character, eleven pixels high. *)
Definition textbbox (s : string) : Z * Z := (6 * len s, 11).

End demo_frames.

Import resolver_view.

(** ** The fragment of Python on samples *)
Section python_samples.

Example parse_int_samples :
  parse_int 10 " 12 " = Some 12 /\ parse_int 10 "-1_000" = Some (-1000)
  /\ parse_int 10 "abc" = None /\ parse_int 10 "1__0" = None
  /\ parse_int 10 "" = None /\ parse_int 16 "fF" = Some 255
  /\ parse_int 16 "-f" = Some (-15) /\ parse_int 16 "0x" = None
  /\ parse_int 16 "0x_1f" = Some 31 /\ parse_int 16 "g1" = None
  /\ parse_int 10 "5_" = None /\ parse_int 10 "+ 5" = None.
Proof. repeat split; reflexivity. Qed.

Example strip_lower_samples :
  strip "  Web " = "Web" /\ lower "Thin-LINE" = "thin-line"
  /\ lstrip_char "#" "##abc" = "abc" /\ strip "   " = ""
  /\ double_chars "f0a" = "ff00aa" /\ slice 2 4 "abcdef" = "cd".
Proof. repeat split; reflexivity. Qed.

Example hex_to_rgb_samples :
  qr_design._hex_to_rgb (VStr "#0D2A78") = (13, 42, 120)
  /\ qr_design._hex_to_rgb (VStr " #fff ") = (255, 255, 255)
  /\ qr_design._hex_to_rgb (VStr "red") = (13, 42, 120)
  /\ qr_design._hex_to_rgb (VStr "#12345") = (13, 42, 120)
  /\ qr_design._hex_to_rgb (VStr "#GGGGGG") = (13, 42, 120)
  /\ qr_design._hex_to_rgb VNone = (13, 42, 120).
Proof. repeat split; reflexivity. Qed.

Example normalize_size_samples :
  qr_design._normalize_size VNone (VStr "print") = Ok 1200
  /\ qr_design._normalize_size (VInt 0) (VStr "poster") = Ok 1800
  /\ qr_design._normalize_size (VInt (-5)) (VStr "web") = Ok 200
  /\ qr_design._normalize_size (VInt 99999) (VStr "web") = Ok 2000
  /\ qr_design._normalize_size (VStr " 750 ") (VStr "web") = Ok 750
  /\ qr_design._normalize_size (VStr "abc") (VStr "nowhere") = Ok 600.
Proof. repeat split; reflexivity. Qed.

End python_samples.

(** ** Real-number facts about the luminance formula *)
Section luminance_facts.
Import qr_design.
Local Open Scope R_scope.

Lemma Rpower_base_1 (y : R) : Rpower 1 y = 1.
Proof. unfold Rpower. rewrite ln_1, Rmult_0_r. apply exp_0. Qed.

Lemma Rpower_pos (x y : R) : 0 < Rpower x y.
Proof. unfold Rpower. apply exp_pos. Qed.

(** Below one, the exponent 2.4 gives less than squaring. *)
Lemma Rpower_24_le_sqr (y : R) : 0 < y <= 1 -> Rpower y 2.4 <= y * y.
Proof.
  intros [Hpos Hle].
  replace 2.4 with (INR 2 + 0.4) by (simpl; lra).
  rewrite Rpower_plus, Rpower_pow by assumption.
  assert (Rpower y 0.4 <= 1).
  { rewrite <- (Rpower_base_1 0.4). apply Rle_Rpower_l; lra. }
  assert (0 < Rpower y 0.4) by apply Rpower_pos.
  simpl. nra.
Qed.

Lemma comp_nonneg (v : Z) : (0 <= v)%Z -> 0 <= comp v.
Proof.
  intros Hv. unfold comp. apply IZR_le in Hv.
  destruct (Rle_dec _ _).
  - lra.
  - left. apply Rpower_pos.
Qed.

Lemma comp_le_sqr (v : Z) :
  (11 <= v <= 255)%Z ->
  comp v <= ((IZR v / 255 + 0.055) / 1.055) * ((IZR v / 255 + 0.055) / 1.055).
Proof.
  intros [Hlo Hhi]. unfold comp. apply IZR_le in Hlo, Hhi.
  destruct (Rle_dec _ _) as [Hle|_]; [lra|].
  apply Rpower_24_le_sqr. lra.
Qed.

Lemma comp_255 : comp 255 = 1.
Proof.
  unfold comp. destruct (Rle_dec _ _) as [Hle|_]; [lra|].
  replace ((255 / 255 + 0.055) / 1.055) with 1 by lra. apply Rpower_base_1.
Qed.

Lemma comp_le_1 (v : Z) : (0 <= v <= 255)%Z -> comp v <= 1.
Proof.
  intros [Hlo Hhi]. unfold comp. apply IZR_le in Hlo, Hhi.
  destruct (Rle_dec _ _) as [Hle|Hgt]; [lra|].
  rewrite <- (Rpower_base_1 2.4). apply Rle_Rpower_l; lra.
Qed.

(** A ratio of luminances from bounds on the two, whichever comes first. *)
Lemma ratio_ge (k light dark : R) :
  0 < k -> 0 <= dark -> k * (dark + 0.05) <= light + 0.05 -> dark <= light ->
  (Rmax light dark + 0.05) / (Rmin light dark + 0.05) >= k
  /\ (Rmax dark light + 0.05) / (Rmin dark light + 0.05) >= k.
Proof.
  intros Hk Hd H Hlt.
  rewrite (Rmax_left light dark), (Rmin_right light dark),
    (Rmax_right dark light), (Rmin_left dark light) by lra.
  assert (Hinv : 0 < / (dark + 0.05)) by (apply Rinv_0_lt_compat; lra).
  assert (Hone : (dark + 0.05) * / (dark + 0.05) = 1) by (apply Rinv_r; lra).
  unfold Rdiv. split; nra.
Qed.

Lemma ratio_lt (k light dark : R) :
  0 <= dark <= light -> light + 0.05 < k * (dark + 0.05) ->
  (Rmax light dark + 0.05) / (Rmin light dark + 0.05) < k.
Proof.
  intros Hd H.
  rewrite (Rmax_left light dark), (Rmin_right light dark) by lra.
  assert (Hinv : 0 < / (dark + 0.05)) by (apply Rinv_0_lt_compat; lra).
  assert (Hone : (dark + 0.05) * / (dark + 0.05) = 1) by (apply Rinv_r; lra).
  unfold Rdiv. nra.
Qed.

Lemma luminance_white : _relative_luminance (255, 255, 255)%Z = 1.
Proof. unfold _relative_luminance. rewrite comp_255. lra. Qed.

Lemma luminance_nonneg (r g b : Z) :
  (0 <= r)%Z -> (0 <= g)%Z -> (0 <= b)%Z -> 0 <= _relative_luminance (r, g, b).
Proof.
  intros Hr Hg Hb. unfold _relative_luminance.
  pose proof (comp_nonneg r Hr). pose proof (comp_nonneg g Hg).
  pose proof (comp_nonneg b Hb). lra.
Qed.

(** The fixed pair of the second correction is far above the threshold: no
    rounding of the floating-point computation can bring it below. *)
Lemma safe_pair_contrast_margin :
  _contrast_ratio (VStr "#0D2A78") (VStr "#FFFFFF") >= 10.
Proof.
  unfold _contrast_ratio.
  change (_hex_to_rgb (VStr "#0D2A78")) with (13, 42, 120)%Z.
  change (_hex_to_rgb (VStr "#FFFFFF")) with (255, 255, 255)%Z.
  rewrite luminance_white.
  pose proof (luminance_nonneg 13 42 120 ltac:(lia) ltac:(lia) ltac:(lia)) as Hpos.
  unfold _relative_luminance in *.
  pose proof (comp_le_sqr 13 ltac:(lia)). pose proof (comp_le_sqr 42 ltac:(lia)).
  pose proof (comp_le_sqr 120 ltac:(lia)).
  apply ratio_ge; lra.
Qed.

Lemma safe_pair_contrast :
  _contrast_ratio (VStr "#0D2A78") (VStr "#FFFFFF") >= 4.5.
Proof. pose proof safe_pair_contrast_margin. lra. Qed.

Lemma luminance_fffffe_bounds :
  0.9278 <= _relative_luminance (_hex_to_rgb (VStr "#FFFFFE")) <= 1.
Proof.
  change (_hex_to_rgb (VStr "#FFFFFE")) with (255, 255, 254)%Z.
  unfold _relative_luminance. rewrite comp_255.
  pose proof (comp_nonneg 254 ltac:(lia)). pose proof (comp_le_1 254 ltac:(lia)).
  lra.
Qed.

Lemma luminance_111111_bounds :
  0 <= _relative_luminance (_hex_to_rgb (VStr "#111111")) <= 0.02.
Proof.
  change (_hex_to_rgb (VStr "#111111")) with (17, 17, 17)%Z.
  unfold _relative_luminance.
  pose proof (comp_nonneg 17 ltac:(lia)). pose proof (comp_le_sqr 17 ltac:(lia)).
  lra.
Qed.

(** Black on white is the most there is. *)
Lemma black_on_white_contrast :
  _contrast_ratio (VStr "#000000") (VStr "#FFFFFF") >= 4.5.
Proof.
  unfold _contrast_ratio.
  change (_hex_to_rgb (VStr "#000000")) with (0, 0, 0)%Z.
  change (_hex_to_rgb (VStr "#FFFFFF")) with (255, 255, 255)%Z.
  rewrite luminance_white.
  assert (H0 : _relative_luminance (0, 0, 0)%Z = 0).
  { unfold _relative_luminance, comp.
    destruct (Rle_dec _ _) as [_|Hn]; lra. }
  rewrite H0. apply ratio_ge; lra.
Qed.

(** White on near-white is next to no contrast ... *)
Lemma white_on_near_white_low :
  _contrast_ratio (VStr "#FFFFFF") (VStr "#FFFFFE") < 1.1.
Proof.
  unfold _contrast_ratio. pose proof luminance_fffffe_bounds as H.
  change (_hex_to_rgb (VStr "#FFFFFF")) with (255, 255, 255)%Z.
  rewrite luminance_white. apply ratio_lt; lra.
Qed.

(** ... and near-black on near-white is plenty. *)
Lemma near_black_on_near_white_high :
  _contrast_ratio (VStr "#111111") (VStr "#FFFFFE") >= 10.
Proof.
  unfold _contrast_ratio.
  pose proof luminance_fffffe_bounds. pose proof luminance_111111_bounds.
  apply ratio_ge; lra.
Qed.

End luminance_facts.

(** ** The safe-mode policy, correction by correction *)
Section safe_mode_pass.
Import qr_design.
Local Open Scope R_scope.

Ltac policy_simpl :=
  cbn [st_fg st_bg st_module st_quiet_zone st_contrast st_applied].

(** One case per outcome of the four tests, innermost correction first. *)
Ltac policy_cases s :=
  unfold safe_mode_policy, flip_foreground;
  destruct (Rlt_dec (st_contrast s) 4.5);
  unfold force_safe_pair; policy_simpl;
  destruct (Rlt_dec _ 4.5);
  unfold square_thin_lines; policy_simpl;
  destruct (_ && _);
  unfold raise_quiet_zone; policy_simpl;
  destruct (_ <? 4)%Z eqn:?; policy_simpl.

Lemma styling_eta (s : styling) :
  {| st_fg := st_fg s; st_bg := st_bg s; st_module := st_module s;
     st_quiet_zone := st_quiet_zone s; st_contrast := st_contrast s;
     st_applied := st_applied s |} = s.
Proof. now destruct s. Qed.

(** Only the fourth correction touches the quiet zone. *)
Lemma policy_quiet_zone (size_px : Z) (s : styling) :
  st_quiet_zone (safe_mode_policy size_px s) = Z.max 4 (st_quiet_zone s).
Proof. policy_cases s; lia. Qed.

(** Only the third correction touches the module style. *)
Lemma policy_module (size_px : Z) (s : styling) :
  st_module (safe_mode_policy size_px s)
  = if String.eqb (st_module s) "thin-line" && (size_px <? 700)%Z
    then "square" else st_module s.
Proof. policy_cases s; reflexivity. Qed.

(** After the first two corrections the contrast is at least 4.5. *)
Lemma policy_contrast (size_px : Z) (s : styling) :
  st_contrast (safe_mode_policy size_px s) >= 4.5.
Proof. pose proof safe_pair_contrast. policy_cases s; lra. Qed.

(** A correction that fires marks the pass as applied, and nothing unmarks it. *)
Lemma policy_applied (size_px : Z) (s : styling) :
  st_applied (safe_mode_policy size_px s)
  = st_applied s
    || (if Rlt_dec (st_contrast s) 4.5 then true else false)
    || (String.eqb (st_module s) "thin-line" && (size_px <? 700)%Z)
    || (st_quiet_zone s <? 4)%Z.
Proof.
  policy_cases s; first [contradiction | destruct (st_applied s); reflexivity].
Qed.


End safe_mode_pass.

(** ** The resolver against its blocks *)
Section resolver_facts.
Import qr_design.
Variable QR_THEMES : gmap string (gmap string pyval).
Variable get_qr_style : string → gmap string pyval.

Ltac styling_simpl :=
  cbn [fst snd st_fg st_bg st_module st_quiet_zone st_contrast st_applied].

(** The design fields the safe-mode pass writes, read through [styling_of]. *)
Ltac through_styling :=
  repeat match goal with
  | |- context [fg (assemble ?k ?o ?p ?b ?q ?l ?e ?f ?m ?s)] =>
      change (fg (assemble k o p b q l e f m s))
        with (st_fg (styling_of (assemble k o p b q l e f m s)))
  | |- context [bg (assemble ?k ?o ?p ?b ?q ?l ?e ?f ?m ?s)] =>
      change (bg (assemble k o p b q l e f m s))
        with (st_bg (styling_of (assemble k o p b q l e f m s)))
  | |- context [qr_design.module_style (assemble ?k ?o ?p ?b ?q ?l ?e ?f ?m ?s)] =>
      change (qr_design.module_style (assemble k o p b q l e f m s))
        with (st_module (styling_of (assemble k o p b q l e f m s)))
  | |- context [quiet_zone (assemble ?k ?o ?p ?b ?q ?l ?e ?f ?m ?s)] =>
      change (quiet_zone (assemble k o p b q l e f m s))
        with (st_quiet_zone (styling_of (assemble k o p b q l e f m s)))
  | |- context [contrast_ratio (assemble ?k ?o ?p ?b ?q ?l ?e ?f ?m ?s)] =>
      change (contrast_ratio (assemble k o p b q l e f m s))
        with (st_contrast (styling_of (assemble k o p b q l e f m s)))
  | |- context [safe_mode_applied (assemble ?k ?o ?p ?b ?q ?l ?e ?f ?m ?s)] =>
      change (safe_mode_applied (assemble k o p b q l e f m s))
        with (st_applied (styling_of (assemble k o p b q l e f m s)))
  end.

(** The safe-mode block of lines 120-136, as the policy reads it. *)
Lemma safe_block_is_policy (enabled : bool) (fg0 bg0 module : string) (quiet qr_px : Z) :
  (let contrast := _contrast_ratio (VStr fg0) (VStr bg0) in
   let safe_applied := false in
   if enabled then
     let '(fg, contrast, safe_applied) :=
       if Rlt_dec contrast 4.5 then
         let bg_l := _relative_luminance (_hex_to_rgb (VStr bg0)) in
         let fg := if Rgt_dec bg_l 0.5 then "#111111" else "#FFFFFF" in
         (fg, _contrast_ratio (VStr fg) (VStr bg0), true)
       else (fg0, contrast, safe_applied) in
     let '(fg, bg, contrast, safe_applied) :=
       if Rlt_dec contrast 4.5 then
         ("#0D2A78", "#FFFFFF",
          _contrast_ratio (VStr "#0D2A78") (VStr "#FFFFFF"), true)
       else (fg, bg0, contrast, safe_applied) in
     let '(module, safe_applied) :=
       if String.eqb module "thin-line" && (qr_px <? 700) then ("square", true)
       else (module, safe_applied) in
     let '(quiet_zone, safe_applied) :=
       if quiet <? 4 then (4, true) else (quiet, safe_applied) in
     (fg, bg, module, quiet_zone, contrast, safe_applied)
   else (fg0, bg0, module, quiet, contrast, safe_applied))
  = (let s0 :=
       {| st_fg := fg0; st_bg := bg0; st_module := module; st_quiet_zone := quiet;
          st_contrast := _contrast_ratio (VStr fg0) (VStr bg0); st_applied := false |} in
     let s := if enabled then safe_mode_policy qr_px s0 else s0 in
     (st_fg s, st_bg s, st_module s, st_quiet_zone s, st_contrast s, st_applied s)).
Proof.
  cbv zeta. destruct enabled; [|reflexivity].
  unfold safe_mode_policy, flip_foreground. styling_simpl.
  destruct (Rlt_dec (_contrast_ratio (VStr fg0) (VStr bg0)) 4.5);
    [destruct (Rgt_dec _ 0.5)|];
    unfold force_safe_pair; styling_simpl;
    (destruct (Rlt_dec _ 4.5); unfold square_thin_lines; styling_simpl;
     (destruct (_ && _); unfold raise_quiet_zone; styling_simpl;
      (destruct (_ <? 4); reflexivity))).
Qed.

Lemma resolve_design_unfold style fg_color bg_color module_style eye_style qr_size
    output_preset export_format frame_style logo_scale logo_bg_mode safe_mode :
  resolve_design QR_THEMES get_qr_style style fg_color bg_color module_style eye_style
    qr_size output_preset export_format frame_style logo_scale logo_bg_mode safe_mode
  = (let key := style_key QR_THEMES style in
     let output := output_key output_preset in
     preset ← subscript PRESET_EXPORT_CONFIG output;
     base ← base_style (get_qr_style key) key fg_color bg_color module_style eye_style;
     qr_px ← _normalize_size qr_size (VStr output);
     logo ← int (py_or logo_scale (VInt 20));
     mret (assemble key output preset base qr_px logo
             export_format frame_style logo_bg_mode safe_mode)).
Proof.
  unfold resolve_design.
  change (str (py_or (VStr (lower (strip (str (py_or style (VStr "modern"))))))
                     (VStr "modern")))
    with (named_style style).
  fold (style_key QR_THEMES style).
  change (lower (strip (str (py_or output_preset (VStr "web")))))
    with (named output_preset "web").
  fold (output_key output_preset).
  change (lower (strip (str (py_or export_format (VStr "png")))))
    with (named export_format "png").
  change (lower (strip (str (py_or frame_style (VStr "none")))))
    with (named frame_style "none").
  change (lower (strip (str (py_or logo_bg_mode (VStr "auto-white")))))
    with (named logo_bg_mode "auto-white").
  destruct (subscript PRESET_EXPORT_CONFIG _) as [preset|]; [|reflexivity].
  cbn [mbind result_bind].
  unfold base_style.
  match goal with
  | |- mbind _ ?c = mbind _ ?c' =>
      change c' with c; destruct c as [[[[fg0 bg0] module] eye]|]
  end; [|reflexivity].
  cbn [mbind result_bind].
  destruct (_normalize_size _ _) as [qr_px|]; [|reflexivity].
  cbn [mbind result_bind].
  match goal with
  | |- context [match safe_mode with
                | VNone => false | VBool _ => ?a | VInt _ => ?b | VStr _ => ?c end] =>
      replace (match safe_mode with
               | VNone => false | VBool _ => a | VInt _ => b | VStr _ => c end)
        with (safe_mode_on safe_mode) by (destruct safe_mode; reflexivity)
  end.
  pose proof (safe_block_is_policy (safe_mode_on safe_mode) fg0 bg0 module
                (Z.max 2 (Z.min (preset_quiet_zone preset) 12)) qr_px) as Hblock.
  cbv zeta in Hblock. rewrite Hblock. clear Hblock.
  destruct (int _); reflexivity.
Qed.

Lemma resolve_design_inv style fg_color bg_color module_style eye_style qr_size
    output_preset export_format frame_style logo_scale logo_bg_mode safe_mode d :
  resolve_design QR_THEMES get_qr_style style fg_color bg_color module_style eye_style
    qr_size output_preset export_format frame_style logo_scale logo_bg_mode safe_mode
  = Ok d ->
  exists preset base qr_px logo,
    PRESET_EXPORT_CONFIG !! output_key output_preset = Some preset
    /\ base_style (get_qr_style (style_key QR_THEMES style)) (style_key QR_THEMES style)
         fg_color bg_color module_style eye_style = Ok base
    /\ _normalize_size qr_size (VStr (output_key output_preset)) = Ok qr_px
    /\ int (py_or logo_scale (VInt 20)) = Ok logo
    /\ d = assemble (style_key QR_THEMES style) (output_key output_preset) preset base
             qr_px logo export_format frame_style logo_bg_mode safe_mode.
Proof.
  rewrite resolve_design_unfold. cbv zeta. unfold subscript.
  destruct (PRESET_EXPORT_CONFIG !! _) as [preset|]; [|discriminate].
  cbn [mbind result_bind].
  destruct (base_style _ _ _ _ _ _) as [base|]; [|discriminate].
  cbn [mbind result_bind].
  destruct (_normalize_size _ _) as [qr_px|]; [|discriminate].
  cbn [mbind result_bind].
  destruct (int _) as [logo|]; [|discriminate].
  cbn [mbind result_bind mret result_ret].
  intros [= <-]. exists preset, base, qr_px, logo. repeat split; reflexivity.
Qed.

Lemma styling_of_assemble key output preset base qr_px logo
    export_format frame_style logo_bg_mode safe_mode :
  styling_of (assemble key output preset base qr_px logo
                export_format frame_style logo_bg_mode safe_mode)
  = if safe_mode_on safe_mode
    then safe_mode_policy qr_px (initial_styling base preset)
    else initial_styling base preset.
Proof.
  unfold styling_of, assemble.
  cbn [fg bg qr_design.module_style quiet_zone contrast_ratio safe_mode_applied].
  apply styling_eta.
Qed.

Lemma module_style_assemble key output preset base qr_px logo
    export_format frame_style logo_bg_mode safe_mode :
  qr_design.module_style
    (assemble key output preset base qr_px logo export_format frame_style
       logo_bg_mode safe_mode)
  = if safe_mode_on safe_mode && (String.eqb base.1.2 "thin-line" && (qr_px <? 700))
    then "square" else base.1.2.
Proof.
  through_styling. rewrite styling_of_assemble.
  destruct (safe_mode_on safe_mode); [|reflexivity].
  now rewrite policy_module.
Qed.

Lemma quiet_zone_assemble key output preset base qr_px logo
    export_format frame_style logo_bg_mode safe_mode :
  quiet_zone
    (assemble key output preset base qr_px logo export_format frame_style
       logo_bg_mode safe_mode)
  = let clamped := Z.max 2 (Z.min (preset_quiet_zone preset) 12) in
    if safe_mode_on safe_mode then Z.max 4 clamped else clamped.
Proof.
  through_styling. rewrite styling_of_assemble.
  destruct (safe_mode_on safe_mode); [|reflexivity].
  now rewrite policy_quiet_zone.
Qed.

Lemma int_raises (v : pyval) (e : exn) :
  int v = Raise e -> e = TypeError \/ e = ValueError.
Proof.
  destruct v as [|b|z|s]; cbn; try discriminate.
  - intros [= <-]. now left.
  - destruct (parse_int 10 s); [discriminate|]. intros [= <-]. now right.
Qed.

(** [_normalize_size] never raises, and clamps. *)
Lemma normalize_size_total (raw_size output_preset : pyval) :
  exists z, _normalize_size raw_size output_preset = Ok z /\ 200 <= z <= 2000.
Proof.
  unfold _normalize_size.
  change (subscript PRESET_EXPORT_CONFIG "web")
    with (Ok {| preset_size := 600; preset_dpi := 144; preset_quiet_zone := 4 |}).
  cbn [mbind result_bind].
  destruct (int _) as [z|e] eqn:E.
  - cbn. eexists. split; [reflexivity|lia].
  - destruct (int_raises _ _ E) as [-> | ->]; cbn; eexists; (split; [reflexivity|lia]).
Qed.

Lemma preset_lookup_cases (output : string) (preset : export_preset) :
  PRESET_EXPORT_CONFIG !! output = Some preset ->
  (output = "web" /\ preset = {| preset_size := 600; preset_dpi := 144; preset_quiet_zone := 4 |})
  \/ (output = "print" /\ preset = {| preset_size := 1200; preset_dpi := 300; preset_quiet_zone := 6 |})
  \/ (output = "sticker" /\ preset = {| preset_size := 900; preset_dpi := 300; preset_quiet_zone := 6 |})
  \/ (output = "poster" /\ preset = {| preset_size := 1800; preset_dpi := 300; preset_quiet_zone := 8 |}).
Proof.
  unfold PRESET_EXPORT_CONFIG.
  rewrite !lookup_insert_Some, lookup_singleton_Some.
  intros H.
  repeat (destruct H as [[<- <-]|[_ H]]; [tauto|]).
  destruct H as [<- <-]. tauto.
Qed.

Lemma output_key_lookup (output_preset : pyval) :
  is_Some (PRESET_EXPORT_CONFIG !! output_key output_preset).
Proof.
  unfold output_key, has_key. case_bool_decide as H; [exact H|].
  now exists {| preset_size := 600; preset_dpi := 144; preset_quiet_zone := 4 |}.
Qed.

(** C2: every design the resolver returns has its size within 200..2000, its
    quiet zone within 2..12, its dpi within 72..600 and its logo scale within
    8..20, whatever the raw inputs were. *)
Theorem resolved_numbers_in_range
    style fg_color bg_color module_style eye_style qr_size output_preset
    export_format frame_style logo_scale logo_bg_mode safe_mode d :
  resolve_design QR_THEMES get_qr_style style fg_color bg_color module_style eye_style
    qr_size output_preset export_format frame_style logo_scale logo_bg_mode safe_mode
  = Ok d ->
  200 <= qr_design.qr_size d <= 2000
  /\ 2 <= quiet_zone d <= 12
  /\ 72 <= dpi d <= 600
  /\ 8 <= qr_design.logo_scale d <= 20.
Proof.
  intros H. apply resolve_design_inv in H.
  destruct H as (preset & base & qr_px & logo & Hpre & _ & Hsize & _ & ->).
  destruct (normalize_size_total qr_size (VStr (output_key output_preset)))
    as (z & Hz & Hrange).
  rewrite Hz in Hsize. injection Hsize as <-.
  rewrite quiet_zone_assemble.
  unfold assemble. cbn [qr_design.qr_size dpi qr_design.logo_scale]. cbv zeta.
  assert (Hq : 2 <= preset_quiet_zone preset <= 12 /\ 72 <= preset_dpi preset <= 600).
  { destruct (preset_lookup_cases _ _ Hpre) as [[_ ->]|[[_ ->]|[[_ ->]|[_ ->]]]];
      cbn; lia. }
  destruct (safe_mode_on safe_mode); lia.
Qed.

(** The resolver returns a design as soon as the theme at hand has its two
    colours and the logo scale is missing or a number. *)
Lemma resolve_design_returns
    style fg_color bg_color module_style eye_style qr_size output_preset
    export_format frame_style logo_scale logo_bg_mode safe_mode :
  is_Some (get_qr_style (style_key QR_THEMES style) !! "fg") ->
  is_Some (get_qr_style (style_key QR_THEMES style) !! "bg") ->
  raises (int (py_or logo_scale (VInt 20))) = false ->
  exists d,
    resolve_design QR_THEMES get_qr_style style fg_color bg_color module_style
      eye_style qr_size output_preset export_format frame_style logo_scale
      logo_bg_mode safe_mode = Ok d.
Proof.
  intros [f Hf] [b Hb] Hlogo. rewrite resolve_design_unfold. cbv zeta.
  destruct (output_key_lookup output_preset) as [preset Hpre].
  unfold subscript at 1. rewrite Hpre. cbn [mbind result_bind].
  unfold base_style, subscript. rewrite Hf, Hb.
  destruct (normalize_size_total qr_size (VStr (output_key output_preset)))
    as (z & Hz & _).
  destruct (int (py_or logo_scale (VInt 20))) as [logo|]; [|discriminate].
  destruct (_ =? _)%string, (truthy fg_color), (truthy bg_color);
    cbn [mbind result_bind]; rewrite Hz; cbn [mbind result_bind];
    eexists; reflexivity.
Qed.

(** A logo scale that is a text and no number makes the call raise, whatever
    the theme table and the other inputs. *)
Lemma logo_scale_text_always_raises
    style fg_color bg_color module_style eye_style qr_size output_preset
    export_format frame_style logo_bg_mode safe_mode :
  raises (resolve_design QR_THEMES get_qr_style style fg_color bg_color
            module_style eye_style qr_size output_preset export_format
            frame_style (VStr "abc") logo_bg_mode safe_mode) = true.
Proof.
  rewrite resolve_design_unfold. cbv zeta.
  destruct (subscript _ _); [|reflexivity]. cbn [mbind result_bind].
  destruct (base_style _ _ _ _ _ _); [|reflexivity]. cbn [mbind result_bind].
  destruct (_normalize_size _ _); reflexivity.
Qed.

(** C10: the resolved quiet zone and dpi are read off the output preset
    alone -- (4, 144) for web, (6, 300) for print and for sticker, (8, 300)
    for poster -- whatever the other inputs are, safe mode included. *)
Theorem quiet_zone_and_dpi_follow_preset
    style fg_color bg_color module_style eye_style qr_size output_preset
    export_format frame_style logo_scale logo_bg_mode safe_mode d :
  resolve_design QR_THEMES get_qr_style style fg_color bg_color module_style eye_style
    qr_size output_preset export_format frame_style logo_scale logo_bg_mode safe_mode
  = Ok d ->
  qr_design.output_preset d = output_key output_preset
  /\ claims.quiet_zone_dpi (output_key output_preset) = Some (quiet_zone d, dpi d)
  /\ 4 <= quiet_zone d.
Proof.
  intros H. apply resolve_design_inv in H.
  destruct H as (preset & base & qr_px & logo & Hpre & _ & _ & _ & ->).
  rewrite quiet_zone_assemble.
  unfold assemble. cbn [qr_design.output_preset dpi]. cbv zeta.
  split; [reflexivity|].
  destruct (safe_mode_on safe_mode);
    destruct (preset_lookup_cases _ _ Hpre) as [[-> ->]|[[-> ->]|[[-> ->]|[-> ->]]]];
    (split; [reflexivity|cbn; lia]).
Qed.

(** The quiet zone is the same with and without safe mode, and at least 4. *)
Lemma quiet_zone_untouched_by_safe_mode
    style fg_color bg_color module_style eye_style qr_size output_preset
    export_format frame_style logo_scale logo_bg_mode safe_mode d d0 :
  resolve_design QR_THEMES get_qr_style style fg_color bg_color module_style eye_style
    qr_size output_preset export_format frame_style logo_scale logo_bg_mode safe_mode
  = Ok d ->
  resolve_design QR_THEMES get_qr_style style fg_color bg_color module_style eye_style
    qr_size output_preset export_format frame_style logo_scale logo_bg_mode VNone
  = Ok d0 ->
  quiet_zone d = quiet_zone d0 /\ 4 <= quiet_zone d0.
Proof.
  intros H H0. apply resolve_design_inv in H, H0.
  destruct H as (preset & base & qr_px & logo & Hpre & _ & _ & _ & ->).
  destruct H0 as (preset' & base' & qr_px' & logo' & Hpre' & _ & _ & _ & ->).
  rewrite Hpre in Hpre'. injection Hpre' as <-.
  rewrite !quiet_zone_assemble. cbv zeta.
  change (safe_mode_on VNone) with false. cbv iota.
  assert (4 <= preset_quiet_zone preset <= 12).
  { destruct (preset_lookup_cases _ _ Hpre) as [[_ ->]|[[_ ->]|[[_ ->]|[_ ->]]]];
      cbn; lia. }
  destruct (safe_mode_on safe_mode); lia.
Qed.

(** The colours lines 101-110 start from: for the style custom they are the
    caller's, when the caller gave them. *)
Lemma base_style_colours (conf : gmap string pyval) (key : string)
    (fg_color bg_color module_style eye_style : pyval)
    (base : string * string * string * string) :
  base_style conf key fg_color bg_color module_style eye_style = Ok base ->
  key = "custom" ->
  (truthy fg_color = true -> base.1.1.1 = str fg_color)
  /\ (truthy bg_color = true -> base.1.1.2 = str bg_color).
Proof.
  unfold base_style. intros Hbase ->. cbn [String.eqb Ascii.eqb Bool.eqb] in Hbase.
  destruct (truthy fg_color), (truthy bg_color);
    cbn [mbind result_bind] in Hbase;
    repeat match type of Hbase with
           | context [subscript conf ?k] =>
               destruct (subscript conf k); cbn [mbind result_bind] in Hbase;
               [|discriminate Hbase]
           end; injection Hbase as <-; split; intros; first [reflexivity|discriminate].
Qed.

(** C3: the colours, module style and quiet zone a design starts from are
    those of lines 101-112 -- for the style custom the caller's colours.  When
    the request asks for safe mode, the design carries what the four
    corrections of the policy, applied in its order, make of them, and is
    marked as corrected exactly when one of them fired; its contrast is then at
    least 4.5, and an initially low contrast leaves it marked.  When the
    request does not ask for safe mode, nothing is corrected and nothing
    marked. *)
Theorem safe_mode_corrections
    style fg_color bg_color module_style eye_style qr_size output_preset
    export_format frame_style logo_scale logo_bg_mode safe_mode d :
  resolve_design QR_THEMES get_qr_style style fg_color bg_color module_style eye_style
    qr_size output_preset export_format frame_style logo_scale logo_bg_mode safe_mode
  = Ok d ->
  exists base preset,
    let key := style_key QR_THEMES style in
    let start := initial_styling base preset in
    base_style (get_qr_style key) key fg_color bg_color module_style eye_style = Ok base
    /\ PRESET_EXPORT_CONFIG !! output_key output_preset = Some preset
    /\ (key = "custom" ->
        (truthy fg_color = true -> st_fg start = str fg_color)
        /\ (truthy bg_color = true -> st_bg start = str bg_color))
    /\ qr_design.safe_mode d = safe_mode_on safe_mode
    /\ styling_of d
       = (if safe_mode_on safe_mode
          then safe_mode_policy (qr_design.qr_size d) start
          else start)
    /\ safe_mode_applied d
       = safe_mode_on safe_mode
         && ((if Rlt_dec (st_contrast start) 4.5 then true else false)
             || (String.eqb (st_module start) "thin-line" && (qr_design.qr_size d <? 700))
             || (st_quiet_zone start <? 4))
    /\ (safe_mode_on safe_mode = true ->
        (contrast_ratio d >= 4.5)%R
        /\ ((st_contrast start < 4.5)%R -> safe_mode_applied d = true)).
Proof.
  intros H. apply resolve_design_inv in H.
  destruct H as (preset & base & qr_px & logo & Hpre & Hbase & _ & _ & ->).
  exists base, preset. cbv zeta.
  split; [exact Hbase|]. split; [exact Hpre|].
  split; [exact (base_style_colours _ _ _ _ _ _ _ Hbase)|].
  split; [reflexivity|].
  through_styling. rewrite !styling_of_assemble.
  change (qr_design.qr_size (assemble _ _ _ _ qr_px _ _ _ _ _)) with qr_px.
  split; [reflexivity|].
  destruct (safe_mode_on safe_mode); cbn [andb].
  - rewrite policy_applied.
    change (st_applied (initial_styling base preset)) with false. cbn [orb].
    split; [reflexivity|].
    intros _. split; [apply policy_contrast|].
    intros Hlow. destruct (Rlt_dec _ _) as [_|Hge]; [reflexivity|contradiction].
  - split; [reflexivity|]. discriminate.
Qed.




(** What lines 101-110 leave as eye style and as module style. *)
Lemma base_style_eye_module (conf : gmap string pyval) (key : string)
    (fg_color bg_color module_style eye_style : pyval)
    (base : string * string * string * string) :
  base_style conf key fg_color bg_color module_style eye_style = Ok base ->
  base.2
  = str (py_or (py_or (if String.eqb key "custom" then eye_style else VNone)
                      (get conf "eye_style")) (VStr "square"))
  /\ base.1.2
     = str (py_or (py_or (if String.eqb key "custom" then module_style else VNone)
                         (get conf "module_style")) (VStr "square")).
Proof.
  unfold base_style. intros Hbase.
  destruct (_ =? _)%string;
    repeat match type of Hbase with
           | context [mbind _ ?c] =>
               destruct c; cbn [mbind result_bind] in Hbase; [|discriminate Hbase]
           end; injection Hbase as <-; split; reflexivity.
Qed.

(** C5, as the code has it: an unknown style, output preset or export format
    gives classic, web or png.  The frame style is the caller's, trimmed and
    lower-cased, none only when missing or empty.  The eye style is, for the
    style custom, the caller's when not empty, else the theme's, else square;
    for another style the theme's, else square; and so is the module style,
    up to the third safe-mode correction. *)
Theorem enum_fallbacks
    style fg_color bg_color module_style eye_style qr_size output_preset
    export_format frame_style logo_scale logo_bg_mode safe_mode d :
  resolve_design QR_THEMES get_qr_style style fg_color bg_color module_style
    eye_style qr_size output_preset export_format frame_style logo_scale
    logo_bg_mode safe_mode = Ok d ->
  let conf := get_qr_style (qr_design.style d) in
  let custom := String.eqb (qr_design.style d) "custom" in
  let asked_module := if custom then module_style else VNone in
  let asked_eye := if custom then eye_style else VNone in
  let base_module :=
    str (py_or (py_or asked_module (get conf "module_style")) (VStr "square")) in
  (named_style style <> "custom" ->
   has_key QR_THEMES (named_style style) = false ->
   qr_design.style d = "classic")
  /\ (has_key PRESET_EXPORT_CONFIG (named output_preset "web") = false ->
      qr_design.output_preset d = "web")
  /\ (named export_format "png" ∉ claims.export_formats ->
      qr_design.export_format d = "png")
  /\ qr_design.frame_style d = named frame_style "none"
  /\ qr_design.eye_style d
     = str (py_or (py_or asked_eye (get conf "eye_style")) (VStr "square"))
  /\ (qr_design.module_style d = base_module
      \/ (qr_design.module_style d = "square" /\ base_module = "thin-line"
          /\ safe_mode_applied d = true)).
Proof.
  intros H. apply resolve_design_inv in H.
  destruct H as (preset & base & qr_px & logo & _ & Hbase & _ & _ & ->).
  apply base_style_eye_module in Hbase. destruct Hbase as [Heye Hmod].
  change (qr_design.style (assemble ?k _ _ _ _ _ _ _ _ _)) with k.
  cbv zeta. rewrite <- Hmod. split; [|split; [|split; [|split; [|split]]]].
  - intros Hne Hno. unfold style_key.
    destruct (String.eqb_spec (named_style style) "custom") as [E|_];
      [contradiction|]. now rewrite Hno.
  - intros Hno. cbn [qr_design.output_preset assemble]. unfold output_key.
    now rewrite Hno.
  - intros Hno. cbn [qr_design.export_format assemble]. unfold in_set.
    now rewrite bool_decide_eq_false_2.
  - reflexivity.
  - exact Heye.
  - rewrite module_style_assemble. through_styling. rewrite styling_of_assemble.
    destruct (safe_mode_on safe_mode); [|now left]. cbn [andb].
    rewrite policy_applied. cbn [initial_styling st_module].
    destruct (String.eqb_spec base.1.2 "thin-line") as [E|_]; cbn [andb]; [|now left].
    destruct (_ <? 700); [|now left].
    right. rewrite !orb_true_r. cbn. auto.
Qed.

End resolver_facts.

(** ** The resolver on concrete inputs *)
Section resolver_runs.
Import qr_design.

(** Scenario A: style classic, a red foreground asked for, no safe mode. *)
Lemma run_classic_red :
  resolve_design demo.QR_THEMES demo.get_qr_style
    (VStr "classic") (VStr "#FF0000") VNone VNone VNone VNone VNone VNone VNone
    VNone VNone VNone
  = Ok (assemble "classic" "web" demo.web_preset
          ("#000000", "#FFFFFF", "square", "square") 600 20 VNone VNone VNone VNone).
Proof. rewrite resolve_design_unfold. reflexivity. Qed.

Example scenario_a :
  fg <$> resolve_design demo.QR_THEMES demo.get_qr_style
           (VStr "classic") (VStr "#FF0000") VNone VNone VNone VNone VNone VNone
           VNone VNone VNone VNone
  = Ok "#000000"
  /\ (λ look : string * string * string * string, look.1.1.1)
     <$> preset_look (demo.get_qr_style "classic") = Ok "#000000".
Proof. rewrite run_classic_red. split; reflexivity. Qed.

(** Out-of-range numbers: a negative size and a logo scale of 999. *)
Lemma run_out_of_range :
  resolve_design demo.QR_THEMES demo.get_qr_style
    (VStr "classic") VNone VNone VNone VNone (VInt (-5)) (VStr "poster") VNone VNone
    (VInt 999) VNone VNone
  = Ok (assemble "classic" "poster"
          {| preset_size := 1800; preset_dpi := 300; preset_quiet_zone := 8 |}
          ("#000000", "#FFFFFF", "square", "square") 200 999
          VNone VNone VNone VNone).
Proof. rewrite resolve_design_unfold. reflexivity. Qed.

(** Style custom with names no enum has. *)
Lemma run_custom_zigzag :
  resolve_design demo.QR_THEMES demo.get_qr_style
    (VStr "custom") VNone VNone (VStr "zigzag") (VStr "zigzag") VNone VNone
    (VStr "bmp") (VStr "zigzag") VNone VNone VNone
  = Ok (assemble "custom" "web" demo.web_preset
          ("#000000", "#FFFFFF", "zigzag", "zigzag") 600 20
          (VStr "bmp") (VStr "zigzag") VNone VNone).
Proof. rewrite resolve_design_unfold. reflexivity. Qed.

(** Scenario B: style custom, white on near-white, with and without safe mode. *)
Lemma run_scenario_b (safe_mode : pyval) :
  resolve_design demo.QR_THEMES demo.get_qr_style
    (VStr "custom") (VStr "#FFFFFF") (VStr "#FFFFFE") VNone VNone VNone VNone
    VNone VNone VNone VNone safe_mode
  = Ok (assemble "custom" "web" demo.web_preset
          ("#FFFFFF", "#FFFFFE", "square", "square") 600 20
          VNone VNone VNone safe_mode).
Proof. rewrite resolve_design_unfold. reflexivity. Qed.

Lemma scenario_b_policy :
  safe_mode_policy 600
    (initial_styling ("#FFFFFF", "#FFFFFE", "square", "square") demo.web_preset)
  = {| st_fg := "#111111"; st_bg := "#FFFFFE"; st_module := "square";
       st_quiet_zone := 4;
       st_contrast := _contrast_ratio (VStr "#111111") (VStr "#FFFFFE");
       st_applied := true |}.
Proof.
  unfold safe_mode_policy, initial_styling, flip_foreground.
  cbn [st_contrast st_bg st_fg st_module st_quiet_zone st_applied fst snd].
  pose proof white_on_near_white_low. pose proof luminance_fffffe_bounds.
  pose proof near_black_on_near_white_high.
  destruct (Rlt_dec _ _); [|lra].
  destruct (Rgt_dec _ _); [|lra].
  unfold force_safe_pair. cbn [st_contrast].
  destruct (Rlt_dec _ _); [lra|].
  reflexivity.
Qed.

Lemma resolved_numbers_in_range_witness :
  exists d,
    resolve_design demo.QR_THEMES demo.get_qr_style
      (VStr "classic") VNone VNone VNone VNone (VInt (-5)) (VStr "poster") VNone
      VNone (VInt 999) VNone VNone = Ok d
    /\ (200 <= qr_design.qr_size d <= 2000
        /\ 2 <= quiet_zone d <= 12
        /\ 72 <= dpi d <= 600
        /\ 8 <= qr_design.logo_scale d <= 20).
Proof.
  eexists. split; [exact run_out_of_range|].
  exact (resolved_numbers_in_range _ _ _ _ _ _ _ _ _ _ _ _ _ _ _ run_out_of_range).
Defined.

Lemma quiet_zone_and_dpi_follow_preset_witness :
  exists d,
    resolve_design demo.QR_THEMES demo.get_qr_style
      (VStr "classic") VNone VNone VNone VNone (VInt (-5)) (VStr "poster") VNone
      VNone (VInt 999) VNone VNone = Ok d
    /\ claims.quiet_zone_dpi "poster" = Some (quiet_zone d, dpi d).
Proof.
  eexists. split; [exact run_out_of_range|].
  exact (proj1 (proj2 (quiet_zone_and_dpi_follow_preset _ _ _ _ _ _ _ _ _ _ _ _ _ _ _
                         run_out_of_range))).
Defined.

Lemma safe_mode_corrections_witness :
  exists d,
    resolve_design demo.QR_THEMES demo.get_qr_style
      (VStr "custom") (VStr "#FFFFFF") (VStr "#FFFFFE") VNone VNone VNone VNone
      VNone VNone VNone VNone (VStr "true") = Ok d
    /\ (contrast_ratio d >= 4.5)%R
    /\ safe_mode_applied d = true
    /\ fg d = "#111111"
    /\ bg d = "#FFFFFE".
Proof.
  eexists. split; [exact (run_scenario_b (VStr "true"))|].
  destruct (safe_mode_corrections _ _ _ _ _ _ _ _ _ _ _ _ _ _ _
              (run_scenario_b (VStr "true")))
    as (base & preset & Hbase & Hpre & _ & _ & Hstyling & Happlied & Hon).
  change (base_style _ _ _ _ _ _)
    with (Ok ("#FFFFFF", "#FFFFFE", "square", "square")
          : result (string * string * string * string)) in Hbase.
  change (PRESET_EXPORT_CONFIG !! output_key VNone) with (Some demo.web_preset) in Hpre.
  injection Hbase as <-. injection Hpre as <-.
  change (safe_mode_on (VStr "true")) with true in Hstyling, Happlied, Hon.
  cbv iota in Hstyling.
  change (qr_design.qr_size (assemble _ _ _ _ 600 _ _ _ _ _)) with 600 in Hstyling.
  rewrite scenario_b_policy in Hstyling.
  destruct (Hon eq_refl) as [Hcontrast Hmarked].
  split; [exact Hcontrast|].
  split.
  { apply Hmarked. pose proof white_on_near_white_low.
    cbn [initial_styling st_contrast fst snd]. lra. }
  split.
  - exact (f_equal st_fg Hstyling).
  - exact (f_equal st_bg Hstyling).
Defined.

(** Scenario B: the resolved contrast is at least 4.5 and a correction is
    recorded; the foreground became near-black, the background stayed. *)
Example scenario_b :
  exists d,
    resolve_design demo.QR_THEMES demo.get_qr_style
      (VStr "custom") (VStr "#FFFFFF") (VStr "#FFFFFE") VNone VNone VNone VNone
      VNone VNone VNone VNone (VStr "true") = Ok d
    /\ (contrast_ratio d >= 4.5)%R /\ safe_mode_applied d = true
    /\ fg d = "#111111" /\ bg d = "#FFFFFE".
Proof.
  eexists. split; [exact (run_scenario_b (VStr "true"))|].
  pose proof near_black_on_near_white_high as Hhigh.
  unfold assemble. cbn [contrast_ratio safe_mode_applied fg bg].
  change (safe_mode_on (VStr "true")) with true. cbv iota.
  rewrite scenario_b_policy. cbn [st_contrast st_applied st_fg st_bg].
  repeat split. lra.
Qed.

(** Scenario C: thin-line modules at 500 pixels, safe mode on. *)
Example scenario_c :
  qr_design.module_style
  <$> resolve_design demo.QR_THEMES demo.get_qr_style
        (VStr "custom") VNone VNone (VStr "thin-line") VNone (VInt 500) VNone
        VNone VNone VNone VNone (VStr "true")
  = Ok "square".
Proof.
  rewrite resolve_design_unfold.
  change (qr_design.module_style
          <$> Ok (assemble "custom" "web" demo.web_preset
                    ("#000000", "#FFFFFF", "thin-line", "square") 500 20
                    VNone VNone VNone (VStr "true")) = Ok "square").
  cbn [fmap result_fmap]. now rewrite module_style_assemble.
Qed.



(** C5 as stated fails: for the style custom, names that no enum has come
    back as they were given. *)
Lemma enum_fallbacks_counterexample :
  (λ d, (qr_design.module_style d, qr_design.eye_style d, qr_design.frame_style d))
  <$> resolve_design demo.QR_THEMES demo.get_qr_style
        (VStr "custom") VNone VNone (VStr "zigzag") (VStr "zigzag") VNone VNone
        (VStr "bmp") (VStr "zigzag") VNone VNone VNone
  = Ok ("zigzag", "zigzag", "zigzag")
  /\ ("zigzag" ∉ claims.module_styles)
  /\ ("zigzag" ∉ claims.eye_styles)
  /\ ("zigzag" ∉ claims.frame_styles).
Proof.
  split; [rewrite run_custom_zigzag; reflexivity|].
  repeat split; compute_done.
Qed.

Lemma enum_fallbacks_witness :
  exists d,
    resolve_design demo.QR_THEMES demo.get_qr_style
      (VStr "custom") VNone VNone (VStr "zigzag") (VStr "zigzag") VNone VNone
      (VStr "bmp") (VStr "zigzag") VNone VNone VNone = Ok d
    /\ qr_design.export_format d = "png"
    /\ qr_design.frame_style d = "zigzag".
Proof.
  eexists. split; [exact run_custom_zigzag|].
  pose proof (enum_fallbacks _ _ _ _ _ _ _ _ _ _ _ _ _ _ _ run_custom_zigzag) as H.
  cbv zeta in H. destruct H as (_ & _ & Hexport & Hframe & _).
  split; [|exact Hframe].
  apply Hexport. compute_done.
Defined.

(** C4 fails on the logo scale: a text that is no number goes to [int]
    outside any handler and the call raises, where the same text as a size
    is caught and replaced by the preset's size. *)
Theorem logo_scale_text_raises :
  resolve_design demo.QR_THEMES demo.get_qr_style
    (VStr "classic") VNone VNone VNone VNone VNone VNone VNone VNone
    (VStr "abc") VNone VNone
  = Raise ValueError
  /\ qr_design.qr_size
     <$> resolve_design demo.QR_THEMES demo.get_qr_style
           (VStr "classic") VNone VNone VNone VNone (VStr "abc") (VStr "print")
           VNone VNone VNone VNone VNone
     = Ok 1200.
Proof.
  split.
  - rewrite resolve_design_unfold. reflexivity.
  - rewrite resolve_design_unfold. reflexivity.
Qed.

End resolver_runs.

(** ** The two contrast computations *)
Section contrast_twice.

Lemma luminance_as_worded (rgb : Z * Z * Z) :
  qr_design._relative_luminance rgb = claims.luminance rgb
  /\ qr_generator._relative_luminance rgb = claims.luminance rgb.
Proof. destruct rgb as [[r g] b]. split; reflexivity. Qed.

(** C9: the resolver's and the renderer's contrast computations return equal
    values on every pair of colour strings: they parse a colour alike, fall
    back to the same colour, correct gamma and weigh the channels as the
    formula says, and take the same ratio. *)
Theorem contrast_implementations_agree (fg bg : pyval) :
  qr_design._contrast_ratio fg bg = qr_generator._contrast_ratio fg bg
  /\ qr_design._hex_to_rgb fg = qr_generator._hex_to_rgb fg
  /\ qr_design._relative_luminance (qr_design._hex_to_rgb fg)
     = qr_generator._relative_luminance (qr_generator._hex_to_rgb fg)
  /\ qr_design._contrast_ratio fg bg
     = claims.contrast (claims.luminance (qr_design._hex_to_rgb fg))
         (claims.luminance (qr_design._hex_to_rgb bg))
  /\ qr_generator._contrast_ratio fg bg
     = claims.contrast (claims.luminance (qr_generator._hex_to_rgb fg))
         (claims.luminance (qr_generator._hex_to_rgb bg))
  /\ qr_design._hex_to_rgb (VStr "no colour") = claims.fallback_rgb
  /\ qr_generator._hex_to_rgb (VStr "no colour") = claims.fallback_rgb.
Proof.
  split; [reflexivity|]. split; [reflexivity|]. split; [reflexivity|].
  split; [|split; [|split; reflexivity]].
  - unfold qr_design._contrast_ratio, claims.contrast.
    now rewrite !(proj1 (luminance_as_worded _)).
  - unfold qr_generator._contrast_ratio, claims.contrast.
    now rewrite !(proj2 (luminance_as_worded _)).
Qed.

(** The renderer computes its ratio on colours it has normalised first: a
    background written without the hash sign is white to it. *)
Example renderer_normalises_first :
  qr_generator._normalize_hex (VStr "000000") qr_generator.DEFAULT_BG = "#FFFFFF"
  /\ qr_generator._hex_to_rgb (VStr "000000") = (0, 0, 0).
Proof. split; reflexivity. Qed.

End contrast_twice.

(** ** Quiet-zone requests *)
Section quiet_zone_requests.
Import qr_design.
Variable qr_make : string → result (list (list bool)).
Variable QR_THEMES : gmap string (gmap string pyval).
Variable get_qr_style : string → gmap string pyval.

Lemma build_qr_border (payload : string) (q : Z) (qr : qr_generator.QRCode) :
  qr_generator._build_qr qr_make payload (VInt q) = Ok qr ->
  qr_generator.border qr = if q =? 0 then 4 else Z.max 2 (Z.min q 12).
Proof.
  unfold qr_generator._build_qr, py_or, truthy.
  destruct (Z.eqb_spec q 0) as [->|Hq]; cbn [negb int mbind result_bind];
    (destruct (qr_make payload); [|discriminate]); now intros [= <-].
Qed.

(** C8, as the code has it: the resolver takes no quiet-zone request; its
    quiet zone is at least 4 and the same with and without safe mode.  The
    matrix builder reads a request of 0 as missing and takes 4; any other
    whole number is clamped into 2..12. *)
Theorem quiet_zone_zero_means_default
    payload q qr style fg_color bg_color module_style eye_style qr_size
    output_preset export_format frame_style logo_scale logo_bg_mode safe_mode d d0 :
  qr_generator._build_qr qr_make payload (VInt q) = Ok qr ->
  resolve_design QR_THEMES get_qr_style style fg_color bg_color module_style eye_style
    qr_size output_preset export_format frame_style logo_scale logo_bg_mode safe_mode
  = Ok d ->
  resolve_design QR_THEMES get_qr_style style fg_color bg_color module_style eye_style
    qr_size output_preset export_format frame_style logo_scale logo_bg_mode VNone
  = Ok d0 ->
  qr_generator.border qr = (if q =? 0 then 4 else Z.max 2 (Z.min q 12))
  /\ quiet_zone d = quiet_zone d0
  /\ 4 <= quiet_zone d0.
Proof.
  intros Hqr H H0. split.
  - exact (build_qr_border _ _ _ Hqr).
  - exact (quiet_zone_untouched_by_safe_mode _ _ _ _ _ _ _ _ _ _ _ _ _ _ _ _ H H0).
Qed.

End quiet_zone_requests.

Section quiet_zone_requests_checked.
Import qr_design.

Lemma run_build_qr (q : Z) :
  qr_generator._build_qr demo.qr_make "hello" (VInt q)
  = Ok {| qr_generator.border := if q =? 0 then 4 else Z.max 2 (Z.min q 12);
          qr_generator.modules := repeat (repeat true 21) 21 |}.
Proof.
  unfold qr_generator._build_qr, py_or, truthy.
  destruct (q =? 0); reflexivity.
Qed.

(** C8 as stated fails: a requested quiet zone of 0 comes out as 4, not 2,
    with no safe mode in play; it is a request of 1 that comes out as 2. *)
Lemma quiet_zone_zero_counterexample :
  qr_generator.border <$> qr_generator._build_qr demo.qr_make "hello" (VInt 0) = Ok 4
  /\ qr_generator.border <$> qr_generator._build_qr demo.qr_make "hello" (VInt 1) = Ok 2.
Proof. split; reflexivity. Qed.

Lemma quiet_zone_zero_means_default_witness :
  exists qr d d0,
    qr_generator._build_qr demo.qr_make "hello" (VInt 0) = Ok qr
    /\ resolve_design demo.QR_THEMES demo.get_qr_style
         (VStr "custom") (VStr "#FFFFFF") (VStr "#FFFFFE") VNone VNone VNone VNone
         VNone VNone VNone VNone (VStr "true") = Ok d
    /\ resolve_design demo.QR_THEMES demo.get_qr_style
         (VStr "custom") (VStr "#FFFFFF") (VStr "#FFFFFE") VNone VNone VNone VNone
         VNone VNone VNone VNone VNone = Ok d0
    /\ qr_generator.border qr = 4
    /\ quiet_zone d = quiet_zone d0.
Proof.
  eexists _, _, _. split; [exact (run_build_qr 0)|].
  split; [exact (run_scenario_b (VStr "true"))|].
  split; [exact (run_scenario_b VNone)|].
  pose proof (quiet_zone_zero_means_default demo.qr_make demo.QR_THEMES
                demo.get_qr_style _ _ _ _ _ _ _ _ _ _ _ _ _ _ _ _ _
                (run_build_qr 0) (run_scenario_b (VStr "true"))
                (run_scenario_b VNone)) as (Hb & Hq & _).
  split; [exact Hb|exact Hq].
Defined.

End quiet_zone_requests_checked.

(** ** Eye overlays in the two compositors *)
Section eye_overlays.
Import qr_generator.

Lemma eye_key (eye : string) :
  eye ∈ ["rounded"; "ring"; "target"; "dots"] ->
  lower (strip (str (py_or (VStr eye) (VStr "square")))) = eye.
Proof.
  rewrite !elem_of_cons, elem_of_nil.
  intros [->|[->|[->|[->|[]]]]]; reflexivity.
Qed.

(** The raster path strokes an outline at each finder corner, for each of the
    four eye styles that are not square. *)
Lemma raster_overlays_at_finder_corners
    (img_width : Z) (qr : QRCode) (fg bg eye : string) (c : Z * Z) :
  let n := Z.of_nat (length (get_matrix qr)) in
  let module_px := Z.max 1 (img_width / n) in
  eye ∈ ["rounded"; "ring"; "target"; "dots"] ->
  0 < n ->
  c ∈ claims.finder_corners n (border qr) ->
  Some (c.1 * module_px, c.2 * module_px,
        c.1 * module_px + 7 * module_px, c.2 * module_px + 7 * module_px)
  ∈ map claims.outlined_box (_draw_eye_overlays img_width qr fg bg (VStr eye)).
Proof.
  intros n module_px Heye Hn Hc. unfold _draw_eye_overlays.
  rewrite (eye_key eye Heye). fold n.
  destruct (Z.leb_spec n 0) as [|_]; [lia|]. fold module_px.
  unfold claims.finder_corners in Hc.
  rewrite !elem_of_cons, elem_of_nil in Heye.
  rewrite !elem_of_cons, elem_of_nil in Hc.
  destruct Heye as [->|[->|[->|[->|[]]]]];
    change (in_set _ {[ ""; "square" ]}) with false; cbv iota;
    cbn [flat_map String.eqb Ascii.eqb Bool.eqb app map claims.outlined_box];
    destruct Hc as [->|[->|[->|[]]]]; cbn [fst snd];
    rewrite !elem_of_cons; auto 12.
Qed.

(** The vector path has the overlay of the three eye styles it lists, at the
    same corners, twelve units in and one cell per module. *)
Lemma svg_overlays_at_finder_corners
    (qr : QRCode) (size : Z) (fg bg : string) (module_style : pyval)
    (eye frame_style : string) (frame_text : option string) (c : Z * Z) :
  let n := Z.of_nat (length (get_matrix qr)) in
  let cell := Z.max 2 (size / Z.max 1 n) in
  eye ∈ ["rounded"; "ring"; "target"] ->
  c ∈ claims.finder_corners n (border qr) ->
  _svg_eye_overlay eye (12 + c.1 * cell) (12 + c.2 * cell) (cell * 7) fg bg
  ∈ svg_parts qr size fg bg module_style (VStr eye) frame_style frame_text.
Proof.
  intros n cell Heye Hc. unfold svg_parts. fold n. fold cell.
  rewrite (eye_key eye) by (rewrite !elem_of_cons in *; tauto).
  unfold claims.finder_corners in Hc.
  rewrite !elem_of_cons, elem_of_nil in Heye.
  rewrite !elem_of_cons, elem_of_nil in Hc.
  rewrite !elem_of_app. right. right. left.
  destruct Heye as [->|[->|[->|[]]]];
    change (in_set _ {[ "rounded"; "ring"; "target" ]}) with true; cbv iota;
    cbn [map]; destruct Hc as [->|[->|[->|[]]]]; cbn [fst snd];
    rewrite !elem_of_cons; auto.
Qed.

(** C7 fails for the eye style dots: the markup is the one of the eye style
    square, with no overlay at all, while the raster path draws three shapes
    at each of the three corners and [_svg_eye_overlay] has a dots case. *)
Theorem svg_has_no_dots_overlay
    (qr : QRCode) (size img_width : Z) (fg bg : string) (module_style : pyval)
    (frame_style : string) (frame_text : option string) :
  svg_parts qr size fg bg module_style (VStr "dots") frame_style frame_text
  = svg_parts qr size fg bg module_style (VStr "square") frame_style frame_text
  /\ length (_draw_eye_overlays img_width qr fg bg (VStr "dots"))
     = (if Z.of_nat (length (get_matrix qr)) <=? 0 then 0%nat else 9%nat)
  /\ _draw_eye_overlays img_width qr fg bg (VStr "square") = []
  /\ negb (String.eqb (_svg_eye_overlay "dots" 0 0 70 fg bg) "") = true.
Proof.
  split; [|split; [|split]].
  - reflexivity.
  - unfold _draw_eye_overlays.
    change (lower (strip (str (py_or (VStr "dots") (VStr "square"))))) with "dots".
    change (in_set "dots" {[ ""; "square" ]}) with false. cbv iota.
    destruct (_ <=? 0); reflexivity.
  - reflexivity.
  - reflexivity.
Qed.

End eye_overlays.

(** ** What a render call does to the file system *)
Section render_effects.
Import qr_generator.

Lemma append_cons (x : ascii) (a b : string) : String x a +:+ b = String x (a +:+ b).
Proof. reflexivity. Qed.

Lemma append_assoc (a b c : string) : (a +:+ b) +:+ c = a +:+ (b +:+ c).
Proof.
  induction a as [|x a IH]; [reflexivity|]. rewrite !append_cons. now f_equal.
Qed.

Lemma split_from_cons (seen : string) (c : ascii) (r : string) :
  Ascii.eqb c "/" = false ->
  split_from seen (String c r) = split_from (seen +:+ String c EmptyString) r.
Proof. intros H. cbn [split_from]. now rewrite H. Qed.

(** A run of digits, and what follows it when that holds no slash, is one
    name. *)
Lemma split_from_uint (d : Decimal.uint) (tail seen : string) :
  (forall seen', split_from seen' tail = [seen' +:+ tail]) ->
  split_from seen (NilEmpty.string_of_uint d +:+ tail)
  = [seen +:+ NilEmpty.string_of_uint d +:+ tail].
Proof.
  intros Htail. revert seen.
  induction d as [|d IH|d IH|d IH|d IH|d IH|d IH|d IH|d IH|d IH|d IH]; intros seen;
    [exact (Htail seen)|
     cbn [NilEmpty.string_of_uint];
     rewrite append_cons, split_from_cons, IH, append_assoc by reflexivity;
     reflexivity ..].
Qed.

Lemma split_from_png (seen : string) : split_from seen ".png" = [seen +:+ ".png"].
Proof.
  rewrite !split_from_cons by reflexivity. cbn [split_from].
  now rewrite !append_assoc.
Qed.

Lemma split_from_fmt (seen : string) (z : Z) :
  split_from seen (fmt z +:+ ".png") = [seen +:+ fmt z +:+ ".png"].
Proof.
  unfold fmt, str, NilZero.string_of_int, NilZero.string_of_uint.
  destruct (Z.to_int z) as [d|d].
  - destruct d; try exact (split_from_uint _ ".png" seen (fun s => split_from_png s)).
    exact (split_from_uint (Decimal.D0 Decimal.Nil) ".png" seen
             (fun s => split_from_png s)).
  - assert (H : forall u,
               split_from seen (String "-" (NilEmpty.string_of_uint u) +:+ ".png")
               = [seen +:+ String "-" (NilEmpty.string_of_uint u) +:+ ".png"]).
    { intros u. rewrite append_cons, split_from_cons by reflexivity.
      rewrite (split_from_uint u ".png" _ (fun s => split_from_png s)).
      now rewrite append_assoc. }
    destruct d; try exact (H _).
    exact (H (Decimal.D0 Decimal.Nil)).
Qed.

Lemma default_name_split (z : Z) :
  split_slash ("static/generated_qr/qr_" +:+ fmt z +:+ ".png")
  = ["static"; "generated_qr"; "qr_" +:+ fmt z +:+ ".png"].
Proof.
  unfold split_slash. rewrite !append_cons.
  change ("" +:+ fmt z +:+ ".png") with (fmt z +:+ ".png").
  cbn [split_from Ascii.eqb Bool.eqb].
  rewrite split_from_fmt. reflexivity.
Qed.

(** The path of a file named after the clock. *)
Lemma default_path (z : Z) :
  path_join "static/generated_qr" ("qr_" +:+ fmt z +:+ ".png")
  = "static/generated_qr/qr_" +:+ fmt z +:+ ".png".
Proof.
  unfold path_join.
  change (posix_join _ _) with ("static/generated_qr/qr_" +:+ fmt z +:+ ".png").
  unfold pure_path.
  change (splitroot _) with ("", "static/generated_qr/qr_" +:+ fmt z +:+ ".png").
  cbv beta iota. rewrite default_name_split. reflexivity.
Qed.

(** Names that are neither empty nor dots lead downwards. *)
Lemma walk_names (w : world) (cur : fs_path) (names : list string) (f : fs_path) :
  Forall (fun name => name <> "" /\ name <> "." /\ name <> "..") names ->
  walk w cur names = Some f -> f = (cur ++ names)%list.
Proof.
  intros Hnames. revert cur.
  induction Hnames as [|name names (H0 & H1 & H2) _ IH]; intros cur; cbn [walk].
  - intros [= <-]. now rewrite app_nil_r.
  - unfold step. destruct (is_dir w cur); cbn [negb]; [|discriminate].
    rewrite (proj2 (String.eqb_neq _ _) H0), (proj2 (String.eqb_neq _ _) H1),
      (proj2 (String.eqb_neq _ _) H2). cbn [orb].
    intros H. rewrite (IH _ H). now rewrite <- app_assoc.
Qed.

(** The walk reads the directories and the working directory only. *)
Lemma walk_same_dirs (w w' : world) (names : list string) (cur : fs_path) :
  cwd w' = cwd w -> dirs w' = dirs w -> walk w' cur names = walk w cur names.
Proof.
  intros Hcwd Hdirs. revert cur.
  induction names as [|name names IH]; intros cur; [reflexivity|].
  cbn [walk]. unfold step, is_dir. rewrite Hcwd, Hdirs.
  destruct (negb _); [reflexivity|].
  destruct (_ || _); [apply IH|].
  destruct (String.eqb name ".."); [|apply IH].
  destruct (_ || _); [apply IH|reflexivity].
Qed.

Lemma resolve_same_dirs (w w' : world) (p : string) :
  cwd w' = cwd w -> dirs w' = dirs w -> resolve w' p = resolve w p.
Proof.
  intros Hcwd Hdirs. unfold resolve. rewrite Hcwd.
  destruct (String.eqb p ""); [reflexivity|]. now apply walk_same_dirs.
Qed.

Lemma mkdir_output_dir (w w1 : world) :
  mkdir_parents_exist_ok w "static/generated_qr" = (Ok (), w1) ->
  dirs w1
  = {[ (cwd w ++ ["static"; "generated_qr"])%list; (cwd w ++ ["static"])%list ]} ∪ dirs w
  /\ files w1 = files w /\ clock w1 = clock w /\ cwd w1 = cwd w.
Proof.
  unfold mkdir_parents_exist_ok.
  change (pure_path "static/generated_qr") with ("", ["static"; "generated_qr"]).
  cbn [mkdir_each String.eqb].
  destruct (is_file w _); [discriminate|].
  unfold is_file at 1. cbn [files].
  destruct (bool_decide _); [discriminate|].
  intros [= <-]. cbn [dirs files clock cwd]. rewrite <- app_assoc.
  split; [|repeat split]. apply (assoc_L (∪)).
Qed.

Lemma save_file_writes (w w2 : world) (p : string) (data : list N) :
  save_file w p data = (Ok (), w2) ->
  exists f,
    resolve w p = Some f /\ is_dir w f = false
    /\ dirs w2 = dirs w /\ files w2 = <[ f := data ]> (files w)
    /\ clock w2 = clock w /\ cwd w2 = cwd w.
Proof.
  unfold save_file.
  destruct (has_nul p); [discriminate|].
  destruct (resolve w p) as [f|]; [|discriminate].
  destruct (is_dir w f) eqn:Hdir; [discriminate|].
  intros [= <-]. exists f. repeat split. exact Hdir.
Qed.

Variable qr_make : string → result (list (list bool)).
Variable Image : Type.
Variable getrgb : string → result (Z * Z * Z).
Variable make_image : QRCode → module_drawer → color_mask → Image.
Variable image_width : Image → Z.
Variable draw : Image → list draw_cmd → Image.
Variable resize : Image → Z → result Image.
Variable expand : Image → Z → string → Image.
Variable image_open : list N → result Image.
Variable composite_logo : Image → Image → Z → pyval → pyval → string → result Image.
Variable _apply_frame : Image → string → option string → string → string → Image.
Variable png_encode : Image → list N.
Variable pdf_encode : list N → Z → list N.

(** C6, as the code has it: a render call that returns has made sure the
    directory static/generated_qr exists under the working directory and has
    written the PNG bytes it returns to the file the path it returns names:
    static/generated_qr joined with the file name the caller gave, or with
    qr_, the time and .png when the caller gave none, in which case the file
    lies in that directory.  Nothing else of the file system changed. *)
Theorem render_writes_its_png
    (w w' : world) (r : rendered) payload size fg bg logo_path module_style
    eye_style frame_text frame_color gradient logo_position filename frame_style
    logo_scale logo_bg_mode quiet_zone dpi :
  generate_qr_png qr_make Image getrgb make_image image_width draw resize expand
    image_open composite_logo _apply_frame png_encode pdf_encode
    w payload size fg bg logo_path module_style eye_style frame_text frame_color
    gradient logo_position filename frame_style logo_scale logo_bg_mode quiet_zone
    dpi = (Ok r, w') ->
  let output_dir := (cwd w ++ ["static"; "generated_qr"])%list in
  let timed := "qr_" +:+ fmt (clock w) +:+ ".png" in
  exists target,
    dirs w' = {[ output_dir; (cwd w ++ ["static"])%list ]} ∪ dirs w
    /\ files w' = <[ target := bytes r ]> (files w)
    /\ clock w' = clock w
    /\ cwd w' = cwd w
    /\ path r
       = path_join "static/generated_qr"
           (match filename with
            | Some f => if String.eqb f "" then timed else f
            | None => timed
            end)
    /\ resolve w' (path r) = Some target
    /\ (default "" filename = "" -> target = (output_dir ++ [timed])%list).
Proof.
  unfold generate_qr_png.
  match goal with |- context [match ?c with Ok _ => _ | Raise _ => _ end] =>
    destruct c as [[img frame_style']|] end; [|discriminate].
  destruct (mkdir_parents_exist_ok w _) as [[[]|] w1] eqn:Hmk; [|discriminate].
  apply mkdir_output_dir in Hmk. destruct Hmk as (Hd1 & Hf1 & Hc1 & Hw1).
  destruct (save_file w1 _ _) as [[[]|] w2] eqn:Hsave; [|discriminate].
  apply save_file_writes in Hsave.
  destruct Hsave as (target & Hres & _ & Hd2 & Hf2 & Hc2 & Hw2).
  intros [= Hr <-].
  assert (Hpath : path r = path_join "static/generated_qr"
            (match filename with
             | Some f => if String.eqb f "" then "qr_" +:+ fmt (clock w1) +:+ ".png" else f
             | None => "qr_" +:+ fmt (clock w1) +:+ ".png"
             end)
          /\ bytes r = png_encode img).
  { repeat match type of Hr with
           | context [mbind _ ?c] =>
               destruct c; cbn [mbind result_bind] in Hr; [|discriminate Hr]
           end.
    injection Hr as <-. split; reflexivity. }
  destruct Hpath as [Hpath Hbytes]. rewrite <- Hpath in Hres. rewrite Hc1 in Hpath.
  cbv zeta. exists target.
  rewrite Hd2, Hd1, Hf2, Hf1, Hc2, Hc1, Hw2, Hw1, Hbytes.
  split; [reflexivity|]. split; [reflexivity|]. split; [reflexivity|].
  split; [reflexivity|]. split; [exact Hpath|].
  split; [now rewrite (resolve_same_dirs w1 w2 (path r) Hw2 Hd2)|].
  intros Hname.
  assert (Hdefault : path r = "static/generated_qr/qr_" +:+ fmt (clock w) +:+ ".png").
  { rewrite Hpath. destruct filename as [f|]; [|apply default_path].
    change (f = "") in Hname. subst f. apply default_path. }
  rewrite Hdefault in Hres. unfold resolve in Hres.
  change (String.eqb _ "") with false in Hres.
  change (startswith_char "/" _) with false in Hres.
  cbv iota in Hres. rewrite default_name_split, Hw1 in Hres.
  apply walk_names in Hres; [rewrite Hres; now rewrite <- app_assoc|].
  repeat constructor; discriminate.
Qed.

(** A call that raises before the directory is made leaves the file system
    as it was: nothing is written for a payload that fits no matrix. *)
Lemma render_overflow_writes_nothing
    (w : world) payload size fg bg logo_path module_style eye_style frame_text
    frame_color gradient logo_position filename frame_style logo_scale logo_bg_mode
    dpi (e : exn) :
  qr_make payload = Raise e ->
  generate_qr_png qr_make Image getrgb make_image image_width draw resize expand
    image_open composite_logo _apply_frame png_encode pdf_encode
    w payload size fg bg logo_path module_style eye_style frame_text frame_color
    gradient logo_position filename frame_style logo_scale logo_bg_mode (VInt 4)
    dpi = (Raise e, w).
Proof.
  intros Hmake. unfold generate_qr_png, _build_qr.
  cbn [py_or truthy Z.eqb negb int mbind result_bind]. rewrite Hmake.
  reflexivity.
Qed.

End render_effects.

Section render_effects_checked.
Import qr_generator.

Lemma demo_render_returns : raises (demo.render demo.empty_world).1 = false.
Proof. reflexivity. Qed.

(** C6 as stated fails: in an application directory with nothing in it, a
    render call returns and leaves two directories and one file behind. *)
Lemma render_leaves_a_file_counterexample :
  raises (demo.render demo.empty_world).1 = false
  /\ dirs (demo.render demo.empty_world).2
     = {[ ["srv"; "app"; "static"; "generated_qr"]; ["srv"; "app"; "static"] ]}
       ∪ dirs demo.empty_world
  /\ files (demo.render demo.empty_world).2
     = {[ ["srv"; "app"; "static"; "generated_qr"; "qr_1700000000.png"]
          := [137; 80; 78; 71; 616]%N ]}.
Proof. repeat split; reflexivity. Qed.

(** A file name with dots in it: the path the call returns is the joined
    one, the file is where the operating system finds that path. *)
Example render_with_dots_in_the_name :
  (path <$> (demo.render_as "../escape.png" demo.empty_world).1
   = Ok "static/generated_qr/../escape.png"
   /\ files (demo.render_as "../escape.png" demo.empty_world).2
      = {[ ["srv"; "app"; "static"; "escape.png"] := [137; 80; 78; 71; 616]%N ]})
  /\ (path <$> (demo.render_as "./x.png" demo.empty_world).1
      = Ok "static/generated_qr/x.png"
      /\ files (demo.render_as "./x.png" demo.empty_world).2
         = {[ ["srv"; "app"; "static"; "generated_qr"; "x.png"]
              := [137; 80; 78; 71; 616]%N ]}).
Proof. repeat split; reflexivity. Qed.

Lemma render_writes_its_png_witness :
  exists r w',
    demo.render demo.empty_world = (Ok r, w')
    /\ path r = "static/generated_qr/qr_1700000000.png"
    /\ files w'
       = <[ ["srv"; "app"; "static"; "generated_qr"; "qr_1700000000.png"] := bytes r ]>
           (files demo.empty_world).
Proof.
  pose proof demo_render_returns as Hret.
  destruct (demo.render demo.empty_world) as [[r|e] w'] eqn:Hrun; [|discriminate Hret].
  exists r, w'. split; [reflexivity|].
  unfold demo.render in Hrun.
  pose proof (render_writes_its_png _ _ _ _ _ _ _ _ _ _ _ _ _ _ _ _ _ _ _ _ _ _ _ _ _
                _ _ _ _ _ _ _ _ Hrun) as (target & _ & Hfiles & _ & _ & Hpath & _ & Hname).
  split; [exact Hpath|].
  rewrite Hfiles, (Hname eq_refl). reflexivity.
Defined.

End render_effects_checked.

(** ** Trimming and lower-casing *)
Section text_facts.

Lemma lstrip_with_head (p : ascii -> bool) (s : string) (c : ascii) (r : string) :
  lstrip_with p s = String c r -> p c = false.
Proof.
  induction s as [|a s IH]; cbn; [discriminate|].
  destruct (p a) eqn:Ha; [exact IH|].
  intros [= <- _]. exact Ha.
Qed.

Lemma lstrip_with_fixed (p : ascii -> bool) (c : ascii) (r : string) :
  p c = false -> lstrip_with p (String c r) = String c r.
Proof. intros H. cbn. now rewrite H. Qed.

(** Trimming on the right keeps a first character that is not trimmed. *)
Lemma rstrip_with_head (p : ascii -> bool) (c : ascii) (r : string) :
  p c = false -> exists r', rstrip_with p (String c r) = String c r'.
Proof.
  intros H. cbn. destruct (rstrip_with p r); [rewrite H|]; eexists; reflexivity.
Qed.

Lemma rstrip_with_cons (p : ascii -> bool) (a : ascii) (r : string) :
  rstrip_with p (String a r)
  = match rstrip_with p r with
    | EmptyString => if p a then EmptyString else String a EmptyString
    | r' => String a r'
    end.
Proof. reflexivity. Qed.

Lemma rstrip_with_idem (p : ascii -> bool) (s : string) :
  rstrip_with p (rstrip_with p s) = rstrip_with p s.
Proof.
  induction s as [|a s IH]; [reflexivity|].
  rewrite rstrip_with_cons. destruct (rstrip_with p s) as [|b t] eqn:E.
  - destruct (p a) eqn:Ha; [reflexivity|]. cbn. now rewrite Ha.
  - now rewrite rstrip_with_cons, IH.
Qed.

(** What is left after trimming on the right does not end in a trimmed
    character. *)
Lemma rstrip_with_last (p : ascii -> bool) (s t : string) (c : ascii) :
  rstrip_with p s = t +:+ String c EmptyString -> p c = false.
Proof.
  revert t. induction s as [|a s IH]; intros t; cbn.
  - destruct t; discriminate.
  - destruct (rstrip_with p s) as [|b r] eqn:E.
    + destruct (p a) eqn:Ha; [destruct t; discriminate|].
      destruct t as [|x t]; cbn.
      * intros [= <-]. exact Ha.
      * destruct t; discriminate.
    + destruct t as [|x t]; cbn.
      * discriminate.
      * intros [= _ Hr]. exact (IH t Hr).
Qed.

Lemma strip_idem (s : string) : strip (strip s) = strip s.
Proof.
  unfold strip.
  destruct (lstrip_with isspace s) as [|c r] eqn:E; [reflexivity|].
  pose proof (lstrip_with_head _ _ _ _ E) as Hc.
  destruct (rstrip_with_head isspace c r Hc) as [r' Hr].
  rewrite Hr, (lstrip_with_fixed _ _ _ Hc), <- Hr.
  apply rstrip_with_idem.
Qed.

Lemma lower_char_idem (c : ascii) : lower_char (lower_char c) = lower_char c.
Proof. destruct c as [[] [] [] [] [] [] [] []]; reflexivity. Qed.

Lemma isspace_lower_char (c : ascii) : isspace (lower_char c) = isspace c.
Proof. destruct c as [[] [] [] [] [] [] [] []]; reflexivity. Qed.

Lemma lower_idem (s : string) : lower (lower s) = lower s.
Proof.
  induction s as [|c s IH]; [reflexivity|]. cbn. now rewrite lower_char_idem, IH.
Qed.

Lemma lstrip_lower (s : string) :
  lstrip_with isspace (lower s) = lower (lstrip_with isspace s).
Proof.
  induction s as [|c s IH]; [reflexivity|].
  cbn. rewrite isspace_lower_char. destruct (isspace c); [exact IH|reflexivity].
Qed.

Lemma rstrip_lower (s : string) :
  rstrip_with isspace (lower s) = lower (rstrip_with isspace s).
Proof.
  induction s as [|c s IH]; [reflexivity|].
  cbn. rewrite IH, isspace_lower_char.
  destruct (rstrip_with isspace s); cbn; [destruct (isspace c)|]; reflexivity.
Qed.

Lemma strip_lower (s : string) : strip (lower s) = lower (strip s).
Proof. unfold strip. now rewrite lstrip_lower, rstrip_lower. Qed.

(** Trimmed and lower-cased once is trimmed and lower-cased. *)
Lemma lower_strip_idem (s : string) :
  lower (strip (lower (strip s))) = lower (strip s).
Proof. now rewrite strip_lower, strip_idem, lower_idem. Qed.

Lemma eqb_empty_false (s : string) : s <> "" -> String.eqb s "" = false.
Proof. intros H. now apply String.eqb_neq. Qed.

End text_facts.

(** ** The base URL and the links *)
Section base_url.
Import app_url.

Lemma rstrip_char_no_slash (s t : string) : rstrip_char "/" s <> t +:+ "/".
Proof.
  intros H. apply rstrip_with_last in H. discriminate H.
Qed.

(** X1: the base URL the application settles on is never empty and never
    ends in a slash, whatever the request and the environment are; so the
    link [build_dynamic_url] makes has one slash before [d]. *)
Theorem base_url_has_no_trailing_slash
    (environ : gmap string string) (request : option string) (env_var : string) :
  resolve_app_base_url environ request env_var <> ""
  /\ forall t, resolve_app_base_url environ request env_var <> t +:+ "/".
Proof.
  unfold resolve_app_base_url.
  set (request_base := match request with
                       | Some base_url => rstrip_char "/" base_url
                       | None => ""
                       end).
  assert (Hreq : forall t, request_base <> t +:+ "/").
  { intros t. subst request_base. destruct request as [b|].
    - apply rstrip_char_no_slash.
    - destruct t; discriminate. }
  destruct (String.eqb_spec request_base "") as [E|Hne]; cbn [negb andb].
  - destruct (String.eqb_spec (rstrip_char "/" (strip (getenv environ env_var))) "")
      as [_|Hne]; cbn [negb].
    + split; [discriminate|]. intros t.
      change "http://127.0.0.1:8000" with (rstrip_char "/" "http://127.0.0.1:8000").
      apply rstrip_char_no_slash.
    + split; [exact Hne|]. intros t. apply rstrip_char_no_slash.
  - destruct (_ || _).
    + split; [exact Hne|exact Hreq].
    + destruct (String.eqb_spec (rstrip_char "/" (strip (getenv environ env_var))) "")
        as [_|Hne']; cbn [negb].
      * split; [exact Hne|exact Hreq].
      * split; [exact Hne'|]. intros t. apply rstrip_char_no_slash.
Qed.

(** X2: for a request with a host, and a value of APP_DOMAIN with no blanks
    around it, the link of [routes/qr/dynamic_url.py] and the link the other
    routes build for themselves are the same. *)
Theorem dynamic_links_agree
    (environ : gmap string string) (base_url slug : string) :
  rstrip_char "/" base_url <> "" ->
  strip (getenv environ "APP_DOMAIN") = getenv environ "APP_DOMAIN" ->
  build_dynamic_url environ base_url slug = _build_dynamic_url environ base_url slug.
Proof.
  intros Hbase Henv.
  unfold build_dynamic_url, _build_dynamic_url, resolve_app_base_url.
  rewrite Henv, (eqb_empty_false _ Hbase). cbn [negb andb].
  rewrite (orb_comm (contains "localhost" _)).
  destruct (_ || _); [reflexivity|].
  destruct (negb _); reflexivity.
Qed.

(** Blanks around the value of APP_DOMAIN: one link drops them, the other
    keeps them. *)
Example dynamic_links_differ :
  let environ : gmap string string := {[ "APP_DOMAIN" := " https://qr.example.com " ]} in
  build_dynamic_url environ "http://10.0.0.5:8000/" "abc" = "https://qr.example.com/d/abc"
  /\ _build_dynamic_url environ "http://10.0.0.5:8000/" "abc"
     = " https://qr.example.com /d/abc".
Proof. split; reflexivity. Qed.

Lemma dynamic_links_agree_witness :
  let environ : gmap string string := {[ "APP_DOMAIN" := "https://qr.example.com/" ]} in
  build_dynamic_url environ "http://10.0.0.5:8000/" "abc"
  = _build_dynamic_url environ "http://10.0.0.5:8000/" "abc"
  /\ build_dynamic_url environ "http://10.0.0.5:8000/" "abc"
     = "https://qr.example.com/d/abc".
Proof.
  split; [|reflexivity].
  apply dynamic_links_agree; [discriminate|reflexivity].
Defined.

End base_url.

(** ** Colours the renderer lets through *)
Section normalized_colours.
Import qr_generator render_view.

Lemma hex_shaped_not_empty (s : string) : hex_shaped s = true -> String.eqb s "" = false.
Proof. destruct s; [discriminate|reflexivity]. Qed.

(** X3: what [_normalize_hex] returns is a hash sign and three or six more
    characters as soon as the fallback is, and normalising it once more
    changes nothing when the fallback has no blanks around it. *)
Theorem normalize_hex_shape_idempotent (value : pyval) (fallback : string) :
  (hex_shaped fallback = true -> hex_shaped (_normalize_hex value fallback) = true)
  /\ (strip fallback = fallback ->
      _normalize_hex (VStr (_normalize_hex value fallback)) fallback
      = _normalize_hex value fallback).
Proof.
  unfold _normalize_hex.
  set (raw := strip (str (py_or value (VStr "")))).
  fold (hex_shaped raw).
  assert (Hraw : strip raw = raw) by apply strip_idem.
  split.
  - intros Hfb. destruct (hex_shaped raw) eqn:E; assumption.
  - intros Hfb. destruct (hex_shaped raw) eqn:E.
    + unfold py_or, truthy. rewrite (hex_shaped_not_empty _ E). cbn [negb str].
      rewrite Hraw. fold (hex_shaped raw). now rewrite E.
    + unfold py_or, truthy.
      destruct (String.eqb_spec fallback "") as [->|_]; [reflexivity|].
      cbn [negb str]. rewrite Hfb. now destruct (_ && _).
Qed.

Lemma normalize_hex_shape_idempotent_witness :
  hex_shaped (_normalize_hex (VStr "  #abc ") DEFAULT_FG) = true
  /\ _normalize_hex (VStr (_normalize_hex (VStr "0D2A78") DEFAULT_FG)) DEFAULT_FG
     = _normalize_hex (VStr "0D2A78") DEFAULT_FG.
Proof.
  split.
  - apply (proj1 (normalize_hex_shape_idempotent (VStr "  #abc ") DEFAULT_FG)).
    reflexivity.
  - apply (proj2 (normalize_hex_shape_idempotent (VStr "0D2A78") DEFAULT_FG)).
    reflexivity.
Defined.

End normalized_colours.

(** ** Upper case and blanks in the form fields *)
Section form_fields.
Import qr_design.
Variable QR_THEMES : gmap string (gmap string pyval).
Variable get_qr_style : string → gmap string pyval.

Lemma named_style_lower_strip (s : string) :
  named_style (VStr (lower (strip s))) = named_style (VStr s).
Proof.
  unfold named_style, py_or, truthy.
  destruct (String.eqb_spec s "") as [->|Hs]; [reflexivity|].
  cbn [negb str].
  destruct (String.eqb_spec (lower (strip s)) "") as [E|HA]; cbn [negb str].
  - reflexivity.
  - now rewrite lower_strip_idem, (eqb_empty_false _ HA).
Qed.

(** A field with a default: the normalised text either is the normalised
    default, or is what the field normalises to. *)
Lemma named_lower_strip (s missing : string) :
  named (VStr (lower (strip s))) missing
  = if String.eqb (lower (strip s)) "" then lower (strip missing)
    else named (VStr s) missing.
Proof.
  unfold named, py_or, truthy.
  destruct (String.eqb_spec (lower (strip s)) "") as [E|HA]; cbn [negb str].
  - reflexivity.
  - rewrite lower_strip_idem.
    destruct (String.eqb_spec s "") as [->|_]; [now contradiction HA|reflexivity].
Qed.

Lemma named_empty (s missing : string) :
  s <> "" -> lower (strip s) = "" -> named (VStr s) missing = "".
Proof.
  intros Hs E. unfold named, py_or, truthy.
  now rewrite (eqb_empty_false _ Hs).
Qed.

Lemma output_key_lower_strip (s : string) :
  output_key (VStr (lower (strip s))) = output_key (VStr s).
Proof.
  unfold output_key. rewrite named_lower_strip.
  destruct (String.eqb_spec (lower (strip s)) "") as [E|_]; [|reflexivity].
  destruct (String.eqb_spec s "") as [->|Hs]; [reflexivity|].
  now rewrite (named_empty s "web" Hs E).
Qed.

Lemma export_lower_strip (s : string) :
  (if in_set (named (VStr (lower (strip s))) "png") {[ "png"; "svg"; "pdf"; "zip" ]}
   then named (VStr (lower (strip s))) "png" else "png")
  = (if in_set (named (VStr s) "png") {[ "png"; "svg"; "pdf"; "zip" ]}
     then named (VStr s) "png" else "png").
Proof.
  rewrite named_lower_strip.
  destruct (String.eqb_spec (lower (strip s)) "") as [E|_]; [|reflexivity].
  destruct (String.eqb_spec s "") as [->|Hs]; [reflexivity|].
  now rewrite (named_empty s "png" Hs E).
Qed.

Lemma safe_mode_on_lower_strip (s : string) :
  safe_mode_on (VStr (lower (strip s))) = safe_mode_on (VStr s).
Proof. unfold safe_mode_on. cbn [str]. now rewrite lower_strip_idem. Qed.

(** X4: the style, the output preset, the export format and the safe-mode
    flag are read without regard to case and to blanks around them: the call
    answers the same when each is given trimmed and in lower case. *)
Theorem form_fields_ignore_case_and_blanks
    (style output_preset export_format safe_mode : string)
    (fg_color bg_color module_style eye_style qr_size frame_style logo_scale
     logo_bg_mode : pyval) :
  resolve_design QR_THEMES get_qr_style (VStr style) fg_color bg_color module_style
    eye_style qr_size (VStr output_preset) (VStr export_format) frame_style
    logo_scale logo_bg_mode (VStr safe_mode)
  = resolve_design QR_THEMES get_qr_style (VStr (lower (strip style))) fg_color
      bg_color module_style eye_style qr_size (VStr (lower (strip output_preset)))
      (VStr (lower (strip export_format))) frame_style logo_scale logo_bg_mode
      (VStr (lower (strip safe_mode))).
Proof.
  rewrite !resolve_design_unfold. cbv zeta.
  unfold style_key. rewrite named_style_lower_strip, output_key_lower_strip.
  unfold assemble. cbv zeta.
  now rewrite export_lower_strip, safe_mode_on_lower_strip.
Qed.

End form_fields.

Section form_fields_checked.
Import qr_design.

(** The frame style is read the same way, with one exception: blanks alone
    give the empty frame style, not the default. *)
Example blank_frame_style :
  frame_style
  <$> resolve_design demo.QR_THEMES demo.get_qr_style
        (VStr " Classic ") VNone VNone VNone VNone VNone (VStr "PRINT ") VNone
        (VStr "  ") VNone VNone VNone
  = Ok "".
Proof. rewrite resolve_design_unfold. reflexivity. Qed.

End form_fields_checked.

(** ** Colours as numbers *)
Section colour_ranges.
Import qr_design.

Lemma every_ascii_listed (c : ascii) : In c (map ascii_of_nat (seq 0 256)).
Proof.
  rewrite <- (ascii_nat_embedding c). apply in_map, in_seq.
  pose proof (nat_ascii_bounded c). lia.
Qed.

(** Every text of two characters, read in base 16. *)
Lemma hex_pairs_checked :
  forallb (fun a =>
    forallb (fun b =>
      match parse_int 16 (String a (String b EmptyString)) with
      | Some z => (-15 <=? z) && (z <=? 255)
      | None => true
      end) (map ascii_of_nat (seq 0 256))) (map ascii_of_nat (seq 0 256))
  = true.
Proof. vm_compute. reflexivity. Qed.

Lemma hex_pair_range (a b : ascii) (z : Z) :
  parse_int 16 (String a (String b EmptyString)) = Some z -> -15 <= z <= 255.
Proof.
  intros H. pose proof hex_pairs_checked as Hall.
  rewrite forallb_forall in Hall. specialize (Hall a (every_ascii_listed a)).
  rewrite forallb_forall in Hall. specialize (Hall b (every_ascii_listed b)).
  rewrite H in Hall. lia.
Qed.

(** The three channels of a colour text: a pair of hex digits is at most
    255, and a pair made of a minus sign and a digit is at least -15. *)
Lemma hex_to_rgb_range (value : pyval) :
  (-15 <= (_hex_to_rgb value).1.1 <= 255)
  /\ (-15 <= (_hex_to_rgb value).1.2 <= 255)
  /\ (-15 <= (_hex_to_rgb value).2 <= 255).
Proof.
  unfold _hex_to_rgb.
  set (raw0 := lstrip_char "#" (strip (str (py_or value (VStr ""))))).
  set (raw := if len raw0 =? 3 then double_chars raw0 else raw0).
  destruct (Z.eqb_spec (len raw) 6) as [Hlen|_]; cbn [negb]; [|cbn; lia].
  unfold len in Hlen.
  destruct raw as [|a [|b [|c [|d [|e [|f [|g r]]]]]]]; cbn [String.length] in Hlen;
    try lia.
  change (slice 0 2 _) with (String a (String b EmptyString)).
  change (slice 2 4 _) with (String c (String d EmptyString)).
  change (slice 4 6 _) with (String e (String f EmptyString)).
  destruct (parse_int 16 (String a _)) as [x|] eqn:Ex; [|cbn; lia].
  destruct (parse_int 16 (String c _)) as [y|] eqn:Ey; [|cbn; lia].
  destruct (parse_int 16 (String e _)) as [z|] eqn:Ez; [|cbn; lia].
  cbn [fst snd].
  pose proof (hex_pair_range _ _ _ Ex). pose proof (hex_pair_range _ _ _ Ey).
  pose proof (hex_pair_range _ _ _ Ez). lia.
Qed.

Local Open Scope R_scope.

Lemma comp_lower (v : Z) : (-15 <= v)%Z -> -0.005 <= comp v.
Proof.
  intros Hv. unfold comp. apply IZR_le in Hv.
  destruct (Rle_dec _ _).
  - lra.
  - pose proof (Rpower_pos ((IZR v / 255 + 0.055) / 1.055) 2.4). lra.
Qed.

Lemma luminance_lower (rgb : Z * Z * Z) :
  (-15 <= rgb.1.1)%Z -> (-15 <= rgb.1.2)%Z -> (-15 <= rgb.2)%Z ->
  -0.005 <= _relative_luminance rgb.
Proof.
  destruct rgb as [[r g] b]. cbn [fst snd]. intros Hr Hg Hb.
  unfold _relative_luminance.
  pose proof (comp_lower r Hr). pose proof (comp_lower g Hg).
  pose proof (comp_lower b Hb). lra.
Qed.

Lemma luminance_of_text_lower (value : pyval) :
  -0.005 <= _relative_luminance (_hex_to_rgb value).
Proof.
  pose proof (hex_to_rgb_range value) as (Hr & Hg & Hb).
  apply luminance_lower; lia.
Qed.

Lemma contrast_with_itself (c : pyval) : _contrast_ratio c c = 1.
Proof.
  unfold _contrast_ratio. pose proof (luminance_of_text_lower c) as Hc.
  rewrite Rmax_left, Rmin_left by lra. apply Rinv_r. lra.
Qed.

(** X5: the contrast ratio of two colour texts, whatever they are, is at
    least 1, is 1 for a colour against itself, and does not depend on which
    of the two is the foreground. *)
Theorem contrast_ratio_at_least_one (fg bg : pyval) :
  _contrast_ratio fg bg >= 1
  /\ _contrast_ratio fg bg = _contrast_ratio bg fg
  /\ _contrast_ratio fg fg = 1.
Proof.
  unfold _contrast_ratio.
  pose proof (luminance_of_text_lower fg) as Hf.
  pose proof (luminance_of_text_lower bg) as Hb.
  set (l1 := _relative_luminance (_hex_to_rgb fg)) in *.
  set (l2 := _relative_luminance (_hex_to_rgb bg)) in *.
  split; [|split].
  - assert (Hmin : -0.005 <= Rmin l1 l2) by (apply Rmin_glb; assumption).
    pose proof (Rle_trans _ _ _ (Rmin_l l1 l2) (Rmax_l l1 l2)) as Hle.
    assert (Hinv : 0 < / (Rmin l1 l2 + 0.05)) by (apply Rinv_0_lt_compat; lra).
    assert (Hone : (Rmin l1 l2 + 0.05) * / (Rmin l1 l2 + 0.05) = 1)
      by (apply Rinv_r; lra).
    unfold Rdiv. nra.
  - now rewrite (Rmax_comm l1 l2), (Rmin_comm l1 l2).
  - fold (_contrast_ratio fg fg). apply contrast_with_itself.
Qed.

End colour_ranges.

(** ** The size of the code *)
Section sizes.
Import qr_design.

(** X6: a size that is missing, zero, empty or no number is replaced by the
    size of the output preset -- 600 when the preset is unknown -- and a
    whole number within 200..2000 is kept as it is. *)
Theorem normalize_size_fallback_and_identity (raw_size output_preset : pyval) :
  let fallback :=
    preset_size
      (default {| preset_size := 600; preset_dpi := 144; preset_quiet_zone := 4 |}
         (PRESET_EXPORT_CONFIG !! named output_preset "")) in
  (truthy raw_size = false \/ raises (int raw_size) = true ->
   _normalize_size raw_size output_preset = Ok fallback
   /\ fallback ∈ [600; 1200; 900; 1800])
  /\ (forall z, raw_size = VInt z -> 200 <= z <= 2000 ->
      _normalize_size raw_size output_preset = Ok z).
Proof.
  intros fallback.
  assert (Hfb : fallback ∈ [600; 1200; 900; 1800]).
  { subst fallback.
    destruct (PRESET_EXPORT_CONFIG !! named output_preset "") as [preset|] eqn:E.
    - destruct (preset_lookup_cases _ _ E) as [[_ ->]|[[_ ->]|[[_ ->]|[_ ->]]]];
        cbn; rewrite !elem_of_cons; tauto.
    - cbn. rewrite !elem_of_cons; tauto. }
  assert (Hclamp : Z.max 200 (Z.min fallback 2000) = fallback).
  { rewrite !elem_of_cons, elem_of_nil in Hfb. lia. }
  unfold _normalize_size.
  change (subscript PRESET_EXPORT_CONFIG "web")
    with (Ok {| preset_size := 600; preset_dpi := 144; preset_quiet_zone := 4 |}).
  cbn [mbind result_bind].
  change (lower (strip (str (py_or output_preset (VStr "")))))
    with (named output_preset "").
  fold fallback.
  split.
  - intros H. split; [|exact Hfb].
    unfold py_or. destruct (truthy raw_size) eqn:Htruthy.
    + destruct H as [H|H]; [discriminate|].
      destruct (int raw_size) as [z|e] eqn:E; [discriminate|].
      destruct (int_raises _ _ E) as [-> | ->]; cbn; now rewrite Hclamp.
    + cbn. now rewrite Hclamp.
  - intros z -> Hz. unfold py_or, truthy.
    destruct (Z.eqb_spec z 0) as [->|_]; [lia|].
    cbn. f_equal. lia.
Qed.

Lemma normalize_size_fallback_and_identity_witness :
  _normalize_size (VStr "large") (VStr " Poster") = Ok 1800
  /\ _normalize_size (VInt 640) (VStr "print") = Ok 640.
Proof.
  split.
  - apply (proj1 (normalize_size_fallback_and_identity (VStr "large") (VStr " Poster"))).
    right. reflexivity.
  - apply (proj2 (normalize_size_fallback_and_identity (VInt 640) (VStr "print")) 640);
      [reflexivity|lia].
Defined.

End sizes.

(** ** What a resolved design says about itself *)
Section design_invariants.
Import qr_design.
Variable QR_THEMES : gmap string (gmap string pyval).
Variable get_qr_style : string → gmap string pyval.

Ltac styling_fields :=
  cbn [fst snd st_fg st_bg st_module st_quiet_zone st_contrast st_applied].

(** The styling is taken apart test by test, first correction first. *)
Ltac policy_tests s :=
  unfold safe_mode_policy, flip_foreground;
  destruct (Rlt_dec (st_contrast s) 4.5);
  unfold force_safe_pair; styling_fields;
  destruct (Rlt_dec _ 4.5);
  unfold square_thin_lines; styling_fields;
  destruct (_ && _);
  unfold raise_quiet_zone; styling_fields;
  destruct (_ <? 4)%Z; styling_fields.

(** A pass keeps the recorded contrast in step with the two colours. *)
Lemma policy_contrast_in_step (size_px : Z) (s : styling) :
  st_contrast s = _contrast_ratio (VStr (st_fg s)) (VStr (st_bg s)) ->
  st_contrast (safe_mode_policy size_px s)
  = _contrast_ratio (VStr (st_fg (safe_mode_policy size_px s)))
      (VStr (st_bg (safe_mode_policy size_px s))).
Proof. intros H. policy_tests s; first [exact H | reflexivity]. Qed.

(** Nothing is marked as corrected when safe mode is off. *)
Lemma applied_needs_safe_mode key output preset base qr_px logo
    export_format frame_style logo_bg_mode safe_mode :
  safe_mode_applied
    (assemble key output preset base qr_px logo export_format frame_style
       logo_bg_mode safe_mode) = true ->
  safe_mode_on safe_mode = true.
Proof.
  unfold assemble. cbn [safe_mode_applied]. cbv zeta.
  destruct (safe_mode_on safe_mode); [reflexivity|]. cbn. discriminate.
Qed.

Lemma preset_quiet_zone_range (output : string) (preset : export_preset) :
  PRESET_EXPORT_CONFIG !! output = Some preset ->
  4 <= preset_quiet_zone preset <= 12.
Proof.
  intros H.
  destruct (preset_lookup_cases _ _ H) as [[_ ->]|[[_ ->]|[[_ ->]|[_ ->]]]];
    cbn; lia.
Qed.

(** The list of warnings, from the fields of the design that carries it. *)
Lemma design_warnings
    style fg_color bg_color module_style eye_style qr_size output_preset
    export_format frame_style logo_scale logo_bg_mode safe_mode d :
  resolve_design QR_THEMES get_qr_style style fg_color bg_color module_style eye_style
    qr_size output_preset export_format frame_style logo_scale logo_bg_mode safe_mode
  = Ok d ->
  warnings d
  = ((if Rlt_dec (contrast_ratio d) 4.5 then [LowContrast (contrast_ratio d)] else [])
     ++ (if String.eqb (qr_design.module_style d) "thin-line" && (qr_design.qr_size d <? 700)
         then [ThinLineSmall] else [])
     ++ (if String.eqb (qr_design.frame_style d) "floating" then [FloatingFrame] else [])
     ++ (if safe_mode_applied d then [SafeModeCorrected] else []))%list.
Proof.
  intros H. apply resolve_design_inv in H.
  destruct H as (preset & base & qr_px & logo & Hpre & _ & _ & _ & ->).
  pose proof (preset_quiet_zone_range _ _ Hpre) as Hq.
  pose proof (quiet_zone_assemble (style_key QR_THEMES style) (output_key output_preset)
                preset base qr_px logo export_format frame_style logo_bg_mode
                safe_mode) as Hzone.
  pose proof (applied_needs_safe_mode (style_key QR_THEMES style)
                (output_key output_preset) preset base qr_px logo export_format
                frame_style logo_bg_mode safe_mode) as Happlied.
  revert Hzone Happlied. unfold assemble.
  cbn [warnings contrast_ratio qr_design.module_style qr_design.qr_size
       qr_design.frame_style safe_mode_applied quiet_zone].
  cbv zeta. intros Hzone Happlied. unfold warnings_of.
  match goal with
  | |- context [if ?z <? 4 then [QuietZoneSmall] else []] =>
      replace (z <? 4) with false
        by (symmetry; apply Z.ltb_ge; rewrite Hzone;
            destruct (safe_mode_on safe_mode); lia)
  end.
  cbn [app].
  match goal with
  | |- context [if safe_mode_on safe_mode && ?a then _ else _] =>
      destruct a eqn:Ea; [rewrite (Happlied eq_refl)|rewrite andb_false_r]; reflexivity
  end.
Qed.

Lemma assemble_contrast key output preset base qr_px logo
    export_format frame_style logo_bg_mode safe_mode :
  let d := assemble key output preset base qr_px logo export_format frame_style
             logo_bg_mode safe_mode in
  contrast_ratio d = _contrast_ratio (VStr (fg d)) (VStr (bg d)).
Proof.
  unfold assemble. cbn [contrast_ratio fg bg]. cbv zeta.
  destruct (safe_mode_on safe_mode); [|reflexivity].
  now apply policy_contrast_in_step.
Qed.

(** X7: the contrast ratio a design carries is the contrast of the two
    colours it carries, also after safe mode replaced one of them. *)
Theorem contrast_ratio_is_of_returned_colours
    style fg_color bg_color module_style eye_style qr_size output_preset
    export_format frame_style logo_scale logo_bg_mode safe_mode d :
  resolve_design QR_THEMES get_qr_style style fg_color bg_color module_style eye_style
    qr_size output_preset export_format frame_style logo_scale logo_bg_mode safe_mode
  = Ok d ->
  contrast_ratio d = _contrast_ratio (VStr (fg d)) (VStr (bg d)).
Proof.
  intros H. apply resolve_design_inv in H.
  destruct H as (preset & base & qr_px & logo & _ & _ & _ & _ & ->).
  apply assemble_contrast.
Qed.

(** X8: each warning of a design can be read off the design itself: low
    contrast from its ratio, thin lines from its module style and size, the
    floating frame from its frame style, the correction note from its
    safe-mode mark; the warning about a small quiet zone is never given. *)
Theorem warnings_reflect_design
    style fg_color bg_color module_style eye_style qr_size output_preset
    export_format frame_style logo_scale logo_bg_mode safe_mode d :
  resolve_design QR_THEMES get_qr_style style fg_color bg_color module_style eye_style
    qr_size output_preset export_format frame_style logo_scale logo_bg_mode safe_mode
  = Ok d ->
  forall w,
    w ∈ warnings d
    <-> (w = LowContrast (contrast_ratio d) /\ (contrast_ratio d < 4.5)%R)
        \/ (w = ThinLineSmall /\ qr_design.module_style d = "thin-line"
            /\ qr_design.qr_size d < 700)
        \/ (w = FloatingFrame /\ qr_design.frame_style d = "floating")
        \/ (w = SafeModeCorrected /\ safe_mode_applied d = true).
Proof.
  intros H w. rewrite (design_warnings _ _ _ _ _ _ _ _ _ _ _ _ _ H).
  rewrite !elem_of_app.
  destruct (Rlt_dec (contrast_ratio d) 4.5) as [Hlow|Hhigh];
    destruct (String.eqb_spec (qr_design.module_style d) "thin-line") as [Hm|Hm];
    destruct (Z.ltb_spec (qr_design.qr_size d) 700) as [Hs|Hs];
    destruct (String.eqb_spec (qr_design.frame_style d) "floating") as [Hf|Hf];
    destruct (safe_mode_applied d); cbn [andb];
    rewrite ?elem_of_cons, ?elem_of_nil;
    (split; [intros [?|[?|[?|?]]]|intros [[? ?]|[[? [? ?]]|[[? ?]|[? ?]]]]]);
    first [tauto | lia | discriminate | contradiction].
Qed.

(** X9: with safe mode on, a design warns of nothing but a floating frame
    and the corrections made; and a design marked as corrected has safe mode
    on and says so in its warnings. *)
Theorem safe_mode_leaves_no_scan_warning
    style fg_color bg_color module_style eye_style qr_size output_preset
    export_format frame_style logo_scale logo_bg_mode safe_mode d :
  resolve_design QR_THEMES get_qr_style style fg_color bg_color module_style eye_style
    qr_size output_preset export_format frame_style logo_scale logo_bg_mode safe_mode
  = Ok d ->
  (qr_design.safe_mode d = true ->
   forall w, w ∈ warnings d -> w = FloatingFrame \/ w = SafeModeCorrected)
  /\ (safe_mode_applied d = true ->
      qr_design.safe_mode d = true /\ SafeModeCorrected ∈ warnings d).
Proof.
  intros H. rewrite (design_warnings _ _ _ _ _ _ _ _ _ _ _ _ _ H).
  apply resolve_design_inv in H.
  destruct H as (preset & base & qr_px & logo & _ & _ & _ & _ & ->).
  split.
  - change (qr_design.safe_mode (assemble _ _ _ _ _ _ _ _ _ safe_mode))
      with (safe_mode_on safe_mode).
    intros Hon w.
    pose proof (module_style_assemble (style_key QR_THEMES style)
                  (output_key output_preset) preset base qr_px logo export_format
                  frame_style logo_bg_mode safe_mode) as Hmod.
    rewrite Hon in Hmod. cbn [andb] in Hmod. rewrite Hmod.
    change (qr_design.qr_size (assemble _ _ _ _ qr_px _ _ _ _ _)) with qr_px.
    assert (Hc : (contrast_ratio
                    (assemble (style_key QR_THEMES style) (output_key output_preset)
                       preset base qr_px logo export_format frame_style logo_bg_mode
                       safe_mode) >= 4.5)%R).
    { unfold assemble. cbn [contrast_ratio]. cbv zeta. rewrite Hon.
      apply policy_contrast. }
    destruct (Rlt_dec _ 4.5) as [Hlow|_]; [lra|].
    assert (Hthin :
              String.eqb (if String.eqb base.1.2 "thin-line" && (qr_px <? 700)
                          then "square" else base.1.2) "thin-line"
              && (qr_px <? 700) = false).
    { destruct (String.eqb base.1.2 "thin-line") eqn:E1, (qr_px <? 700) eqn:E2;
        cbn [andb]; rewrite ?E1; reflexivity. }
    rewrite Hthin, !elem_of_app.
    destruct (_ =? "floating")%string; destruct (safe_mode_applied _);
      rewrite ?elem_of_cons, ?elem_of_nil; tauto.
  - intros Happlied. rewrite Happlied. split.
    + exact (applied_needs_safe_mode _ _ _ _ _ _ _ _ _ _ Happlied).
    + rewrite !elem_of_app, elem_of_cons. auto.
Qed.





End design_invariants.

Section design_invariants_checked.
Import qr_design.



(** White on near-white without safe mode, and thin lines at 500 pixels in a
    floating frame with it. *)
Lemma run_thin_floating_safe :
  resolve_design demo.QR_THEMES demo.get_qr_style
    (VStr "custom") VNone VNone (VStr "thin-line") VNone (VInt 500) VNone VNone
    (VStr "Floating") VNone VNone (VStr "yes")
  = Ok (assemble "custom" "web" demo.web_preset
          ("#000000", "#FFFFFF", "thin-line", "square") 500 20
          VNone (VStr "Floating") VNone (VStr "yes")).
Proof. rewrite resolve_design_unfold. reflexivity. Qed.

Lemma contrast_ratio_is_of_returned_colours_witness :
  exists d,
    resolve_design demo.QR_THEMES demo.get_qr_style
      (VStr "custom") (VStr "#FFFFFF") (VStr "#FFFFFE") VNone VNone VNone VNone
      VNone VNone VNone VNone (VStr "true") = Ok d
    /\ contrast_ratio d = _contrast_ratio (VStr (fg d)) (VStr (bg d)).
Proof.
  eexists. split; [exact (run_scenario_b (VStr "true"))|].
  exact (contrast_ratio_is_of_returned_colours _ _ _ _ _ _ _ _ _ _ _ _ _ _ _
           (run_scenario_b (VStr "true"))).
Defined.

Lemma warnings_reflect_design_witness :
  exists d,
    resolve_design demo.QR_THEMES demo.get_qr_style
      (VStr "custom") (VStr "#FFFFFF") (VStr "#FFFFFE") VNone VNone VNone VNone
      VNone VNone VNone VNone VNone = Ok d
    /\ (QuietZoneSmall ∈ warnings d
        <-> (QuietZoneSmall = LowContrast (contrast_ratio d)
             /\ (contrast_ratio d < 4.5)%R)
            \/ (QuietZoneSmall = ThinLineSmall
                /\ qr_design.module_style d = "thin-line"
                /\ qr_design.qr_size d < 700)
            \/ (QuietZoneSmall = FloatingFrame /\ qr_design.frame_style d = "floating")
            \/ (QuietZoneSmall = SafeModeCorrected /\ safe_mode_applied d = true)).
Proof.
  eexists. split; [exact (run_scenario_b VNone)|].
  exact (warnings_reflect_design _ _ _ _ _ _ _ _ _ _ _ _ _ _ _
           (run_scenario_b VNone) QuietZoneSmall).
Defined.

Lemma safe_mode_leaves_no_scan_warning_witness :
  exists d,
    resolve_design demo.QR_THEMES demo.get_qr_style
      (VStr "custom") VNone VNone (VStr "thin-line") VNone (VInt 500) VNone VNone
      (VStr "Floating") VNone VNone (VStr "yes") = Ok d
    /\ forall w, w ∈ warnings d -> w = FloatingFrame \/ w = SafeModeCorrected.
Proof.
  eexists. split; [exact run_thin_floating_safe|].
  apply (proj1 (safe_mode_leaves_no_scan_warning _ _ _ _ _ _ _ _ _ _ _ _ _ _ _
                  run_thin_floating_safe)).
  reflexivity.
Defined.

End design_invariants_checked.

(** ** The shapes over the finder patterns *)
Section overlay_shapes.
Import qr_generator render_view.

Lemma half_bounds (a : Z) : 2 * (a / 2) <= a < 2 * (a / 2) + 2.
Proof.
  pose proof (Z.mul_div_le a 2 ltac:(lia)).
  pose proof (Z.mul_succ_div_gt a 2 ltac:(lia)). lia.
Qed.

(** X11: every shape the raster path draws over a finder pattern has a left
    edge left of its right edge and a top edge above its bottom edge, and no
    text is drawn; for a matrix with room for the patterns in an image at
    least as wide as the matrix has cells, every shape lies within the
    image. *)
Theorem eye_overlays_are_well_formed
    (img_width : Z) (qr : QRCode) (fg bg : string) (eye_style : pyval)
    (cmd : draw_cmd) :
  let n := Z.of_nat (length (get_matrix qr)) in
  let module_px := Z.max 1 (img_width / n) in
  cmd ∈ _draw_eye_overlays img_width qr fg bg eye_style ->
  exists x0 y0 x1 y1,
    shape_box cmd = Some (x0, y0, x1, y1)
    /\ x0 < x1 /\ y0 < y1
    /\ (0 <= border qr -> border qr + 7 <= n -> n <= img_width ->
        0 <= x0 /\ x1 <= n * module_px /\ 0 <= y0 /\ y1 <= n * module_px
        /\ n * module_px <= img_width).
Proof.
  intros n module_px. unfold _draw_eye_overlays.
  destruct (in_set _ {[ ""; "square" ]}); [now rewrite elem_of_nil|].
  fold n. destruct (Z.leb_spec n 0) as [|Hn]; [now rewrite elem_of_nil|].
  fold module_px.
  assert (Hpx : 1 <= module_px) by (subst module_px; lia).
  assert (Hfit : n <= img_width -> n * module_px <= img_width).
  { intros Hw. subst module_px.
    pose proof (Z.mul_div_le img_width n Hn).
    destruct (Z.max_spec 1 (img_width / n)) as [[_ ->]|[_ ->]]; lia. }
  set (style := lower (strip (str (py_or eye_style (VStr "square"))))).
  match goal with |- context [flat_map ?f _] => set (shapes := f) end.
  assert (Hshapes : forall ox oy c,
             c ∈ shapes (ox, oy) ->
             exists x0 y0 x1 y1,
               shape_box c = Some (x0, y0, x1, y1)
               /\ x0 < x1 /\ y0 < y1
               /\ ox <= x0 /\ x1 <= ox + 7 * module_px
               /\ oy <= y0 /\ y1 <= oy + 7 * module_px).
  { intros ox oy c. subst shapes. cbv beta iota.
    pose proof (half_bounds
                  (ox + Z.max 2 (2 * module_px)
                   + (ox + 7 * module_px - Z.max 2 (2 * module_px)))).
    pose proof (half_bounds
                  (oy + Z.max 2 (2 * module_px)
                   + (oy + 7 * module_px - Z.max 2 (2 * module_px)))).
    destruct (String.eqb style "rounded");
      [|destruct (String.eqb style "ring");
        [|destruct (String.eqb style "target");
          [|destruct (String.eqb style "dots")]]];
      rewrite ?elem_of_cons, elem_of_nil;
      intros H'; repeat (destruct H' as [->|H']); try contradiction;
      cbn [shape_box]; do 4 eexists; (split; [reflexivity|]); lia. }
  rewrite list_elem_of_In, in_flat_map.
  intros ((ox & oy) & Hin & Hc). rewrite <- list_elem_of_In in Hc.
  destruct (Hshapes ox oy cmd Hc) as (x0 & y0 & x1 & y1 & Hbox & Hx & Hy & Hb).
  exists x0, y0, x1, y1. split; [exact Hbox|]. split; [exact Hx|]. split; [exact Hy|].
  intros Hborder Hroom Hwide. specialize (Hfit Hwide).
  cbn [In] in Hin.
  assert (0 <= border qr * module_px) by nia.
  assert (0 <= (n - border qr - 7) * module_px) by nia.
  assert ((n - border qr - 7) * module_px + 7 * module_px
          = n * module_px - border qr * module_px) by ring.
  assert (border qr * module_px + 7 * module_px <= n * module_px) by nia.
  destruct Hin as [[= <- <-]|[[= <- <-]|[[= <- <-]|[]]]]; lia.
Qed.

End overlay_shapes.

Section overlay_shapes_checked.
Import qr_generator render_view.

Lemma eye_overlays_are_well_formed_witness :
  let qr := {| border := 4; modules := repeat (repeat true 21) 21 |} in
  exists x0 y0 x1 y1,
    shape_box (ellipse (60, 60, 90, 90) (Some (Color "#000000")) None 1)
    = Some (x0, y0, x1, y1)
    /\ x0 < x1 /\ y0 < y1 /\ 0 <= x0 /\ x1 <= 290.
Proof.
  intros qr.
  destruct (eye_overlays_are_well_formed 290 qr "#000000" "#FFFFFF" (VStr "ring")
              (ellipse (60, 60, 90, 90) (Some (Color "#000000")) None 1))
    as (x0 & y0 & x1 & y1 & Hbox & Hx & Hy & Hin).
  - apply list_elem_of_In. vm_compute. auto.
  - exists x0, y0, x1, y1. split; [exact Hbox|]. split; [exact Hx|]. split; [exact Hy|].
    destruct Hin as (H0 & H1 & _); [vm_compute; discriminate ..|].
    split; [exact H0|exact H1].
Defined.

End overlay_shapes_checked.

(** ** The markup of the vector path *)
Section svg_structure.
Import qr_generator render_view.

Lemma enumerate_from_lookup {A} (l : list A) (k : Z) (i : nat) (a : A) :
  l !! i = Some a -> (k + Z.of_nat i, a) ∈ enumerate_from k l.
Proof.
  revert k i. induction l as [|x l IH]; intros k i; [discriminate|].
  destruct i as [|i]; cbn [enumerate_from].
  - intros [= ->]. rewrite Z.add_0_r. apply list_elem_of_here.
  - intros H. apply list_elem_of_further.
    replace (k + Z.of_nat (S i)) with (k + 1 + Z.of_nat i) by lia.
    now apply IH.
Qed.

Lemma row_cells_length (f : Z -> string) (row : list bool) (k : Z) :
  length (flat_map (fun '(x, on) => if negb on : bool then [] else [f x])
            (enumerate_from k row))
  = length (List.filter (fun on : bool => on) row).
Proof.
  revert k. induction row as [|on row IH]; intros k; [reflexivity|].
  cbn [enumerate_from flat_map List.filter]. rewrite length_app, IH.
  now destruct on.
Qed.

Lemma matrix_cells_length (f : Z -> Z -> string) (matrix : list (list bool)) (k : Z) :
  length (flat_map (fun '(y, row) =>
            flat_map (fun '(x, on) => if negb on : bool then [] else [f x y])
              (enumerate_from 0 row))
            (enumerate_from k matrix))
  = dark_cells matrix.
Proof.
  unfold dark_cells.
  revert k. induction matrix as [|row matrix IH]; intros k; [reflexivity|].
  cbn [enumerate_from flat_map concat].
  rewrite length_app, IH, List.filter_app, length_app. f_equal.
  apply (row_cells_length (fun x => f x k)).
Qed.

(** X12: the markup has one element for each dark cell of the matrix, drawn
    twelve units in at the cell's column and row, besides its five fixed
    parts, three overlays for the eye styles rounded, ring and target, and
    two parts for a frame. *)
Theorem svg_has_one_element_per_dark_cell
    (qr : QRCode) (size : Z) (fg bg : string) (module_style eye_style : pyval)
    (frame_style : string) (frame_text : option string) :
  let matrix := get_matrix qr in
  let cell := Z.max 2 (size / Z.max 1 (Z.of_nat (length matrix))) in
  let parts := svg_parts qr size fg bg module_style eye_style frame_style frame_text in
  length parts
  = (5 + dark_cells matrix
     + (if in_set (lower (strip (str (py_or eye_style (VStr "square")))))
             {[ "rounded"; "ring"; "target" ]} then 3 else 0)
     + (if in_set frame_style {[ "corner"; "floating"; "pill" ]} then 2 else 0))%nat
  /\ forall (x y : nat) (row : list bool),
       matrix !! y = Some row -> row !! x = Some true ->
       svg_module (lower (str (py_or module_style (VStr "square")))) fg 12 cell
         (Z.of_nat x) (Z.of_nat y) ∈ parts.
Proof.
  intros matrix cell parts. subst parts. unfold svg_parts. cbv zeta.
  fold matrix. fold cell. split.
  - rewrite !length_app. unfold enumerate.
    rewrite (matrix_cells_length
               (svg_module (lower (str (py_or module_style (VStr "square")))) fg 12 cell)).
    destruct (in_set _ {[ "rounded"; "ring"; "target" ]}); cbn [length map];
      (destruct (String.eqb_spec frame_style "corner") as [->|Hc];
       [change (in_set "corner" {[ "corner"; "floating"; "pill" ]}) with true;
        cbn [length]; lia|]);
      (destruct (String.eqb_spec frame_style "floating") as [->|Hf];
       [change (in_set "floating" {[ "corner"; "floating"; "pill" ]}) with true;
        cbn [length]; lia|]);
      (destruct (String.eqb_spec frame_style "pill") as [->|Hp];
       [change (in_set "pill" {[ "corner"; "floating"; "pill" ]}) with true;
        cbn [length]; lia|]);
      (replace (in_set frame_style {[ "corner"; "floating"; "pill" ]}) with false
         by (symmetry; apply bool_decide_eq_false; set_solver));
      cbn [length]; lia.
  - intros x y row Hrow Hon.
    rewrite !elem_of_app. right. left.
    rewrite list_elem_of_In, in_flat_map.
    exists (Z.of_nat y, row). split.
    + rewrite <- list_elem_of_In.
      exact (enumerate_from_lookup matrix 0 y row Hrow).
    + rewrite in_flat_map. exists (Z.of_nat x, true). split.
      * rewrite <- list_elem_of_In.
        exact (enumerate_from_lookup row 0 x true Hon).
      * now left.
Qed.

Lemma chars_append (a b : string) : chars (a +:+ b) = (chars a ++ chars b)%list.
Proof.
  unfold chars. induction a as [|c a IH]; [reflexivity|].
  cbn. now rewrite <- IH.
Qed.

(** A character of a text after a replacement: one of the replacement, or
    one of the text that is not the replaced character. *)
Lemma replace_char_chars (ch : ascii) (by_ s : string) (c : ascii) :
  c ∈ chars (replace_char ch by_ s) ->
  c ∈ chars by_ \/ (c ∈ chars s /\ c <> ch).
Proof.
  induction s as [|a s IH]; cbn [replace_char].
  - unfold chars. cbn. now rewrite elem_of_nil.
  - destruct (Ascii.eqb_spec a ch) as [->|Hne].
    + rewrite chars_append, elem_of_app. intros [H|H]; [now left|].
      destruct (IH H) as [?|[? ?]]; [now left|right].
      split; [|assumption]. unfold chars. cbn. now apply list_elem_of_further.
    + unfold chars at 1. cbn [list_ascii_of_string].
      rewrite elem_of_cons. intros [->|H].
      * right. split; [apply list_elem_of_here|exact Hne].
      * destruct (IH H) as [?|[? ?]]; [now left|right].
        split; [|assumption]. unfold chars. cbn. now apply list_elem_of_further.
Qed.

Lemma replace_char_absent (ch : ascii) (by_ s : string) :
  (forall c, c ∈ chars s -> c <> ch) -> replace_char ch by_ s = s.
Proof.
  induction s as [|a s IH]; [reflexivity|].
  intros H. cbn [replace_char].
  destruct (Ascii.eqb_spec a ch) as [->|_].
  - exfalso. apply (H ch); [apply list_elem_of_here|reflexivity].
  - f_equal. apply IH. intros c Hc. apply H. now apply list_elem_of_further.
Qed.

(** X13: a caption written into the markup holds no angle bracket, so it
    cannot end the element it stands in; and a caption with neither an
    ampersand nor an angle bracket is written as it is. *)
Theorem svg_escape_leaves_no_bracket (caption : string) :
  (forall c, c ∈ chars (svg_escape caption) -> c <> "<"%char /\ c <> ">"%char)
  /\ ((forall c, c ∈ chars caption -> c <> "&"%char /\ c <> "<"%char /\ c <> ">"%char) ->
      svg_escape caption = caption).
Proof.
  unfold svg_escape. split.
  - intros c Hc.
    apply replace_char_chars in Hc. destruct Hc as [Hc|[Hc Hgt]].
    { change (chars "&gt;") with ["&"; "g"; "t"; ";"]%char in Hc.
      rewrite !elem_of_cons, elem_of_nil in Hc.
      destruct Hc as [->|[->|[->|[->|[]]]]]; split; discriminate. }
    split; [|exact Hgt].
    apply replace_char_chars in Hc. destruct Hc as [Hc|[_ Hlt]]; [|exact Hlt].
    change (chars "&lt;") with ["&"; "l"; "t"; ";"]%char in Hc.
    rewrite !elem_of_cons, elem_of_nil in Hc.
    destruct Hc as [->|[->|[->|[->|[]]]]]; discriminate.
  - intros H.
    rewrite (replace_char_absent "&") by (intros c Hc; apply (H c Hc)).
    rewrite (replace_char_absent "<") by (intros c Hc; apply (H c Hc)).
    apply replace_char_absent. intros c Hc. apply (H c Hc).
Qed.

End svg_structure.

Section svg_structure_checked.
Import qr_generator render_view.

Lemma svg_has_one_element_per_dark_cell_witness :
  let qr := {| border := 2; modules := repeat (repeat true 21) 21 |} in
  svg_module "dots" "#000000" 12 24 2 3
  ∈ svg_parts qr 600 "#000000" "#FFFFFF" (VStr "Dots") (VStr "ring") "none" None.
Proof.
  intros qr.
  exact (proj2 (svg_has_one_element_per_dark_cell qr 600 "#000000" "#FFFFFF"
                  (VStr "Dots") (VStr "ring") "none" None)
           2%nat 3%nat (repeat false 2 ++ repeat true 21 ++ repeat false 2)%list
           eq_refl eq_refl).
Defined.

Lemma svg_escape_leaves_no_bracket_witness :
  svg_escape "Scan me" = "Scan me"
  /\ svg_escape "a<b>&c" = "a&lt;b&gt;&amp;c".
Proof.
  split; [|reflexivity].
  apply (proj2 (svg_escape_leaves_no_bracket "Scan me")).
  intros c Hc.
  change (chars "Scan me") with ["S"; "c"; "a"; "n"; " "; "m"; "e"]%char in Hc.
  rewrite !elem_of_cons, elem_of_nil in Hc.
  repeat (destruct Hc as [->|Hc]; [repeat split; discriminate|]).
  destruct Hc.
Defined.

End svg_structure_checked.

(** ** The frame in the two compositors *)
Section frame_styles.
Import qr_generator frame_compositor.
Variable Image : Type.
Variable image_size : Image → Z * Z.
Variable expand : Image → Z → string → Image.
Variable new_image : Z → Z → string → Image.
Variable paste : Image → Image → Z * Z → Image.
Variable draw : Image → list draw_cmd → Image.
Variable textbbox : string → Z * Z.

(** X14: a frame style that is none of the names the code knows is drawn as
    a pill on the raster image, and not at all in the markup. *)
Theorem unknown_frame_is_a_pill_on_raster_only
    (img : Image) (frame_style : string) (frame_text : option string) (fg bg : string)
    (qr : QRCode) (size : Z) (module_style eye_style : pyval) :
  named (VStr frame_style) "none" ∉ ({[ ""; "none"; "corner"; "floating" ]} : gset string) ->
  frame_style ∉ ({[ "corner"; "floating"; "pill" ]} : gset string) ->
  _apply_frame Image image_size expand new_image paste draw textbbox
    img frame_style frame_text fg bg
  = _apply_frame Image image_size expand new_image paste draw textbbox
      img "pill" frame_text fg bg
  /\ svg_parts qr size fg bg module_style eye_style frame_style frame_text
     = svg_parts qr size fg bg module_style eye_style "none" frame_text.
Proof.
  intros Hraster Hvector. split.
  - unfold _apply_frame.
    change (lower (strip (str (py_or (VStr frame_style) (VStr "none")))))
      with (named (VStr frame_style) "none").
    change (lower (strip (str (py_or (VStr "pill") (VStr "none"))))) with "pill".
    change (in_set "pill" {[ ""; "none" ]}) with false.
    change (String.eqb "pill" "corner") with false.
    change (String.eqb "pill" "floating") with false.
    replace (in_set (named (VStr frame_style) "none") {[ ""; "none" ]}) with false
      by (symmetry; apply bool_decide_eq_false; set_solver).
    destruct (String.eqb_spec (named (VStr frame_style) "none") "corner") as [E|_];
      [rewrite E in Hraster; set_solver|].
    destruct (String.eqb_spec (named (VStr frame_style) "none") "floating") as [E|_];
      [rewrite E in Hraster; set_solver|].
    reflexivity.
  - unfold svg_parts.
    replace (in_set frame_style {[ "pill"; "floating" ]}) with false
      by (symmetry; apply bool_decide_eq_false; set_solver).
    destruct (String.eqb_spec frame_style "corner") as [E|_];
      [rewrite E in Hvector; set_solver|].
    destruct (String.eqb_spec frame_style "floating") as [E|_];
      [rewrite E in Hvector; set_solver|].
    destruct (String.eqb_spec frame_style "pill") as [E|_];
      [rewrite E in Hvector; set_solver|].
    reflexivity.
Qed.

End frame_styles.

Section frame_styles_checked.
Import qr_generator frame_compositor.

Lemma unknown_frame_is_a_pill_on_raster_only_witness :
  let img := {| demo_frames.width := 616; demo_frames.height := 616;
                demo_frames.drawn := [] |} in
  _apply_frame demo_frames.Image demo_frames.image_size demo_frames.expand
    demo_frames.new_image demo_frames.paste demo_frames.draw demo_frames.textbbox
    img "zigzag" None "#000000" "#FFFFFF"
  = {| demo_frames.width := 616; demo_frames.height := 694;
       demo_frames.drawn :=
         [ rounded_rectangle (267, 632, 349, 661) 14 (Some (Color "#000000")) None 1;
           text (287, 641) "Scan me" (Color "#FFFFFF") ] |}.
Proof.
  intros img.
  rewrite (proj1 (unknown_frame_is_a_pill_on_raster_only demo_frames.Image
                    demo_frames.image_size demo_frames.expand demo_frames.new_image
                    demo_frames.paste demo_frames.draw demo_frames.textbbox
                    img "zigzag" None "#000000" "#FFFFFF"
                    {| border := 4; modules := [] |} 600 VNone VNone
                    ltac:(compute_done) ltac:(compute_done))).
  reflexivity.
Defined.

End frame_styles_checked.

(** ** A render call, stage by stage *)
Section render_stages.
Import qr_generator.

(** Making the output directory, whether it succeeds or not. *)
Lemma mkdir_output_dir_footprint (w w1 : world) (o : result unit) :
  mkdir_parents_exist_ok w "static/generated_qr" = (o, w1) ->
  files w1 = files w /\ clock w1 = clock w /\ cwd w1 = cwd w
  /\ dirs w ⊆ dirs w1
  /\ dirs w1
     ⊆ {[ (cwd w ++ ["static"; "generated_qr"])%list; (cwd w ++ ["static"])%list ]}
       ∪ dirs w.
Proof.
  unfold mkdir_parents_exist_ok.
  change (pure_path "static/generated_qr") with ("", ["static"; "generated_qr"]).
  cbn [mkdir_each String.eqb].
  destruct (is_file w _).
  { intros [= _ <-]. split; [reflexivity|]. split; [reflexivity|].
    split; [reflexivity|]. split; [reflexivity|]. apply union_subseteq_r. }
  unfold is_file at 1. cbn [files].
  destruct (bool_decide _); intros [= _ <-]; cbn [dirs files clock cwd];
    (split; [reflexivity|]); (split; [reflexivity|]); (split; [reflexivity|]).
  - split; [apply union_subseteq_r|].
    apply union_mono_r. apply union_subseteq_r.
  - rewrite <- app_assoc. cbn [app]. rewrite (assoc_L (∪)). split.
    + apply union_subseteq_r.
    + reflexivity.
Qed.

(** Writing a file, whether it succeeds or not. *)
Lemma save_file_footprint (w w2 : world) (p : string) (data : list N) (o : result unit) :
  save_file w p data = (o, w2) ->
  dirs w2 = dirs w /\ clock w2 = clock w /\ cwd w2 = cwd w
  /\ (files w2 = files w
      \/ exists f, resolve w p = Some f /\ files w2 = <[ f := data ]> (files w)).
Proof.
  unfold save_file.
  destruct (has_nul p); [intros [= _ <-]; auto|].
  destruct (resolve w p) as [f|]; [|intros [= _ <-]; auto].
  destruct (is_dir w f); intros [= _ <-]; [auto|].
  cbn [dirs files clock cwd]. repeat split. right. now exists f.
Qed.

Variable qr_make : string → result (list (list bool)).
Variable Image : Type.
Variable getrgb : string → result (Z * Z * Z).
Variable make_image : QRCode → module_drawer → color_mask → Image.
Variable image_width : Image → Z.
Variable draw : Image → list draw_cmd → Image.
Variable resize : Image → Z → result Image.
Variable expand : Image → Z → string → Image.
Variable image_open : list N → result Image.
Variable composite_logo : Image → Image → Z → pyval → pyval → string → result Image.
Variable _apply_frame : Image → string → option string → string → string → Image.
Variable png_encode : Image → list N.
Variable pdf_encode : list N → Z → list N.

Local Notation render :=
  (generate_qr_png qr_make Image getrgb make_image image_width draw resize expand
     image_open composite_logo _apply_frame png_encode pdf_encode).

(** The path the PNG is written to. *)
Local Notation target_of w filename :=
  (path_join "static/generated_qr"
     (match filename with
      | Some f => if String.eqb f "" then "qr_" +:+ fmt (clock w) +:+ ".png" else f
      | None => "qr_" +:+ fmt (clock w) +:+ ".png"
      end)).

(** A call that returns: the file it wrote and the values that depend on
    the numbers passed in. *)
Lemma render_returns_inv
    (w w' : world) (r : rendered) payload size fg bg logo_path module_style
    eye_style frame_text frame_color gradient logo_position filename frame_style
    logo_scale logo_bg_mode quiet_zone dpi :
  render w payload size fg bg logo_path module_style eye_style frame_text frame_color
    gradient logo_position filename frame_style logo_scale logo_bg_mode quiet_zone
    dpi = (Ok r, w') ->
  exists w1 quiet logo resolution,
    mkdir_parents_exist_ok w "static/generated_qr" = (Ok (), w1)
    /\ save_file w1 (path r) (bytes r) = (Ok (), w')
    /\ path r = target_of w filename
    /\ int (py_or quiet_zone (VInt 4)) = Ok quiet
    /\ int (py_or logo_scale (VInt 20)) = Ok logo
    /\ int (py_or dpi (VInt 300)) = Ok resolution
    /\ pdf_bytes r = pdf_encode (bytes r) (Z.max 72 (Z.min resolution 600))
    /\ contrast_ratio r
       = _contrast_ratio (VStr (_normalize_hex fg DEFAULT_FG))
           (VStr (_normalize_hex bg DEFAULT_BG))
    /\ quality_warnings r
       = ((if Rlt_dec (contrast_ratio r) 4.5 then [LowContrast (contrast_ratio r)] else [])
          ++ (if quiet <? 4 then [QuietZoneSmall] else [])
          ++ (if String.eqb (lower (strip (str (py_or module_style (VStr "")))))
                            "thin-line" && (size <? 700)
              then [ThinLineSmall] else [])
          ++ (if logo >? 20 then [LogoClamped] else []))%list.
Proof.
  unfold generate_qr_png.
  match goal with |- context [match ?c with Ok _ => _ | Raise _ => _ end] =>
    destruct c as [[img frame_style']|] end; [|discriminate].
  destruct (mkdir_parents_exist_ok w _) as [[[]|] w1] eqn:Hmk; [|discriminate].
  destruct (mkdir_output_dir_footprint _ _ _ Hmk) as (_ & Hclock & _).
  destruct (save_file w1 _ _) as [[[]|] w2] eqn:Hsave; [|discriminate].
  intros [= Hr <-].
  destruct (_generate_svg_bytes _ _ _ _ _ _ _ _ _ _) as [svg|];
    cbn [mbind result_bind] in Hr; [|discriminate Hr].
  unfold _to_pdf_bytes in Hr.
  destruct (int (py_or dpi (VInt 300))) as [resolution|];
    cbn [mbind result_bind mret result_ret] in Hr; [|discriminate Hr].
  destruct (int (py_or quiet_zone (VInt 4))) as [quiet|];
    cbn [mbind result_bind] in Hr; [|discriminate Hr].
  destruct (int (py_or logo_scale (VInt 20))) as [logo|];
    cbn [mbind result_bind mret result_ret] in Hr; [|discriminate Hr].
  injection Hr as <-. cbn [path bytes pdf_bytes contrast_ratio quality_warnings].
  exists w1, quiet, logo, resolution. rewrite <- Hclock.
  repeat split; try reflexivity. exact Hsave.
Qed.

(** X15: whatever a render call answers, and also when it raises, it leaves
    the clock, the working directory and every directory in place, makes at
    most the directories static and static/generated_qr, and either leaves
    the files as they are or writes the one file its path names; no file is
    removed and no other file is changed. *)
Theorem render_changes_one_file_at_most
    (w w' : world) (outcome : result rendered) payload size fg bg logo_path
    module_style eye_style frame_text frame_color gradient logo_position filename
    frame_style logo_scale logo_bg_mode quiet_zone dpi :
  render w payload size fg bg logo_path module_style eye_style frame_text frame_color
    gradient logo_position filename frame_style logo_scale logo_bg_mode quiet_zone
    dpi = (outcome, w') ->
  clock w' = clock w /\ cwd w' = cwd w
  /\ dirs w ⊆ dirs w'
  /\ dirs w'
     ⊆ {[ (cwd w ++ ["static"; "generated_qr"])%list; (cwd w ++ ["static"])%list ]}
       ∪ dirs w
  /\ (files w' = files w
      \/ exists f data,
           resolve w' (target_of w filename) = Some f
           /\ files w' = <[ f := data ]> (files w)).
Proof.
  unfold generate_qr_png.
  match goal with |- context [match ?c with Ok _ => _ | Raise _ => _ end] =>
    destruct c as [[img frame_style']|] end.
  2: { intros [= _ <-]. split; [reflexivity|]. split; [reflexivity|].
       split; [reflexivity|]. split; [apply union_subseteq_r|now left]. }
  destruct (mkdir_parents_exist_ok w _) as [o1 w1] eqn:Hmk.
  destruct (mkdir_output_dir_footprint _ _ _ Hmk) as (Hf1 & Hc1 & Hw1 & Hd1 & Hd1').
  destruct o1 as [[]|e1].
  2: { intros [= _ <-]. rewrite Hf1. repeat split; try assumption. now left. }
  destruct (save_file w1 _ _) as [o2 w2] eqn:Hsave.
  destruct (save_file_footprint _ _ _ _ _ Hsave) as (Hd2 & Hc2 & Hw2 & Hf2).
  rewrite Hc1 in Hf2.
  assert (Hgoal : clock w2 = clock w /\ cwd w2 = cwd w
                  /\ dirs w ⊆ dirs w2
                  /\ dirs w2
                     ⊆ {[ (cwd w ++ ["static"; "generated_qr"])%list;
                          (cwd w ++ ["static"])%list ]} ∪ dirs w
                  /\ (files w2 = files w
                      \/ exists f data,
                           resolve w2 (target_of w filename) = Some f
                           /\ files w2 = <[ f := data ]> (files w))).
  { rewrite Hd2, Hc2, Hc1, Hw2, Hw1. repeat split; try assumption.
    destruct Hf2 as [->|(f & Hres & ->)]; [left; exact Hf1|].
    right. exists f, (png_encode img). rewrite Hf1. split; [|reflexivity].
    now rewrite (resolve_same_dirs w1 w2 _ Hw2 Hd2). }
  destruct o2 as [[]|e2]; intros [= _ <-]; exact Hgoal.
Qed.

(** X16: when a call returns for some resolution, the same call with a text
    that is no number as resolution raises a ValueError, and leaves behind
    what the first leaves: the PNG is on disk although the call failed. *)
Theorem render_fails_late_with_the_file_written
    (w w' : world) (r : rendered) (text : string) payload size fg bg logo_path
    module_style eye_style frame_text frame_color gradient logo_position filename
    frame_style logo_scale logo_bg_mode quiet_zone dpi :
  render w payload size fg bg logo_path module_style eye_style frame_text frame_color
    gradient logo_position filename frame_style logo_scale logo_bg_mode quiet_zone
    dpi = (Ok r, w') ->
  text <> "" ->
  parse_int 10 text = None ->
  render w payload size fg bg logo_path module_style eye_style frame_text frame_color
    gradient logo_position filename frame_style logo_scale logo_bg_mode quiet_zone
    (VStr text) = (Raise ValueError, w')
  /\ exists f, resolve w' (path r) = Some f /\ files w' !! f = Some (bytes r).
Proof.
  intros Hrun Htext Hparse. split.
  - revert Hrun. unfold generate_qr_png.
    match goal with |- context [match ?c with Ok _ => _ | Raise _ => _ end] =>
      destruct c as [[img frame_style']|] end; [|discriminate].
    destruct (mkdir_parents_exist_ok w _) as [[[]|] w1]; [|discriminate].
    destruct (save_file w1 _ _) as [[[]|] w2]; [|discriminate].
    intros [= Hr <-]. f_equal.
    destruct (_generate_svg_bytes _ _ _ _ _ _ _ _ _ _) as [svg|];
      cbn [mbind result_bind] in Hr |- *; [|discriminate Hr].
    unfold _to_pdf_bytes, py_or, truthy. rewrite (eqb_empty_false _ Htext).
    cbn [negb int]. now rewrite Hparse.
  - apply render_returns_inv in Hrun.
    destruct Hrun as (w1 & _ & _ & _ & _ & Hsave & _).
    apply save_file_writes in Hsave.
    destruct Hsave as (f & Hres & _ & Hd & -> & _ & Hw).
    exists f. split; [|apply lookup_insert_eq].
    now rewrite (resolve_same_dirs w1 w' _ Hw Hd).
Qed.

(** X17: the name a call gives its file when the caller gives none depends
    on the clock alone: a second call in the same second writes to the path
    of the first, whose PNG is gone. *)
Theorem renders_in_one_second_share_a_path
    (w w1 w2 : world) (r1 r2 : rendered)
    payload1 size1 fg1 bg1 logo_path1 module_style1 eye_style1 frame_text1
    frame_color1 gradient1 logo_position1 frame_style1 logo_scale1 logo_bg_mode1
    quiet_zone1 dpi1
    payload2 size2 fg2 bg2 logo_path2 module_style2 eye_style2 frame_text2
    frame_color2 gradient2 logo_position2 frame_style2 logo_scale2 logo_bg_mode2
    quiet_zone2 dpi2 :
  render w payload1 size1 fg1 bg1 logo_path1 module_style1 eye_style1 frame_text1
    frame_color1 gradient1 logo_position1 None frame_style1 logo_scale1
    logo_bg_mode1 quiet_zone1 dpi1 = (Ok r1, w1) ->
  render w1 payload2 size2 fg2 bg2 logo_path2 module_style2 eye_style2 frame_text2
    frame_color2 gradient2 logo_position2 None frame_style2 logo_scale2
    logo_bg_mode2 quiet_zone2 dpi2 = (Ok r2, w2) ->
  path r2 = path r1
  /\ exists f,
       files w1 = <[ f := bytes r1 ]> (files w)
       /\ files w2 = <[ f := bytes r2 ]> (files w).
Proof.
  intros H1 H2.
  apply render_returns_inv in H1, H2.
  destruct H1 as (wa & _ & _ & _ & Hmk1 & Hsave1 & Hpath1 & _).
  destruct H2 as (wb & _ & _ & _ & Hmk2 & Hsave2 & Hpath2 & _).
  apply mkdir_output_dir in Hmk1, Hmk2.
  destruct Hmk1 as (Hda & Hfa & Hca & Hwa). destruct Hmk2 as (Hdb & Hfb & Hcb & Hwb).
  apply save_file_writes in Hsave1, Hsave2.
  destruct Hsave1 as (f1 & Hres1 & _ & Hd1 & Hf1 & Hc1 & Hw1).
  destruct Hsave2 as (f2 & Hres2 & _ & _ & Hf2 & _).
  assert (Hsame : path r2 = path r1) by (rewrite Hpath1, Hpath2, Hc1, Hca; reflexivity).
  split; [exact Hsame|].
  rewrite Hpath1, default_path in Hres1. rewrite Hpath2, default_path in Hres2.
  unfold resolve in Hres1, Hres2.
  change (String.eqb _ "") with false in Hres1, Hres2.
  change (startswith_char "/" _) with false in Hres1, Hres2.
  cbv iota in Hres1, Hres2. rewrite default_name_split in Hres1, Hres2.
  apply walk_names in Hres1; [|repeat constructor; discriminate].
  apply walk_names in Hres2; [|repeat constructor; discriminate].
  assert (Hf : f2 = f1) by (rewrite Hres1, Hres2, Hwb, Hw1, Hwa, Hc1, Hca; reflexivity).
  exists f1. split; [now rewrite Hf1, Hfa|].
  rewrite Hf2, Hfb, Hf1, Hfa, Hf. apply insert_insert_eq.
Qed.

(** A caption with the frame style none, or with none at all, is the frame
    style pill: the old way of asking for a caption answers what the new one
    answers. *)
Lemma caption_without_frame_is_a_pill
    (w : world) (caption : string) payload size fg bg logo_path module_style
    eye_style frame_color gradient logo_position filename logo_scale logo_bg_mode
    quiet_zone dpi :
  caption <> "" ->
  render w payload size fg bg logo_path module_style eye_style (Some caption)
    frame_color gradient logo_position filename "none" logo_scale logo_bg_mode
    quiet_zone dpi
  = render w payload size fg bg logo_path module_style eye_style (Some caption)
      frame_color gradient logo_position filename "pill" logo_scale logo_bg_mode
      quiet_zone dpi
  /\ render w payload size fg bg logo_path module_style eye_style (Some caption)
       frame_color gradient logo_position filename "" logo_scale logo_bg_mode
       quiet_zone dpi
     = render w payload size fg bg logo_path module_style eye_style (Some caption)
         frame_color gradient logo_position filename "pill" logo_scale logo_bg_mode
         quiet_zone dpi.
Proof.
  intros Hcaption. unfold generate_qr_png.
  change (default "" (Some caption)) with caption.
  rewrite (eqb_empty_false _ Hcaption). cbn [negb andb].
  change (in_set "none" {[ "none"; "" ]}) with true.
  change (in_set "" {[ "none"; "" ]}) with true.
  change (in_set "pill" {[ "none"; "" ]}) with false.
  split; reflexivity.
Qed.

(** X18: a logo that is not there, or that cannot be read as an image,
    changes nothing: the call answers what it answers without a logo. *)
Theorem unreadable_logo_is_no_logo
    (w : world) (logo : string) payload size fg bg module_style eye_style
    frame_text frame_color gradient logo_position filename frame_style logo_scale
    logo_bg_mode quiet_zone dpi :
  path_exists w logo = false
  \/ raises (read_file w logo) = true
  \/ (exists data e, read_file w logo = Ok data /\ image_open data = Raise e) ->
  render w payload size fg bg (Some logo) module_style eye_style frame_text
    frame_color gradient logo_position filename frame_style logo_scale logo_bg_mode
    quiet_zone dpi
  = render w payload size fg bg None module_style eye_style frame_text
      frame_color gradient logo_position filename frame_style logo_scale
      logo_bg_mode quiet_zone dpi.
Proof.
  intros Hlogo. unfold generate_qr_png.
  assert (Hsame : forall img,
             _apply_logo Image image_open composite_logo w img (Some logo) size
               logo_scale logo_bg_mode logo_position
             = _apply_logo Image image_open composite_logo w img None size
                 logo_scale logo_bg_mode logo_position).
  { intros img. unfold _apply_logo.
    destruct (String.eqb logo ""); [reflexivity|]. cbn [orb].
    destruct Hlogo as [->|[Hnone|(data & e & Hdata & Hopen)]]; [reflexivity| |].
    - destruct (negb _); [reflexivity|].
      destruct (read_file w logo); [discriminate Hnone|reflexivity].
    - destruct (negb _); [reflexivity|].
      rewrite Hdata. cbn [mbind result_bind]. now rewrite Hopen. }
  destruct (_build_qr qr_make payload quiet_zone) as [qr|]; [|reflexivity].
  cbn [mbind result_bind].
  match goal with
  | |- context [mbind _ ?c] => destruct c as [mask|]; [|reflexivity]
  end.
  cbn [mbind result_bind].
  destruct (resize _ size) as [img|]; [|reflexivity].
  cbn [mbind result_bind]. now rewrite Hsame.
Qed.

End render_stages.

Section render_stages_checked.
Import qr_generator.

Local Notation demo_call w payload filename logo frame_text frame_style dpi :=
  (generate_qr_png demo.qr_make demo.Image demo.getrgb demo.make_image
     demo.image_width demo.draw demo.resize demo.expand demo.image_open
     demo.composite_logo demo._apply_frame demo.png_encode demo.pdf_encode
     w payload 600 (VStr "#000000") (VStr "#FFFFFF") logo (VStr "square")
     (VStr "square") frame_text (VStr "#4F46E5") None "center" filename frame_style
     (VInt 20) (VStr "auto-white") (VInt 4) dpi).

(** A payload the library refuses: the call raises and nothing is on disk. *)
Lemma render_changes_one_file_at_most_witness :
  let run := demo_call demo.empty_world "a payload that is too long" None None None
               "none" (VInt 300) in
  raises run.1 = true
  /\ clock run.2 = 1700000000 /\ cwd run.2 = ["srv"; "app"]
  /\ dirs demo.empty_world ⊆ dirs run.2
  /\ dirs run.2
     ⊆ {[ ["srv"; "app"; "static"; "generated_qr"]; ["srv"; "app"; "static"] ]}
       ∪ dirs demo.empty_world
  /\ (files run.2 = ∅
      \/ exists f data,
           resolve run.2 "static/generated_qr/qr_1700000000.png" = Some f
           /\ files run.2 = <[ f := data ]> ∅).
Proof.
  intros run. split; [reflexivity|].
  apply (render_changes_one_file_at_most demo.qr_make demo.Image demo.getrgb
           demo.make_image demo.image_width demo.draw demo.resize demo.expand
           demo.image_open demo.composite_logo demo._apply_frame demo.png_encode
           demo.pdf_encode demo.empty_world run.2 run.1
           "a payload that is too long" 600 (VStr "#000000") (VStr "#FFFFFF") None
           (VStr "square") (VStr "square") None (VStr "#4F46E5") None "center" None
           "none" (VInt 20) (VStr "auto-white") (VInt 4) (VInt 300)).
  apply surjective_pairing.
Defined.

Lemma render_fails_late_with_the_file_written_witness :
  exists w',
    demo_call demo.empty_world "hello" None None None "none" (VStr "high")
    = (Raise ValueError, w')
    /\ files w' !! ["srv"; "app"; "static"; "generated_qr"; "qr_1700000000.png"]
       = Some [137; 80; 78; 71; 616]%N.
Proof.
  pose proof demo_render_returns as Hret.
  destruct (demo.render demo.empty_world) as [[r|e] w'] eqn:Hrun; [|discriminate Hret].
  exists w'. unfold demo.render in Hrun.
  destruct (render_fails_late_with_the_file_written _ _ _ _ _ _ _ _ _ _ _ _ _ _ _ _
              "high" _ _ _ _ _ _ _ _ _ _ _ _ _ _ _ _ _ Hrun)
    as (Hraise & _); [discriminate|reflexivity|].
  split; [exact Hraise|].
  pose proof (f_equal snd Hraise) as Hw. cbn [snd] in Hw. rewrite <- Hw. reflexivity.
Defined.

Lemma second_render_returns :
  raises (demo.render (demo.render demo.empty_world).2).1 = false.
Proof. reflexivity. Qed.

Lemma renders_in_one_second_share_a_path_witness :
  exists r1 w1 r2 w2,
    demo.render demo.empty_world = (Ok r1, w1)
    /\ demo_call w1 "hi" None None None "pill" (VInt 72) = (Ok r2, w2)
    /\ path r2 = path r1
    /\ exists f, files w1 = <[ f := bytes r1 ]> ∅ /\ files w2 = <[ f := bytes r2 ]> ∅.
Proof.
  pose proof demo_render_returns as Hret.
  destruct (demo.render demo.empty_world) as [[r1|e] w1] eqn:Hrun1;
    [|discriminate Hret].
  assert (Hret2 : raises (demo_call w1 "hi" None None None "pill" (VInt 72)).1 = false).
  { pose proof (f_equal snd Hrun1) as Hw. cbn [snd] in Hw. rewrite <- Hw. reflexivity. }
  destruct (demo_call w1 "hi" None None None "pill" (VInt 72)) as [[r2|e] w2] eqn:Hrun2;
    [|discriminate Hret2].
  exists r1, w1, r2, w2. split; [reflexivity|]. split; [exact Hrun2|].
  unfold demo.render in Hrun1.
  exact (renders_in_one_second_share_a_path _ _ _ _ _ _ _ _ _ _ _ _ _ _ _ _ _ _ _ _ _
           _ _ _ _ _ _ _ _ _ _ _ _ _ _ _ _ _ _ _ _ _ _ _ _ _ _ _ _ _ Hrun1 Hrun2).
Defined.

Lemma caption_without_frame_is_a_pill_witness :
  demo_call demo.empty_world "hello" None None (Some "Scan") "none" (VInt 300)
  = demo_call demo.empty_world "hello" None None (Some "Scan") "pill" (VInt 300).
Proof.
  apply (caption_without_frame_is_a_pill demo.qr_make demo.Image demo.getrgb
           demo.make_image demo.image_width demo.draw demo.resize demo.expand
           demo.image_open demo.composite_logo demo._apply_frame demo.png_encode
           demo.pdf_encode demo.empty_world "Scan").
  discriminate.
Defined.

Lemma unreadable_logo_is_no_logo_witness :
  demo_call demo.empty_world "hello" None (Some "static/logo.png") None "none" (VInt 300)
  = demo_call demo.empty_world "hello" None None None "none" (VInt 300).
Proof.
  apply (unreadable_logo_is_no_logo demo.qr_make demo.Image demo.getrgb
           demo.make_image demo.image_width demo.draw demo.resize demo.expand
           demo.image_open demo.composite_logo demo._apply_frame demo.png_encode
           demo.pdf_encode demo.empty_world "static/logo.png").
  left. reflexivity.
Defined.

End render_stages_checked.

(** ** File names made of plain parts *)
Section plain_names.
Import qr_generator render_view.

Lemma split_from_plain (s tail seen : string) :
  has_slash s = false ->
  (forall seen', split_from seen' tail = [seen' +:+ tail]) ->
  split_from seen (s +:+ tail) = [seen +:+ s +:+ tail].
Proof.
  intros Hs Htail. revert seen Hs.
  induction s as [|c s IH]; intros seen Hs; [exact (Htail seen)|].
  cbn [has_slash] in Hs. apply orb_false_iff in Hs as [Hc Hs].
  rewrite append_cons, split_from_cons, IH, append_assoc by assumption.
  reflexivity.
Qed.

Lemma split_from_route_name (kind slug seen : string) :
  has_slash kind = false -> has_slash slug = false ->
  split_from seen (kind +:+ "_" +:+ slug +:+ ".png")
  = [seen +:+ kind +:+ "_" +:+ slug +:+ ".png"].
Proof.
  intros Hk Hs. apply split_from_plain; [exact Hk|].
  intros seen'. rewrite append_cons, split_from_cons by reflexivity.
  change ("" +:+ slug +:+ ".png") with (slug +:+ ".png").
  rewrite (split_from_plain slug ".png" _ Hs split_from_png).
  now rewrite append_assoc.
Qed.

Lemma route_name_proper (kind slug : string) :
  let name := kind +:+ "_" +:+ slug +:+ ".png" in
  name <> "" /\ name <> "." /\ name <> "..".
Proof.
  cbv zeta. destruct kind as [|a [|b kind]]; rewrite ?append_cons;
    repeat split; try discriminate.
  intros [= _ _ H]. destruct kind; discriminate H.
Qed.

Lemma route_name_split (kind slug : string) :
  has_slash kind = false -> has_slash slug = false ->
  split_slash ("static/generated_qr/" +:+ kind +:+ "_" +:+ slug +:+ ".png")
  = ["static"; "generated_qr"; kind +:+ "_" +:+ slug +:+ ".png"].
Proof.
  intros Hk Hs. unfold split_slash.
  change (split_from "" ("static/generated_qr/" +:+ kind +:+ "_" +:+ slug +:+ ".png"))
    with ("static" :: "generated_qr"
          :: split_from "" (kind +:+ "_" +:+ slug +:+ ".png")).
  rewrite (split_from_route_name kind slug "" Hk Hs). reflexivity.
Qed.

(** The path of the file a route writes. *)
Lemma route_path (kind slug : string) :
  has_slash kind = false -> has_slash slug = false ->
  path_join "static/generated_qr" (kind +:+ "_" +:+ slug +:+ ".png")
  = "static/generated_qr/" +:+ kind +:+ "_" +:+ slug +:+ ".png".
Proof.
  intros Hk Hs. unfold path_join.
  assert (Hjoin : posix_join "static/generated_qr" (kind +:+ "_" +:+ slug +:+ ".png")
                  = "static/generated_qr/" +:+ kind +:+ "_" +:+ slug +:+ ".png").
  { unfold posix_join.
    replace (startswith_char "/" (kind +:+ "_" +:+ slug +:+ ".png")) with false.
    - reflexivity.
    - destruct kind as [|c kind]; [reflexivity|].
      cbn [has_slash] in Hk. apply orb_false_iff in Hk as [Hc _].
      rewrite append_cons. cbn [startswith_char]. now rewrite Hc. }
  rewrite Hjoin. unfold pure_path.
  change (splitroot _)
    with ("", "static/generated_qr/" +:+ kind +:+ "_" +:+ slug +:+ ".png").
  cbv beta iota. rewrite (route_name_split kind slug Hk Hs).
  destruct (route_name_proper kind slug) as (H0 & H1 & _).
  cbn [List.filter String.eqb Ascii.eqb Bool.eqb negb andb].
  rewrite (proj2 (String.eqb_neq _ _) H0), (proj2 (String.eqb_neq _ _) H1).
  reflexivity.
Qed.

(** Where the path of a route's file leads. *)
Lemma route_path_resolves (w : world) (kind slug : string) (f : fs_path) :
  has_slash kind = false -> has_slash slug = false ->
  resolve w (path_join "static/generated_qr" (kind +:+ "_" +:+ slug +:+ ".png"))
  = Some f ->
  f = (cwd w ++ ["static"; "generated_qr"; kind +:+ "_" +:+ slug +:+ ".png"])%list.
Proof.
  intros Hk Hs. rewrite (route_path kind slug Hk Hs). unfold resolve.
  change (String.eqb _ "") with false. change (startswith_char "/" _) with false.
  cbv iota. rewrite (route_name_split kind slug Hk Hs).
  apply walk_names.
  destruct (route_name_proper kind slug) as (H0 & H1 & H2).
  repeat constructor; first [discriminate | assumption].
Qed.

Lemma default_path_resolves (w : world) (z : Z) (f : fs_path) :
  resolve w (path_join "static/generated_qr" ("qr_" +:+ fmt z +:+ ".png")) = Some f ->
  f = (cwd w ++ ["static"; "generated_qr"; "qr_" +:+ fmt z +:+ ".png"])%list.
Proof.
  rewrite default_path. unfold resolve.
  change (String.eqb _ "") with false. change (startswith_char "/" _) with false.
  cbv iota. rewrite default_name_split.
  apply walk_names. repeat constructor; discriminate.
Qed.

End plain_names.

(** ** From the form to the files *)
Section route_facts.
Import routes_qr render_view.

Variable QR_THEMES : gmap string (gmap string pyval).
Variable get_qr_style : string → gmap string pyval.
Variable qr_make : string → result (list (list bool)).
Variable Image : Type.
Variable getrgb : string → result (Z * Z * Z).
Variable make_image :
  qr_generator.QRCode → qr_generator.module_drawer → qr_generator.color_mask → Image.
Variable image_width : Image → Z.
Variable draw : Image → list qr_generator.draw_cmd → Image.
Variable resize : Image → Z → result Image.
Variable expand : Image → Z → string → Image.
Variable image_open : list N → result Image.
Variable composite_logo : Image → Image → Z → pyval → pyval → string → result Image.
Variable _apply_frame : Image → string → option string → string → string → Image.
Variable png_encode : Image → list N.
Variable pdf_encode : list N → Z → list N.

Local Notation create kind :=
  (create_qr QR_THEMES get_qr_style qr_make Image getrgb make_image image_width draw
     resize expand image_open composite_logo _apply_frame png_encode pdf_encode kind).

Local Notation render_of :=
  (render_design qr_make Image getrgb make_image image_width draw resize expand
     image_open composite_logo _apply_frame png_encode pdf_encode).

(** A creation that returns, step by step. *)
Lemma create_qr_inv
    kind w w' payload slug logo_fs_path style fg_color bg_color module_style
    eye_style qr_size output_preset export_format frame_style logo_scale
    logo_bg_mode safe_mode d r :
  create kind w payload slug logo_fs_path style fg_color bg_color module_style
    eye_style qr_size output_preset export_format frame_style logo_scale
    logo_bg_mode safe_mode = (Ok (d, r), w') ->
  qr_design.resolve_design QR_THEMES get_qr_style style fg_color bg_color
    module_style eye_style qr_size output_preset export_format frame_style
    logo_scale logo_bg_mode safe_mode = Ok d
  /\ exists w1,
       render_of w payload logo_fs_path d = (Ok r, w1)
       /\ qr_generator.save_file w1
            (qr_generator.path_join "static/generated_qr"
               (kind +:+ "_" +:+ slug +:+ ".png"))
            (qr_generator.bytes r)
          = (Ok (), w').
Proof.
  unfold create_qr.
  destruct (qr_design.resolve_design _ _ _ _ _ _ _ _ _ _ _ _ _ _) as [d0|];
    [|discriminate].
  destruct (render_design _ _ _ _ _ _ _ _ _ _ _ _ _ _ _ _ _) as [[r0|] w1] eqn:Hrender;
    [|discriminate].
  destruct (qr_generator.save_file _ _ _) as [[[]|] w2] eqn:Hsave; [|discriminate].
  intros [= <- <- <-]. split; [reflexivity|]. now exists w1.
Qed.

(** The numbers of a design, as the renderer reads them. *)
Lemma design_numbers
    style fg_color bg_color module_style eye_style qr_size output_preset
    export_format frame_style logo_scale logo_bg_mode safe_mode d :
  qr_design.resolve_design QR_THEMES get_qr_style style fg_color bg_color
    module_style eye_style qr_size output_preset export_format frame_style
    logo_scale logo_bg_mode safe_mode = Ok d ->
  4 <= qr_design.quiet_zone d <= 12
  /\ 72 <= qr_design.dpi d <= 600
  /\ 8 <= qr_design.logo_scale d <= 20.
Proof.
  intros H. apply resolve_design_inv in H.
  destruct H as (preset & base & qr_px & logo & Hpre & _ & _ & _ & ->).
  rewrite quiet_zone_assemble.
  unfold assemble. cbn [qr_design.dpi qr_design.logo_scale]. cbv zeta.
  assert (Hq : 4 <= qr_design.preset_quiet_zone preset <= 12
               /\ 72 <= qr_design.preset_dpi preset <= 600).
  { destruct (preset_lookup_cases _ _ Hpre) as [[_ ->]|[[_ ->]|[[_ ->]|[_ ->]]]];
      cbn; lia. }
  destruct (safe_mode_on safe_mode); lia.
Qed.

Lemma int_of_nonzero (z fallback : Z) : z <> 0 -> int (py_or (VInt z) (VInt fallback)) = Ok z.
Proof.
  intros Hz. unfold py_or, truthy.
  destruct (Z.eqb_spec z 0); [contradiction|reflexivity].
Qed.

Lemma str_or_empty (s : string) : str (py_or (VStr s) (VStr "")) = s.
Proof. unfold py_or, truthy. destruct s; reflexivity. Qed.

(** What the renderer answers for the design it is given. *)
Lemma route_render_inv
    kind w w' payload slug logo_fs_path style fg_color bg_color module_style
    eye_style qr_size output_preset export_format frame_style logo_scale
    logo_bg_mode safe_mode d r :
  create kind w payload slug logo_fs_path style fg_color bg_color module_style
    eye_style qr_size output_preset export_format frame_style logo_scale
    logo_bg_mode safe_mode = (Ok (d, r), w') ->
  qr_generator.pdf_bytes r = pdf_encode (qr_generator.bytes r) (qr_design.dpi d)
  /\ qr_generator.contrast_ratio r
     = qr_generator._contrast_ratio
         (VStr (qr_generator._normalize_hex (VStr (qr_design.fg d))
                  qr_generator.DEFAULT_FG))
         (VStr (qr_generator._normalize_hex (VStr (qr_design.bg d))
                  qr_generator.DEFAULT_BG))
  /\ qr_generator.quality_warnings r
     = ((if Rlt_dec (qr_generator.contrast_ratio r) 4.5
         then [qr_generator.LowContrast (qr_generator.contrast_ratio r)] else [])
        ++ (if String.eqb (lower (strip (qr_design.module_style d))) "thin-line"
               && (qr_design.qr_size d <? 700)
            then [qr_generator.ThinLineSmall] else []))%list.
Proof.
  intros H. apply create_qr_inv in H. destruct H as (Hd & w1 & Hrender & _).
  destruct (design_numbers _ _ _ _ _ _ _ _ _ _ _ _ _ Hd) as (Hq & Hdpi & Hlogo).
  unfold render_design in Hrender. apply render_returns_inv in Hrender.
  destruct Hrender
    as (w0 & quiet & logo & resolution & _ & _ & _ & Hquiet & Hscale & Hres & Hpdf
        & Hcontrast & Hwarn).
  rewrite int_of_nonzero in Hquiet, Hscale, Hres by lia.
  injection Hquiet as <-. injection Hscale as <-. injection Hres as <-.
  rewrite str_or_empty in Hwarn.
  replace (qr_design.quiet_zone d <? 4) with false in Hwarn by (symmetry; lia).
  replace (qr_design.logo_scale d >? 20) with false in Hwarn by (symmetry; lia).
  cbn [app] in Hwarn. rewrite app_nil_r in Hwarn.
  split; [rewrite Hpdf; f_equal; lia|]. split; [exact Hcontrast|exact Hwarn].
Qed.

(** X19: a code created through a route is rendered with the numbers of its
    design: the PDF has the resolution of the design, and the renderer never
    warns of a small quiet zone or of a clamped logo; it warns of thin lines
    exactly when the module style of the design reads thin-line, ignoring
    case and blanks, and the size is below 700. *)
Theorem created_code_follows_the_design
    kind w w' payload slug logo_fs_path style fg_color bg_color module_style
    eye_style qr_size output_preset export_format frame_style logo_scale
    logo_bg_mode safe_mode d r :
  create kind w payload slug logo_fs_path style fg_color bg_color module_style
    eye_style qr_size output_preset export_format frame_style logo_scale
    logo_bg_mode safe_mode = (Ok (d, r), w') ->
  qr_generator.pdf_bytes r = pdf_encode (qr_generator.bytes r) (qr_design.dpi d)
  /\ (forall q, q ∈ qr_generator.quality_warnings r ->
      q = qr_generator.LowContrast (qr_generator.contrast_ratio r)
      \/ q = qr_generator.ThinLineSmall)
  /\ (qr_generator.ThinLineSmall ∈ qr_generator.quality_warnings r
      <-> lower (strip (qr_design.module_style d)) = "thin-line"
          /\ qr_design.qr_size d < 700).
Proof.
  intros H. apply route_render_inv in H. destruct H as (Hpdf & _ & Hwarn).
  split; [exact Hpdf|]. rewrite Hwarn. split.
  - intros q. rewrite elem_of_app.
    destruct (Rlt_dec _ 4.5); destruct (_ && _);
      rewrite ?elem_of_cons, ?elem_of_nil; tauto.
  - rewrite elem_of_app.
    destruct (String.eqb_spec (lower (strip (qr_design.module_style d))) "thin-line")
      as [Hm|Hm];
      destruct (Z.ltb_spec (qr_design.qr_size d) 700) as [Hs|Hs]; cbn [andb];
      destruct (Rlt_dec _ 4.5); rewrite ?elem_of_cons, ?elem_of_nil;
      intuition (first [discriminate | lia | congruence]).
Qed.

(** X20: every creation that returns leaves the same PNG twice under
    static/generated_qr: once as qr_, the time and .png, written by the
    renderer, and once under the name of the route, written by the route.
    The kind and the slug hold no slash, and the kind does not begin with a
    q, as the kinds of the routes do not. *)
Theorem creation_stores_the_png_twice
    kind w w' payload slug logo_fs_path style fg_color bg_color module_style
    eye_style qr_size output_preset export_format frame_style logo_scale
    logo_bg_mode safe_mode d r :
  has_slash kind = false -> has_slash slug = false ->
  startswith_char "q" kind = false ->
  create kind w payload slug logo_fs_path style fg_color bg_color module_style
    eye_style qr_size output_preset export_format frame_style logo_scale
    logo_bg_mode safe_mode = (Ok (d, r), w') ->
  let output_dir := (qr_generator.cwd w ++ ["static"; "generated_qr"])%list in
  let by_renderer := (output_dir ++ ["qr_" +:+ fmt (qr_generator.clock w) +:+ ".png"])%list in
  let by_route := (output_dir ++ [kind +:+ "_" +:+ slug +:+ ".png"])%list in
  by_renderer <> by_route
  /\ qr_generator.files w'
     = <[ by_route := qr_generator.bytes r ]>
         (<[ by_renderer := qr_generator.bytes r ]> (qr_generator.files w))
  /\ qr_generator.files w' !! by_renderer = Some (qr_generator.bytes r)
  /\ qr_generator.files w' !! by_route = Some (qr_generator.bytes r).
Proof.
  intros Hk Hs Hq H output_dir by_renderer by_route.
  apply create_qr_inv in H. destruct H as (_ & w1 & Hrender & Hsave).
  unfold render_design in Hrender. apply render_returns_inv in Hrender.
  destruct Hrender as (w0 & _ & _ & _ & Hmk & Hsave0 & Hpath & _).
  apply mkdir_output_dir in Hmk.
  destruct Hmk as (_ & Hf0 & Hc0 & Hw0).
  apply save_file_writes in Hsave0, Hsave.
  destruct Hsave0 as (f0 & Hres0 & _ & _ & Hf1 & _ & Hw1).
  destruct Hsave as (f & Hres & _ & _ & Hf & _ & _).
  rewrite Hpath in Hres0. apply default_path_resolves in Hres0.
  apply (route_path_resolves _ _ _ _ Hk Hs) in Hres.
  rewrite Hw0 in Hres0. rewrite Hw1, Hw0 in Hres.
  assert (E0 : f0 = by_renderer)
    by (rewrite Hres0; subst by_renderer output_dir; now rewrite <- app_assoc).
  assert (E : f = by_route)
    by (rewrite Hres; subst by_route output_dir; now rewrite <- app_assoc).
  subst f0 f.
  assert (Hne : by_renderer <> by_route).
  { subst by_renderer by_route. intros Heq. apply app_inv_head in Heq.
    injection Heq as Heq. destruct kind as [|c kind].
    - discriminate Heq.
    - rewrite !append_cons in Heq. injection Heq as <- _. discriminate Hq. }
  split; [exact Hne|].
  assert (Hfiles : qr_generator.files w'
                   = <[ by_route := qr_generator.bytes r ]>
                       (<[ by_renderer := qr_generator.bytes r ]> (qr_generator.files w)))
    by (rewrite Hf, Hf1, Hf0, E, E0; reflexivity).
  split; [exact Hfiles|]. rewrite Hfiles. split.
  - rewrite lookup_insert_ne by (intros Heq; now apply Hne).
    apply lookup_insert_eq.
  - apply lookup_insert_eq.
Qed.

Lemma normalize_hex_shaped (s fallback : string) :
  hex_shaped (strip s) = true ->
  qr_generator._normalize_hex (VStr s) fallback = strip s.
Proof.
  unfold qr_generator._normalize_hex, hex_shaped. rewrite str_or_empty.
  now intros ->.
Qed.

Lemma hex_to_rgb_strip (s : string) :
  qr_design._hex_to_rgb (VStr (strip s)) = qr_design._hex_to_rgb (VStr s).
Proof. unfold qr_design._hex_to_rgb. now rewrite !str_or_empty, strip_idem. Qed.

Lemma contrast_ratio_strip (f b : string) :
  qr_design._contrast_ratio (VStr (strip f)) (VStr (strip b))
  = qr_design._contrast_ratio (VStr f) (VStr b).
Proof. unfold qr_design._contrast_ratio. now rewrite !hex_to_rgb_strip. Qed.

(** X21: when the two colours of the design are a hash sign and three or six
    characters, blanks around them aside, the renderer computes the contrast
    the design carries and warns of low contrast exactly when the design
    does; with safe mode on, the code is then drawn with a contrast of at
    least 4.5. *)
Theorem renderer_contrast_is_the_design_s
    kind w w' payload slug logo_fs_path style fg_color bg_color module_style
    eye_style qr_size output_preset export_format frame_style logo_scale
    logo_bg_mode safe_mode d r :
  create kind w payload slug logo_fs_path style fg_color bg_color module_style
    eye_style qr_size output_preset export_format frame_style logo_scale
    logo_bg_mode safe_mode = (Ok (d, r), w') ->
  hex_shaped (strip (qr_design.fg d)) = true ->
  hex_shaped (strip (qr_design.bg d)) = true ->
  qr_generator.contrast_ratio r = qr_design.contrast_ratio d
  /\ (qr_generator.LowContrast (qr_design.contrast_ratio d)
        ∈ qr_generator.quality_warnings r
      <-> qr_design.LowContrast (qr_design.contrast_ratio d) ∈ qr_design.warnings d)
  /\ (qr_design.safe_mode d = true ->
      (qr_generator.contrast_ratio r >= 4.5)%R
      /\ forall c, qr_generator.LowContrast c ∉ qr_generator.quality_warnings r).
Proof.
  intros H Hfg Hbg.
  pose proof (route_render_inv _ _ _ _ _ _ _ _ _ _ _ _ _ _ _ _ _ _ _ _ H)
    as (_ & Hcontrast & Hwarn).
  apply create_qr_inv in H. destruct H as (Hd & _).
  pose proof (design_warnings _ _ _ _ _ _ _ _ _ _ _ _ _ _ _ Hd) as Hdw.
  apply resolve_design_inv in Hd.
  destruct Hd as (preset & base & qr_px & logo & _ & _ & _ & _ & Hd).
  assert (Hsame : qr_generator.contrast_ratio r = qr_design.contrast_ratio d).
  { rewrite Hcontrast, !normalize_hex_shaped by assumption.
    change (qr_generator._contrast_ratio ?a ?b) with (qr_design._contrast_ratio a b).
    rewrite contrast_ratio_strip. subst d. symmetry. apply assemble_contrast. }
  split; [exact Hsame|]. rewrite Hwarn, Hdw, Hsame. split.
  - repeat match goal with
           | |- context [if ?b then _ else _] => destruct b
           end;
      rewrite ?elem_of_app, ?elem_of_cons, ?elem_of_nil;
      intuition (first [discriminate | congruence]).
  - intros Hon.
    assert (Hhigh : (qr_design.contrast_ratio d >= 4.5)%R).
    { subst d. revert Hon. unfold assemble.
      cbn [qr_design.contrast_ratio qr_design.safe_mode]. cbv zeta.
      intros ->. apply policy_contrast. }
    split; [exact Hhigh|]. intros c.
    repeat match goal with
           | |- context [if ?b then _ else _] => destruct b
           end;
      rewrite ?elem_of_app, ?elem_of_cons, ?elem_of_nil;
      first [lra | intuition congruence].
Qed.

(** X22: safe mode looks for the module style thin-line as written, the
    renderer after trimming and lower-casing.  For the style custom, a module
    style that only reads thin-line once trimmed and lower-cased is kept by
    the design at a size below 700, safe mode or not, without a warning; the
    renderer draws it as thin lines and gives the warning. *)
Theorem thin_lines_written_otherwise_pass_safe_mode
    kind w w' payload slug logo_fs_path style fg_color bg_color (m : string)
    eye_style qr_size output_preset export_format frame_style logo_scale
    logo_bg_mode safe_mode d r :
  create kind w payload slug logo_fs_path style fg_color bg_color (VStr m)
    eye_style qr_size output_preset export_format frame_style logo_scale
    logo_bg_mode safe_mode = (Ok (d, r), w') ->
  style_key QR_THEMES style = "custom" ->
  lower (strip m) = "thin-line" ->
  m <> "thin-line" ->
  qr_design.qr_size d < 700 ->
  qr_design.module_style d = m
  /\ qr_design.ThinLineSmall ∉ qr_design.warnings d
  /\ qr_generator._module_drawer (VStr (qr_design.module_style d))
     = qr_generator.VerticalBarsDrawer
  /\ qr_generator.ThinLineSmall ∈ qr_generator.quality_warnings r.
Proof.
  intros H Hkey Hthin Hm Hsize.
  pose proof (route_render_inv _ _ _ _ _ _ _ _ _ _ _ _ _ _ _ _ _ _ _ _ H)
    as (_ & _ & Hwarn).
  apply create_qr_inv in H. destruct H as (Hd & _).
  pose proof (design_warnings _ _ _ _ _ _ _ _ _ _ _ _ _ _ _ Hd) as Hdw.
  assert (Hmod : qr_design.module_style d = m).
  { apply resolve_design_inv in Hd.
    destruct Hd as (preset & base & qr_px & logo & _ & Hbase & _ & _ & ->).
    rewrite module_style_assemble.
    apply base_style_eye_module in Hbase. destruct Hbase as [_ Hbase].
    rewrite Hkey in Hbase. cbn [String.eqb Ascii.eqb Bool.eqb] in Hbase.
    assert (Hne : m <> "") by (intros ->; discriminate Hthin).
    unfold py_or at 2 in Hbase. cbn [truthy] in Hbase.
    rewrite (eqb_empty_false _ Hne) in Hbase. cbn [negb] in Hbase.
    unfold py_or in Hbase. cbn [truthy] in Hbase.
    rewrite (eqb_empty_false _ Hne) in Hbase. cbn [negb str] in Hbase.
    rewrite Hbase, (proj2 (String.eqb_neq _ _) Hm). cbn [andb].
    now rewrite andb_false_r. }
  split; [exact Hmod|]. rewrite Hdw, Hwarn, Hmod, Hthin.
  rewrite (proj2 (String.eqb_neq _ _) Hm).
  change (String.eqb "thin-line" "thin-line") with true.
  replace (qr_design.qr_size d <? 700) with true by (symmetry; lia).
  cbn [andb app].
  split; [|split].
  - repeat match goal with
           | |- context [if ?b then _ else _] => destruct b
           end;
      rewrite ?elem_of_app, ?elem_of_cons, ?elem_of_nil; intuition congruence.
  - unfold qr_generator._module_drawer, py_or. cbn [truthy].
    assert (Hne : m <> "") by (intros ->; discriminate Hthin).
    rewrite (eqb_empty_false _ Hne). cbn [negb str]. rewrite Hthin. reflexivity.
  - rewrite elem_of_app, elem_of_cons. auto.
Qed.

End route_facts.

Section route_facts_checked.
Import routes_qr render_view.

Local Notation create_url w :=
  (create_qr demo.QR_THEMES demo.get_qr_style demo.qr_make demo.Image demo.getrgb
     demo.make_image demo.image_width demo.draw demo.resize demo.expand
     demo.image_open demo.composite_logo demo._apply_frame demo.png_encode
     demo.pdf_encode "url" w "hello" "0123456789" None).

(** Colours with enough contrast are the colours of the design, safe mode or
    not. *)
Lemma colours_kept key output preset base qr_px logo
    export_format frame_style logo_bg_mode safe_mode :
  (qr_design._contrast_ratio (VStr base.1.1.1) (VStr base.1.1.2) >= 4.5)%R ->
  let d := assemble key output preset base qr_px logo export_format frame_style
             logo_bg_mode safe_mode in
  qr_design.fg d = base.1.1.1 /\ qr_design.bg d = base.1.1.2.
Proof.
  intros Hhigh. unfold assemble. cbn [qr_design.fg qr_design.bg]. cbv zeta.
  destruct (safe_mode_on safe_mode); [|split; reflexivity].
  unfold safe_mode_policy, flip_foreground, initial_styling.
  cbn [st_contrast st_fg st_bg st_module st_quiet_zone st_applied].
  destruct (Rlt_dec _ 4.5) as [Hlow|_]; [lra|].
  unfold force_safe_pair. cbn [st_contrast].
  destruct (Rlt_dec _ 4.5) as [Hlow|_]; [lra|].
  unfold square_thin_lines. cbn [st_module].
  destruct (_ && _); unfold raise_quiet_zone; cbn [st_quiet_zone];
    destruct (_ <? 4); split; reflexivity.
Qed.

(** The theme classic, nothing else given. *)
Lemma run_classic_plain :
  qr_design.resolve_design demo.QR_THEMES demo.get_qr_style
    (VStr "classic") VNone VNone VNone VNone VNone VNone VNone VNone VNone VNone
    VNone
  = Ok (assemble "classic" "web" demo.web_preset
          ("#000000", "#FFFFFF", "square", "square") 600 20
          VNone VNone VNone VNone).
Proof. rewrite resolve_design_unfold. reflexivity. Qed.

Lemma create_classic_returns :
  raises (create_url demo.empty_world (VStr "classic") VNone VNone VNone VNone VNone
            VNone VNone VNone VNone VNone VNone).1 = false.
Proof. unfold create_qr. rewrite run_classic_plain. reflexivity. Qed.

Lemma created_code_follows_the_design_witness :
  exists d r w',
    create_url demo.empty_world (VStr "classic") VNone VNone VNone VNone VNone VNone
      VNone VNone VNone VNone VNone = (Ok (d, r), w')
    /\ qr_generator.pdf_bytes r = demo.pdf_encode (qr_generator.bytes r) (qr_design.dpi d)
    /\ (qr_generator.ThinLineSmall ∈ qr_generator.quality_warnings r
        <-> lower (strip (qr_design.module_style d)) = "thin-line"
            /\ qr_design.qr_size d < 700).
Proof.
  pose proof create_classic_returns as Hret.
  destruct (create_url demo.empty_world (VStr "classic") VNone VNone VNone VNone VNone
              VNone VNone VNone VNone VNone VNone) as [[[d r]|e] w'] eqn:Hrun;
    [|discriminate Hret].
  exists d, r, w'. split; [reflexivity|].
  destruct (created_code_follows_the_design _ _ _ _ _ _ _ _ _ _ _ _ _ _ _ _ _ _ _ _
              _ _ _ _ _ _ _ _ _ _ _ _ _ _ _ Hrun) as (Hpdf & _ & Hthin).
  split; assumption.
Defined.

Lemma creation_stores_the_png_twice_witness :
  exists d r w',
    create_url demo.empty_world (VStr "classic") VNone VNone VNone VNone VNone VNone
      VNone VNone VNone VNone VNone = (Ok (d, r), w')
    /\ qr_generator.files w'
       = <[ ["srv"; "app"; "static"; "generated_qr"; "url_0123456789.png"]
            := qr_generator.bytes r ]>
           (<[ ["srv"; "app"; "static"; "generated_qr"; "qr_1700000000.png"]
               := qr_generator.bytes r ]> ∅).
Proof.
  pose proof create_classic_returns as Hret.
  destruct (create_url demo.empty_world (VStr "classic") VNone VNone VNone VNone VNone
              VNone VNone VNone VNone VNone VNone) as [[[d r]|e] w'] eqn:Hrun;
    [|discriminate Hret].
  exists d, r, w'. split; [reflexivity|].
  refine (proj1 (proj2 (creation_stores_the_png_twice _ _ _ _ _ _ _ _ _ _ _ _ _ _ _ _
                          _ _ _ _ _ _ _ _ _ _ _ _ _ _ _ _ _ _ _ _ _ _ Hrun)));
    reflexivity.
Defined.

Lemma renderer_contrast_is_the_design_s_witness :
  exists d r w',
    create_url demo.empty_world (VStr "classic") VNone VNone VNone VNone VNone VNone
      VNone VNone VNone VNone VNone = (Ok (d, r), w')
    /\ qr_generator.contrast_ratio r = qr_design.contrast_ratio d.
Proof.
  pose proof create_classic_returns as Hret.
  destruct (create_url demo.empty_world (VStr "classic") VNone VNone VNone VNone VNone
              VNone VNone VNone VNone VNone VNone) as [[[d r]|e] w'] eqn:Hrun;
    [|discriminate Hret].
  exists d, r, w'. split; [reflexivity|].
  pose proof (proj1 (create_qr_inv _ _ _ _ _ _ _ _ _ _ _ _ _ _ _ _ _ _ _ _ _ _ _ _ _
                       _ _ _ _ _ _ _ _ _ _ Hrun)) as Hd.
  rewrite run_classic_plain in Hd. injection Hd as Hd.
  apply (renderer_contrast_is_the_design_s _ _ _ _ _ _ _ _ _ _ _ _ _ _ _ _ _ _ _ _
           _ _ _ _ _ _ _ _ _ _ _ _ _ _ _ Hrun); rewrite <- Hd; reflexivity.
Defined.

(** Thin lines written with a blank and capitals, at 500 pixels, safe mode on. *)
Lemma run_thin_written_otherwise :
  qr_design.resolve_design demo.QR_THEMES demo.get_qr_style
    (VStr "custom") VNone VNone (VStr " Thin-Line") VNone (VInt 500) VNone VNone
    VNone VNone VNone (VStr "on")
  = Ok (assemble "custom" "web" demo.web_preset
          ("#000000", "#FFFFFF", " Thin-Line", "square") 500 20
          VNone VNone VNone (VStr "on")).
Proof. rewrite resolve_design_unfold. reflexivity. Qed.

Lemma create_thin_returns :
  raises (create_url demo.empty_world (VStr "custom") VNone VNone (VStr " Thin-Line")
            VNone (VInt 500) VNone VNone VNone VNone VNone (VStr "on")).1 = false.
Proof.
  unfold create_qr. rewrite run_thin_written_otherwise. unfold render_design.
  destruct (colours_kept "custom" "web" demo.web_preset
              ("#000000", "#FFFFFF", " Thin-Line", "square") 500 20
              VNone VNone VNone (VStr "on") black_on_white_contrast) as [-> ->].
  rewrite module_style_assemble, quiet_zone_assemble.
  reflexivity.
Qed.

Lemma thin_lines_written_otherwise_pass_safe_mode_witness :
  exists d r w',
    create_url demo.empty_world (VStr "custom") VNone VNone (VStr " Thin-Line")
      VNone (VInt 500) VNone VNone VNone VNone VNone (VStr "on") = (Ok (d, r), w')
    /\ qr_design.safe_mode d = true
    /\ qr_design.module_style d = " Thin-Line"
    /\ qr_design.ThinLineSmall ∉ qr_design.warnings d
    /\ qr_generator.ThinLineSmall ∈ qr_generator.quality_warnings r.
Proof.
  pose proof create_thin_returns as Hret.
  destruct (create_url demo.empty_world (VStr "custom") VNone VNone (VStr " Thin-Line")
              VNone (VInt 500) VNone VNone VNone VNone VNone (VStr "on"))
    as [[[d r]|e] w'] eqn:Hrun; [|discriminate Hret].
  exists d, r, w'. split; [reflexivity|].
  pose proof (proj1 (create_qr_inv _ _ _ _ _ _ _ _ _ _ _ _ _ _ _ _ _ _ _ _ _ _ _ _ _
                       _ _ _ _ _ _ _ _ _ _ Hrun)) as Hd.
  rewrite run_thin_written_otherwise in Hd. injection Hd as Hd.
  split; [rewrite <- Hd; reflexivity|].
  destruct (thin_lines_written_otherwise_pass_safe_mode _ _ _ _ _ _ _ _ _ _ _ _ _ _
              _ _ _ _ _ _ _ _ _ _ _ _ _ _ _ _ _ _ _ _ _ Hrun)
    as (Hm & Hw & _ & Hq);
    [reflexivity|reflexivity|discriminate|rewrite <- Hd; reflexivity|].
  repeat split; assumption.
Defined.

(** Black on a black written without the hash sign, safe mode on. *)
Lemma luminance_black : qr_design._relative_luminance (0, 0, 0) = 0%R.
Proof.
  unfold qr_design._relative_luminance, qr_design.comp.
  destruct (Rle_dec _ _) as [_|Hn]; lra.
Qed.

Lemma black_on_unhashed_black :
  qr_design._contrast_ratio (VStr "#000000") (VStr "000000") = 1%R.
Proof.
  change (qr_design._contrast_ratio (VStr "#000000") (VStr "000000"))
    with (qr_design._contrast_ratio (VStr "#000000") (VStr "#000000")).
  apply contrast_with_itself.
Qed.

Lemma white_on_unhashed_black :
  (qr_design._contrast_ratio (VStr "#FFFFFF") (VStr "000000") >= 4.5)%R.
Proof.
  unfold qr_design._contrast_ratio.
  change (qr_design._hex_to_rgb (VStr "000000")) with (0, 0, 0).
  change (qr_design._hex_to_rgb (VStr "#FFFFFF")) with (255, 255, 255).
  rewrite luminance_white, luminance_black.
  apply (ratio_ge 4.5 1 0); lra.
Qed.

Lemma unhashed_policy :
  safe_mode_policy 600
    (initial_styling ("#000000", "000000", "square", "square") demo.web_preset)
  = {| st_fg := "#FFFFFF"; st_bg := "000000"; st_module := "square";
       st_quiet_zone := 4;
       st_contrast := qr_design._contrast_ratio (VStr "#FFFFFF") (VStr "000000");
       st_applied := true |}.
Proof.
  unfold safe_mode_policy, initial_styling, flip_foreground.
  cbn [st_contrast st_bg st_fg st_module st_quiet_zone st_applied fst snd].
  pose proof black_on_unhashed_black. pose proof white_on_unhashed_black.
  destruct (Rlt_dec _ _); [|lra].
  change (qr_design._hex_to_rgb (VStr "000000")) with (0, 0, 0).
  rewrite luminance_black.
  destruct (Rgt_dec _ _); [lra|].
  unfold force_safe_pair. cbn [st_contrast].
  destruct (Rlt_dec _ _); [lra|].
  reflexivity.
Qed.

Lemma run_unhashed :
  qr_design.resolve_design demo.QR_THEMES demo.get_qr_style
    (VStr "custom") (VStr "#000000") (VStr "000000") VNone VNone VNone VNone VNone
    VNone VNone VNone (VStr "on")
  = Ok (assemble "custom" "web" demo.web_preset
          ("#000000", "000000", "square", "square") 600 20
          VNone VNone VNone (VStr "on")).
Proof. rewrite resolve_design_unfold. reflexivity. Qed.

Lemma unhashed_design :
  let d := assemble "custom" "web" demo.web_preset
             ("#000000", "000000", "square", "square") 600 20
             VNone VNone VNone (VStr "on") in
  qr_design.fg d = "#FFFFFF" /\ qr_design.bg d = "000000"
  /\ qr_design.contrast_ratio d
     = qr_design._contrast_ratio (VStr "#FFFFFF") (VStr "000000")
  /\ qr_design.safe_mode_applied d = true.
Proof.
  unfold assemble.
  cbn [qr_design.fg qr_design.bg qr_design.contrast_ratio qr_design.safe_mode_applied].
  change (safe_mode_on (VStr "on")) with true. cbv zeta iota.
  rewrite unhashed_policy. repeat split.
Qed.

Lemma create_unhashed_returns :
  raises (create_url demo.empty_world (VStr "custom") (VStr "#000000") (VStr "000000")
            VNone VNone VNone VNone VNone VNone VNone VNone (VStr "on")).1 = false.
Proof.
  unfold create_qr. rewrite run_unhashed. unfold render_design.
  destruct unhashed_design as (-> & -> & _).
  rewrite module_style_assemble, quiet_zone_assemble.
  reflexivity.
Qed.

(** Without the hash sign the two sides part: the resolver reads the
    background 000000 as black, turns the foreground white and is content;
    the renderer takes white for a background it cannot read, and draws
    white on white. *)
Example safe_mode_can_whiten_the_code :
  exists d r w',
    create_url demo.empty_world (VStr "custom") (VStr "#000000") (VStr "000000")
      VNone VNone VNone VNone VNone VNone VNone VNone (VStr "on") = (Ok (d, r), w')
    /\ qr_design.fg d = "#FFFFFF" /\ qr_design.bg d = "000000"
    /\ qr_design.safe_mode_applied d = true
    /\ (qr_design.contrast_ratio d >= 4.5)%R
    /\ qr_generator.contrast_ratio r = 1%R
    /\ qr_generator.quality_warnings r = [qr_generator.LowContrast 1].
Proof.
  pose proof create_unhashed_returns as Hret.
  destruct (create_url demo.empty_world (VStr "custom") (VStr "#000000")
              (VStr "000000") VNone VNone VNone VNone VNone VNone VNone VNone
              (VStr "on")) as [[[d r]|e] w'] eqn:Hrun; [|discriminate Hret].
  exists d, r, w'. split; [reflexivity|].
  pose proof (route_render_inv _ _ _ _ _ _ _ _ _ _ _ _ _ _ _ _ _ _ _ _ _ _ _ _ _ _ _
                _ _ _ _ _ _ _ _ Hrun) as (_ & Hcontrast & Hwarn).
  pose proof (proj1 (create_qr_inv _ _ _ _ _ _ _ _ _ _ _ _ _ _ _ _ _ _ _ _ _ _ _ _ _
                       _ _ _ _ _ _ _ _ _ _ Hrun)) as Hd.
  rewrite run_unhashed in Hd. injection Hd as Hd.
  destruct unhashed_design as (Hfg & Hbg & Hc & Happlied).
  rewrite Hd in Hfg, Hbg, Hc, Happlied.
  assert (Hone : qr_generator.contrast_ratio r = 1%R).
  { rewrite Hcontrast, Hfg, Hbg.
    change (qr_generator._normalize_hex (VStr "#FFFFFF") qr_generator.DEFAULT_FG)
      with "#FFFFFF".
    change (qr_generator._normalize_hex (VStr "000000") qr_generator.DEFAULT_BG)
      with "#FFFFFF".
    change (qr_generator._contrast_ratio ?a ?b) with (qr_design._contrast_ratio a b).
    apply contrast_with_itself. }
  split; [exact Hfg|]. split; [exact Hbg|]. split; [exact Happlied|].
  split; [rewrite Hc; exact white_on_unhashed_black|].
  split; [exact Hone|].
  rewrite Hwarn, Hone, <- Hd, module_style_assemble.
  destruct (Rlt_dec 1 4.5) as [_|Hn]; [reflexivity|lra].
Qed.

End route_facts_checked.
